(** * isbclient: the Innovation Sandbox HTTP client

    A shallow embedding of the Go package [isbclient] (client.go, types.go,
    errors.go, auth.go) and the properties of its error classifier, its
    transport helpers, its lease operations, its query builders and its
    pagination drainer.

    Byte slices and Go strings are [string] (a sequence of 8-bit characters);
    Go's [int] is [Z]; a nil pointer or nil slice of bytes is [None].
    Everything the package takes from other packages (encoding/json, net/url,
    net/http, the JWT library) is an interface: the classes [EncodingJSON] and
    [Platform] and a [Server] answering the requests.  The theorems hold for
    every implementation of these; a small reference implementation lets the
    examples run. *)

From Stdlib Require Import String Ascii List ZArith Lia Bool.
From stdpp Require Import base option list gmap strings sorting.

Local Open Scope string_scope.
Local Open Scope Z_scope.

(** ** Go's [strings] package *)

Definition HasPrefix (s prefix : string) : bool := String.prefix prefix s.

Fixpoint Contains (s substr : string) : bool :=
  String.prefix substr s
  || match s with
     | EmptyString => false
     | String _ s' => Contains s' substr
     end.

(** The double quote. *)
Definition dquote : ascii := "034"%char.

(** [string(b)] for a byte slice that may be nil. *)
Definition string_of_bytes (b : option string) : string := default "" b.

(** ** JSON values held in [interface{}] fields *)

#[local] Set Warnings "-register-all".

Inductive JSON : Type :=
| JNull
| JBool (b : bool)
| JNumber (literal : string)
| JString (s : string)
| JArray (items : list JSON)
| JObject (members : list (string * JSON)).

(** [map[string]interface{}]; [None] is the nil map. *)
Definition JSONMap : Type := option (list (string * JSON)).

(** IEEE-754 binary64 numbers are carried by their bit pattern: the client
    stores and forwards them and never computes with them. *)
Definition float64 : Type := Z.

(** ** errors.go *)

Record FailErrorDetail := { Message : string }.

Module APIResponseError.
Record t := { StatusCode : Z; Body : string; Message : string }.
End APIResponseError.

(** The error values of the package.  [errorString] is an error made by
    [fmt.Errorf] or by a library, identified by its text. *)
Inductive error : Type :=
| errorString (text : string)
| APIRequestError (Op URL : string) (Err : error)
| ResponseError (e : APIResponseError.t)
| FailResponseError (Status : string) (Errors : list FailErrorDetail) (StatusCode : Z)
| ServerError (e : APIResponseError.t) (Code : Z) (Data : JSONMap)
| JSONDecodingError (Err : error)
| BadRequestError (e : APIResponseError.t) (Errors : list FailErrorDetail) (RequestBody : string)
| UnauthorizedError (e : APIResponseError.t)
| NotFoundError (e : APIResponseError.t) (Errors : list FailErrorDetail)
| ConflictError (e : APIResponseError.t) (Errors : list FailErrorDetail)
| LeaseNotFoundError (e : APIResponseError.t) (Errors : list FailErrorDetail)
| LeaseTemplateNotFoundError (e : APIResponseError.t) (Errors : list FailErrorDetail)
| AccountNotFoundError (e : APIResponseError.t) (Errors : list FailErrorDetail)
| LeaseConflictError (e : APIResponseError.t) (Errors : list FailErrorDetail)
| LeaseTemplateConflictError (e : APIResponseError.t) (Errors : list FailErrorDetail)
| AccountConflictError (e : APIResponseError.t) (Errors : list FailErrorDetail).

(** The struct literal [APIResponseError{StatusCode: c, Message: m}]. *)
Definition withMessage (c : Z) (m : string) : APIResponseError.t :=
  {| APIResponseError.StatusCode := c;
     APIResponseError.Body := "";
     APIResponseError.Message := m |}.

(** The two anonymous structs [DecodeAPIError] decodes into. *)
Module failBody.
Record t := { Status : string; Errors : list FailErrorDetail }.
Definition zero : t := {| Status := ""; Errors := [] |}.
End failBody.

Module errorBody.
Record t := { Status : string; Message : string; Code : Z; Data : JSONMap }.
Definition zero : t := {| Status := ""; Message := ""; Code := 0; Data := None |}.
End errorBody.

(** ** net/url and net/http values *)

Module URL.
Record t := { Scheme : string; Host : string; Path : string; RawQuery : string }.
End URL.

Module Request.
Record t := {
  Method : string;
  URL : URL.t;
  ContentType : string;      (* Header "Content-Type", empty when unset *)
  Authorization : string;    (* Header "Authorization", empty when unset *)
  Body : option string
}.
End Request.

Module Response.
Record t := {
  StatusCode : Z;
  ContentType : string;      (* Header.Get("Content-Type") *)
  Body : string;             (* the bytes the body stream delivers *)
  Request : Request.t        (* the request this response answers *)
}.
End Response.

(** ** types.go *)

Definition ReviewApprove : string := "Approve".
Definition ReviewDeny : string := "Deny".

Module BudgetThreshold.
Record t := { DollarsSpent : float64; Action : string }.
End BudgetThreshold.

Module DurationThreshold.
Record t := { HoursRemaining : float64; Action : string }.
End DurationThreshold.

Module MetaData.
Record t := { CreatedTime : string; LastEditTime : string; SchemaVersion : string }.
Definition zero : t := {| CreatedTime := ""; LastEditTime := ""; SchemaVersion := "" |}.
End MetaData.

Module Lease.
Record t := {
  UserEmail : string;
  UUID : string;
  Status : string;
  OriginalLeaseTemplateUuid : string;
  OriginalLeaseTemplateName : string;
  LeaseDurationInHours : Z;
  MaxSpend : float64;
  BudgetThresholds : list BudgetThreshold.t;
  DurationThresholds : list DurationThreshold.t;
  Comments : string;
  AwsAccountId : string;
  LeaseId : string;
  StartDate : string;
  ExpirationDate : string;
  EndDate : string;
  TotalCostAccrued : float64;
  Meta : MetaData.t
}.

Definition zero : t :=
  {| UserEmail := ""; UUID := ""; Status := "";
     OriginalLeaseTemplateUuid := ""; OriginalLeaseTemplateName := "";
     LeaseDurationInHours := 0; MaxSpend := 0;
     BudgetThresholds := []; DurationThresholds := [];
     Comments := ""; AwsAccountId := ""; LeaseId := "";
     StartDate := ""; ExpirationDate := ""; EndDate := "";
     TotalCostAccrued := 0; Meta := MetaData.zero |}.

(** The assignment [wrapper.Data.LeaseId = id]. *)
Definition setLeaseId (id : string) (l : t) : t :=
  {| UserEmail := UserEmail l; UUID := UUID l; Status := Status l;
     OriginalLeaseTemplateUuid := OriginalLeaseTemplateUuid l;
     OriginalLeaseTemplateName := OriginalLeaseTemplateName l;
     LeaseDurationInHours := LeaseDurationInHours l; MaxSpend := MaxSpend l;
     BudgetThresholds := BudgetThresholds l;
     DurationThresholds := DurationThresholds l;
     Comments := Comments l; AwsAccountId := AwsAccountId l; LeaseId := id;
     StartDate := StartDate l; ExpirationDate := ExpirationDate l;
     EndDate := EndDate l; TotalCostAccrued := TotalCostAccrued l;
     Meta := Meta l |}.
End Lease.

Module GlobalLeasesConfig.
Record t := {
  MaxBudget : float64;
  DefaultBudgetThresholds : list Z;
  DefaultDurationThresholds : list Z;
  MaxBudgetReclamationThreshold : Z;
  MaxDurationHours : float64;
  MaxLeasesPerUser : Z
}.
End GlobalLeasesConfig.

Module GlobalCleanupConfig.
Record t := {
  NumberOfFailedAttemptsToCancelCleanup : Z;
  WaitBeforeRetryFailedAttemptSeconds : Z;
  NumberOfSuccessfulAttemptsToFinishCleanup : Z;
  WaitBeforeRerunSuccessfulAttemptSeconds : Z
}.
End GlobalCleanupConfig.

Module GlobalNotificationConfig.
Record t := { EmailFrom : string }.
End GlobalNotificationConfig.

Module GlobalConfiguration.
Record t := {
  TermsOfService : string;
  MaintenanceMode : bool;
  Leases : GlobalLeasesConfig.t;
  Cleanup : GlobalCleanupConfig.t;
  Auth : JSONMap;
  Notification : GlobalNotificationConfig.t
}.
End GlobalConfiguration.

Module GetLeasesResponse.
Record t := { Leases : list Lease.t; NextPageIdentifier : string }.
End GetLeasesResponse.

Module GetLeaseByIDResponse.
Record t := { Lease : Lease.t }.
End GetLeaseByIDResponse.

Module CreateLeaseResponse.
Record t := { Lease : Lease.t }.
End CreateLeaseResponse.

Module UpdateLeaseResponse.
Record t := { Lease : Lease.t }.
End UpdateLeaseResponse.

Module GetLeaseByIDRequest.
Record t := { LeaseID : string }.
End GetLeaseByIDRequest.

Module CreateLeaseRequest.
Record t := { LeaseTemplateUUID : string; Comments : string }.
End CreateLeaseRequest.

Module UpdateLeaseRequest.
Record t := {
  LeaseID : string;
  MaxSpend : option float64;
  BudgetThresholds : option (list BudgetThreshold.t);
  ExpirationDate : option string;
  DurationThresholds : option (list DurationThreshold.t)
}.
End UpdateLeaseRequest.

Module ReviewLeaseRequest.
Record t := { LeaseID : string; Action : string }.
End ReviewLeaseRequest.

(** ** auth.go *)

Definition RoleAdmin : string := "Admin".
Definition RoleManager : string := "Manager".
Definition RoleUser : string := "User".

Module UserClaims.
Record t := {
  DisplayName : string;
  UserName : string;
  Email : string;
  Roles : list string
}.
End UserClaims.

(** [Claims]: the user claims and the registered claims that are set, as
    instants in nanoseconds. *)
Module Claims.
Record t := { User : UserClaims.t; IssuedAt : Z; ExpiresAt : Z }.
End Claims.

Definition NewAdminUserClaims (email : string) : UserClaims.t :=
  {| UserClaims.DisplayName := "Admin";
     UserClaims.UserName := email;
     UserClaims.Email := email;
     UserClaims.Roles := [RoleAdmin] |}.

Definition NewUserUserClaims (email : string) : UserClaims.t :=
  {| UserClaims.DisplayName := "GitHub";
     UserClaims.UserName := email;
     UserClaims.Email := email;
     UserClaims.Roles := [RoleUser] |}.

(** ** The packages the client is built on *)

(** encoding/json at the types the client uses.  [Decode_failBody] and
    [Decode_errorBody] are [Decode(&v)] on a struct that may already hold the
    result of an earlier decode: they return the struct afterwards and the
    error.  The other decoders run once on a fresh wrapper struct
    [{status, data}] and give its [Data], or the error. *)
Class EncodingJSON := {
  Decode_failBody : string -> failBody.t -> failBody.t * option error;
  Decode_errorBody : string -> errorBody.t -> errorBody.t * option error;
  Decode_Lease : string -> error + Lease.t;
  Decode_GetLeasesResponse : string -> error + GetLeasesResponse.t;
  Decode_GlobalConfiguration : string -> error + GlobalConfiguration.t;
  Marshal_string : string -> string;
  Marshal_UpdateLeaseRequest : UpdateLeaseRequest.t -> error + string
}.

(** net/url, the clock and the token signer. *)
Class Platform := {
  url_Parse : string -> error + URL.t;
  URL_String : URL.t -> string;
  time_Now : Z;
  SignedString_HS256 : Claims.t -> string -> error + string
}.

(** What the remote end answers to a request, given the requests it has
    received before: a transport error, or status, content type and body. *)
Module Reply.
Record t := { StatusCode : Z; ContentType : string; Body : string }.
End Reply.

Definition Server : Type := list Request.t -> Request.t -> error + Reply.t.

(** ** errors.go: the classifier *)

Section Classifier.
Context `{EncodingJSON}.

(** [err == nil && failBody.Status == "fail"] *)
Definition isFail (r : failBody.t * option error) : bool :=
  match r.2 with
  | None => (failBody.Status r.1 =? "fail")%string
  | Some _ => false
  end.

(** [err == nil && errorBody.Status == "error"] *)
Definition isError (r : errorBody.t * option error) : bool :=
  match r.2 with
  | None => (errorBody.Status r.1 =? "error")%string
  | Some _ => false
  end.

(** The statements after the [switch]: they decode again, into the structs
    [fb] and [eb] as the switch left them. *)
Definition fallback (status : Z) (bodyBytes : string)
    (fb : failBody.t) (eb : errorBody.t) : error :=
  let rf := Decode_failBody bodyBytes fb in
  if isFail rf then
    FailResponseError (failBody.Status rf.1) (failBody.Errors rf.1) status
  else
    let re := Decode_errorBody bodyBytes eb in
    if isError re then
      ServerError (withMessage status (errorBody.Message re.1))
                  (errorBody.Code re.1) (errorBody.Data re.1)
    else
      ResponseError {| APIResponseError.StatusCode := status;
                       APIResponseError.Body := bodyBytes;
                       APIResponseError.Message := "" |}.

Definition DecodeAPIError (reqBody : option string) (resp : Response.t) : error :=
  let bodyBytes := Response.Body resp in
  let urlPath := URL.Path (Request.URL (Response.Request resp)) in
  let status := Response.StatusCode resp in
  if status =? 400 then
    let rf := Decode_failBody bodyBytes failBody.zero in
    if isFail rf then
      BadRequestError (withMessage 400 "bad request")
                      (failBody.Errors rf.1) (string_of_bytes reqBody)
    else fallback status bodyBytes rf.1 errorBody.zero
  else if (status =? 401) || (status =? 403) then
    let rf := Decode_failBody bodyBytes failBody.zero in
    if isFail rf then
      UnauthorizedError (withMessage status "unauthorized")
    else fallback status bodyBytes rf.1 errorBody.zero
  else if status =? 404 then
    let rf := Decode_failBody bodyBytes failBody.zero in
    if isFail rf then
      if HasPrefix urlPath "/leases/" then
        LeaseNotFoundError (withMessage 404 "lease not found") (failBody.Errors rf.1)
      else if HasPrefix urlPath "/leaseTemplates/" then
        LeaseTemplateNotFoundError (withMessage 404 "lease template not found")
                                   (failBody.Errors rf.1)
      else if HasPrefix urlPath "/accounts/" then
        AccountNotFoundError (withMessage 404 "account not found") (failBody.Errors rf.1)
      else
        NotFoundError (withMessage 404 "not found") (failBody.Errors rf.1)
    else fallback status bodyBytes rf.1 errorBody.zero
  else if status =? 409 then
    let rf := Decode_failBody bodyBytes failBody.zero in
    if isFail rf then
      if HasPrefix urlPath "/leases/" then
        LeaseConflictError (withMessage 409 "lease conflict") (failBody.Errors rf.1)
      else if HasPrefix urlPath "/leaseTemplates/" then
        LeaseTemplateConflictError (withMessage 409 "lease template conflict")
                                   (failBody.Errors rf.1)
      else if HasPrefix urlPath "/accounts/" then
        AccountConflictError (withMessage 409 "account conflict") (failBody.Errors rf.1)
      else
        ConflictError (withMessage 409 "conflict") (failBody.Errors rf.1)
    else fallback status bodyBytes rf.1 errorBody.zero
  else if status =? 500 then
    let re := Decode_errorBody bodyBytes errorBody.zero in
    if isError re then
      ServerError (withMessage 500 (errorBody.Message re.1))
                  (errorBody.Code re.1) (errorBody.Data re.1)
    else fallback status bodyBytes failBody.zero re.1
  else fallback status bodyBytes failBody.zero errorBody.zero.

(** The status-specific decode of the [switch] succeeded: the case for this
    status code returned. *)
Definition specificDecodeSucceeded (resp : Response.t) : bool :=
  let bodyBytes := Response.Body resp in
  let status := Response.StatusCode resp in
  if (status =? 400) || (status =? 401) || (status =? 403)
     || (status =? 404) || (status =? 409)
  then isFail (Decode_failBody bodyBytes failBody.zero)
  else if status =? 500
  then isError (Decode_errorBody bodyBytes errorBody.zero)
  else false.

(** The errors the classifier makes, as opposed to request and decoding
    errors. *)
Definition isClassified (e : error) : bool :=
  match e with
  | errorString _ | APIRequestError _ _ _ | JSONDecodingError _ => false
  | _ => true
  end.

Definition isResourceSpecific (e : error) : bool :=
  match e with
  | LeaseNotFoundError _ _ | LeaseTemplateNotFoundError _ _
  | AccountNotFoundError _ _ | LeaseConflictError _ _
  | LeaseTemplateConflictError _ _ | AccountConflictError _ _ => true
  | _ => false
  end.
End Classifier.

(** ** net/url: query strings *)

(** [url.Values] is [map[string][]string]. *)
Abbreviation Values := (gmap string (list string)).

(** [v.Set(key, value)] *)
Definition Values_Set (key value : string) (v : Values) : Values :=
  <[key := [value]]> v.

(** [m[key] = append(m[key], value)] *)
Definition Values_Add (key value : string) (v : Values) : Values :=
  <[key := ((v !!! key) ++ [value])%list]> v.

Definition isAlnum (c : ascii) : bool :=
  let n := N_of_ascii c in
  ((48 <=? n) && (n <=? 57) || (65 <=? n) && (n <=? 90) || (97 <=? n) && (n <=? 122))%N.

(** [shouldEscape(c, encodeQueryComponent)] *)
Definition shouldEscape (c : ascii) : bool :=
  if isAlnum c then false
  else match c with
       | "-" | "_" | "." | "~" => false
       | _ => true
       end%char.

Definition upperhex (n : N) : ascii :=
  (if n <? 10 then ascii_of_N (48 + n) else ascii_of_N (55 + n))%N.

Fixpoint QueryEscape (s : string) : string :=
  match s with
  | EmptyString => EmptyString
  | String c r =>
      if Ascii.eqb c " " then String "+" (QueryEscape r)
      else if shouldEscape c then
        String "%" (String (upperhex (N.shiftr (N_of_ascii c) 4))
                   (String (upperhex (N.land (N_of_ascii c) 15)) (QueryEscape r)))
      else String c (QueryEscape r)
  end.

Definition unhex (c : ascii) : option N :=
  let n := N_of_ascii c in
  (if (48 <=? n) && (n <=? 57) then Some (n - 48)
   else if (97 <=? n) && (n <=? 102) then Some (n - 97 + 10)
   else if (65 <=? n) && (n <=? 70) then Some (n - 65 + 10)
   else None)%N.

(** [QueryUnescape]; [None] is an [EscapeError]. *)
Fixpoint QueryUnescape (s : string) : option string :=
  match s with
  | EmptyString => Some EmptyString
  | String c r =>
      if Ascii.eqb c "%" then
        match r with
        | String a (String b r') =>
            match unhex a, unhex b with
            | Some hi, Some lo =>
                option_map (String (ascii_of_N (N.lor (N.shiftl hi 4) lo)))
                           (QueryUnescape r')
            | _, _ => None
            end
        | _ => None
        end
      else if Ascii.eqb c "+" then option_map (String " ") (QueryUnescape r)
      else option_map (String c) (QueryUnescape r)
  end.

Definition String_le (a b : string) : Prop := String.leb a b = true.

#[local] Instance String_le_dec (a b : string) : Decision (String_le a b).
Proof. unfold String_le. apply _. Defined.

(** [slices.Sorted(maps.Keys(v))] *)
Definition sortedKeys {A} (v : gmap string A) : list string :=
  merge_sort String_le (map fst (map_to_list v)).

(** [v.Encode()] *)
Definition Values_Encode (v : Values) : string :=
  fold_left
    (fun buf k =>
       let keyEscaped := QueryEscape k in
       fold_left
         (fun buf x =>
            (if (String.length buf =? 0)%nat then buf else buf ++ "&")
              ++ keyEscaped ++ "=" ++ QueryEscape x)
         (v !!! k) buf)
    (sortedKeys v) "".

(** The successive [key] values of [key, query, _ = strings.Cut(query, "&")]
    while [query != ""]. *)
Fixpoint cutAll (query : string) : list string :=
  match query with
  | EmptyString => []
  | String c r =>
      if Ascii.eqb c "&" then EmptyString :: cutAll r
      else match cutAll r with
           | [] => [String c EmptyString]
           | key :: keys => String c key :: keys
           end
  end.

(** [strings.Cut(s, "=")], without the flag. *)
Fixpoint cutEq (s : string) : string * string :=
  match s with
  | EmptyString => (EmptyString, EmptyString)
  | String c r =>
      if Ascii.eqb c "=" then (EmptyString, r)
      else let '(k, v) := cutEq r in (String c k, v)
  end.

(** One turn of the loop of [parseQuery]: the map and the first error. *)
Definition parseQuery_step (st : Values * option error) (key : string)
    : Values * option error :=
  let '(m, err) := st in
  if Contains key ";" then
    (m, Some (errorString "invalid semicolon separator in query"))
  else if (String.length key =? 0)%nat then (m, err)
  else
    let '(key, value) := cutEq key in
    match QueryUnescape key with
    | None => (m, Some (default (errorString "invalid URL escape") err))
    | Some key =>
        match QueryUnescape value with
        | None => (m, Some (default (errorString "invalid URL escape") err))
        | Some value => (Values_Add key value m, err)
        end
    end.

(** [url.ParseQuery] *)
Definition ParseQuery (query : string) : Values * option error :=
  fold_left parseQuery_step (cutAll query) (∅, None).

(** ** types.go: request parameters *)

Class PageIdentifiable (R : Type) := SetPageIdentifier : string -> R -> R.

(** The receiver of [BuildQuery] is a pointer and may be nil. *)
Class QueryBuilder (R : Type) := BuildQuery : option R -> Values.

(** [if field != "" { q.Set(name, field) }] *)
Definition setIfNonEmpty (name field : string) (q : Values) : Values :=
  if (field =? "")%string then q else Values_Set name field q.

Module GetLeasesRequest.
Record t := { PageIdentifier : string; PageSize : string; UserEmail : string }.
End GetLeasesRequest.

#[export] Instance GetLeasesRequest_SetPageIdentifier
    : PageIdentifiable GetLeasesRequest.t :=
  fun next r =>
    {| GetLeasesRequest.PageIdentifier := next;
       GetLeasesRequest.PageSize := GetLeasesRequest.PageSize r;
       GetLeasesRequest.UserEmail := GetLeasesRequest.UserEmail r |}.

#[export] Instance GetLeasesRequest_BuildQuery : QueryBuilder GetLeasesRequest.t :=
  fun r =>
    match r with
    | None => ∅
    | Some r =>
        let q : Values := ∅ in
        let q := setIfNonEmpty "pageIdentifier" (GetLeasesRequest.PageIdentifier r) q in
        let q := setIfNonEmpty "pageSize" (GetLeasesRequest.PageSize r) q in
        let q := setIfNonEmpty "userEmail" (GetLeasesRequest.UserEmail r) q in
        q
    end.

Module GetLeaseTemplatesRequest.
Record t := { PageIdentifier : string; PageSize : string }.
End GetLeaseTemplatesRequest.

#[export] Instance GetLeaseTemplatesRequest_SetPageIdentifier
    : PageIdentifiable GetLeaseTemplatesRequest.t :=
  fun next r =>
    {| GetLeaseTemplatesRequest.PageIdentifier := next;
       GetLeaseTemplatesRequest.PageSize := GetLeaseTemplatesRequest.PageSize r |}.

#[export] Instance GetLeaseTemplatesRequest_BuildQuery
    : QueryBuilder GetLeaseTemplatesRequest.t :=
  fun r =>
    match r with
    | None => ∅
    | Some r =>
        let q : Values := ∅ in
        let q := setIfNonEmpty "pageIdentifier"
                   (GetLeaseTemplatesRequest.PageIdentifier r) q in
        let q := setIfNonEmpty "pageSize" (GetLeaseTemplatesRequest.PageSize r) q in
        q
    end.

Module GetAccountsRequest.
Record t := { PageIdentifier : string; PageSize : string }.
End GetAccountsRequest.

#[export] Instance GetAccountsRequest_SetPageIdentifier
    : PageIdentifiable GetAccountsRequest.t :=
  fun next r =>
    {| GetAccountsRequest.PageIdentifier := next;
       GetAccountsRequest.PageSize := GetAccountsRequest.PageSize r |}.

#[export] Instance GetAccountsRequest_BuildQuery : QueryBuilder GetAccountsRequest.t :=
  fun r =>
    match r with
    | None => ∅
    | Some r =>
        let q : Values := ∅ in
        let q := setIfNonEmpty "pageIdentifier" (GetAccountsRequest.PageIdentifier r) q in
        let q := setIfNonEmpty "pageSize" (GetAccountsRequest.PageSize r) q in
        q
    end.

(** ** encoding/base64: [StdEncoding.EncodeToString] *)

Definition encodeStd : string :=
  "ABCDEFGHIJKLMNOPQRSTUVWXYZabcdefghijklmnopqrstuvwxyz0123456789+/".

Definition b64digit (n : N) : ascii :=
  default "="%char (String.get (N.to_nat n) encodeStd).

Fixpoint b64_encode (src : list N) : string :=
  match src with
  | [] => EmptyString
  | [a] =>
      String (b64digit (N.shiftr a 2))
        (String (b64digit (N.shiftl (N.land a 3) 4)) "==")
  | [a; b] =>
      String (b64digit (N.shiftr a 2))
        (String (b64digit (N.lor (N.shiftl (N.land a 3) 4) (N.shiftr b 4)))
           (String (b64digit (N.shiftl (N.land b 15) 2)) "="))
  | a :: b :: c :: rest =>
      String (b64digit (N.shiftr a 2))
        (String (b64digit (N.lor (N.shiftl (N.land a 3) 4) (N.shiftr b 4)))
           (String (b64digit (N.lor (N.shiftl (N.land b 15) 2) (N.shiftr c 6)))
              (String (b64digit (N.land c 63)) (b64_encode rest))))
  end.

Definition EncodeToString (src : string) : string :=
  b64_encode (map N_of_ascii (list_ascii_of_string src)).

(** ** client.go *)

Inductive outcome (A : Type) : Type :=
| Returns (a : A)
| Panics (reason : string).
Arguments Returns {A} a.
Arguments Panics {A} reason.

(** A computation that may hand requests to the network: it is given the
    requests handed over so far and returns them extended. *)
Definition Net (A : Type) : Type := list Request.t -> A * list Request.t.

Definition ret {A} (a : A) : Net A := fun sent => (a, sent).

Definition bind {A B} (m : Net A) (k : A -> Net B) : Net B :=
  fun sent => let '(a, sent') := m sent in k a sent'.

(** [http.Client]: its timeout and its transport, which is the default one
    ([None]) or an [authTransport] with its token. *)
Module HTTPClient.
Record t := { Timeout : Z; Transport : option string }.
End HTTPClient.

Module Client.
Record t := { BaseURL : string; HTTPClient : HTTPClient.t; Token : string }.
End Client.

Definition second : Z := 1000000000.
Definition minute : Z := 60 * second.

Definition NewClient (baseURL token : string) : Client.t :=
  {| Client.BaseURL := baseURL;
     Client.HTTPClient := {| HTTPClient.Timeout := 15 * second;
                             HTTPClient.Transport := Some token |};
     Client.Token := token |}.

Definition setHeaders (contentType authorization : string) (req : Request.t)
    : Request.t :=
  {| Request.Method := Request.Method req;
     Request.URL := Request.URL req;
     Request.ContentType := contentType;
     Request.Authorization := authorization;
     Request.Body := Request.Body req |}.

(** [authTransport.RoundTrip]: the request that goes to the base transport. *)
Definition RoundTrip (token : string) (req : Request.t) : Request.t :=
  if (token =? "")%string then req
  else setHeaders (Request.ContentType req) ("Bearer " ++ token) req.

(** [isJSONResponse]; the body stays readable afterwards. *)
Definition isJSONResponse (resp : Response.t) : bool * string :=
  let bodyBytes := Response.Body resp in
  if (String.length bodyBytes =? 0)%nat then (true, "")
  else
    let contentType := Response.ContentType resp in
    if (String.length contentType <? String.length "application/json")%nat
       || negb (Contains contentType "application/json")
    then (false, "")
    else (true, "").

Section Operations.
Context `{EncodingJSON} `{Platform}.
Variable srv : Server.

(** auth.go: [GenerateJWT] *)
Definition GenerateJWT (user : UserClaims.t) (secret : string) (expiresIn : Z)
    : error + string :=
  let now := time_Now in
  SignedString_HS256
    {| Claims.User := user; Claims.IssuedAt := now;
       Claims.ExpiresAt := now + expiresIn |}
    secret.

(** [json.Marshal] of a map with string values: keys in sorted order. *)
Definition Marshal_map (m : gmap string string) : string :=
  "{" ++ String.concat ","
           (map (fun k => Marshal_string k ++ ":" ++ Marshal_string (default "" (m !! k)))
                (sortedKeys m))
      ++ "}".

(** [http.NewRequestWithContext] *)
Definition NewRequestWithContext (method url : string) (body : option string)
    : error + Request.t :=
  match url_Parse url with
  | inl err => inl err
  | inr u =>
      inr {| Request.Method := method; Request.URL := u;
             Request.ContentType := ""; Request.Authorization := "";
             Request.Body := body |}
  end.

(** [httpClient.Do(req)], as one exchange: the client's transport sends the
    request and the answer comes back.  The redirects [http.Client] follows
    on its own and the [*url.Error] it wraps a failure in are the
    library's and are left out. *)
Definition Do (hc : HTTPClient.t) (req : Request.t) : Net (error + Response.t) :=
  fun sent =>
    let wire := match HTTPClient.Transport hc with
                | Some token => RoundTrip token req
                | None => req
                end in
    (match srv sent wire with
     | inl err => inl err
     | inr reply =>
         inr {| Response.StatusCode := Reply.StatusCode reply;
                Response.ContentType := Reply.ContentType reply;
                Response.Body := Reply.Body reply;
                Response.Request := wire |}
     end, (sent ++ [wire])%list).

Definition nonJSON (op url : string) (resp : Response.t) (body : string) : error :=
  APIRequestError op url
    (errorString ("non-JSON response (" ++ Response.ContentType resp ++ "): " ++ body)).

(** The part the five helpers share after [c.HTTPClient.Do]: [op] is the
    helper's name, [ok] its success statuses, [reqBody] what it passes to
    the classifier. *)
Definition checkResponse (op url : string) (ok : Z -> bool)
    (reqBody : option string) (r : error + Response.t)
    : option Response.t * option error :=
  match r with
  | inl err => (None, Some (APIRequestError "do" url err))
  | inr resp =>
      let '(isJSON, body) := isJSONResponse resp in
      if negb isJSON then (None, Some (nonJSON op url resp body))
      else if negb (ok (Response.StatusCode resp))
      then (None, Some (DecodeAPIError reqBody resp))
      else (Some resp, None)
  end.

Definition doGet (c : Client.t) (url : string)
    : Net (option Response.t * option error) :=
  match NewRequestWithContext "GET" url None with
  | inl err => ret (None, Some (APIRequestError "new_request" url err))
  | inr httpReq =>
      bind (Do (Client.HTTPClient c) httpReq)
           (fun r => ret (checkResponse "doGet" url (fun s => s =? 200) None r))
  end.

Definition doPost (c : Client.t) (url : string) (body : option string)
    : Net (option Response.t * option error) :=
  match NewRequestWithContext "POST" url (Some (string_of_bytes body)) with
  | inl err => ret (None, Some (APIRequestError "new_request" url err))
  | inr httpReq =>
      let httpReq := setHeaders "application/json" (Request.Authorization httpReq) httpReq in
      bind (Do (Client.HTTPClient c) httpReq)
           (fun r => ret (checkResponse "doPost" url
                            (fun s => (s =? 200) || (s =? 201)) body r))
  end.

Definition doPatch (c : Client.t) (url : string) (body : option string)
    : Net (option Response.t * option error) :=
  match NewRequestWithContext "PATCH" url (Some (string_of_bytes body)) with
  | inl err => ret (None, Some (APIRequestError "new_request" url err))
  | inr httpReq =>
      let httpReq := setHeaders "application/json" (Request.Authorization httpReq) httpReq in
      bind (Do (Client.HTTPClient c) httpReq)
           (fun r => ret (checkResponse "doPatch" url (fun s => s =? 200) body r))
  end.

Definition doPut (c : Client.t) (url : string) (body : option string)
    : Net (option Response.t * option error) :=
  match NewRequestWithContext "PUT" url (Some (string_of_bytes body)) with
  | inl err => ret (None, Some (APIRequestError "new_request" url err))
  | inr httpReq =>
      let httpReq := setHeaders "application/json" (Request.Authorization httpReq) httpReq in
      bind (Do (Client.HTTPClient c) httpReq)
           (fun r => ret (checkResponse "doPut" url (fun s => s =? 200) body r))
  end.

Definition doDelete (c : Client.t) (url : string)
    : Net (option Response.t * option error) :=
  match NewRequestWithContext "DELETE" url None with
  | inl err => ret (None, Some (APIRequestError "new_request" url err))
  | inr httpReq =>
      bind (Do (Client.HTTPClient c) httpReq)
           (fun r => ret (checkResponse "doDelete" url
                            (fun s => (s =? 200) || (s =? 204)) None r))
  end.

(** Reading a field of [resp]: a nil pointer dereference when it is nil. *)
Definition deref {A} (resp : option Response.t) (k : Response.t -> outcome A)
    : outcome A :=
  match resp with
  | Some r => k r
  | None => Panics "invalid memory address or nil pointer dereference"
  end.

Definition paramError (text : string) : error :=
  APIRequestError "param" "" (errorString text).

Definition setRawQuery (q : string) (u : URL.t) : URL.t :=
  {| URL.Scheme := URL.Scheme u; URL.Host := URL.Host u;
     URL.Path := URL.Path u; URL.RawQuery := q |}.

(** [req] is an interface value: nil ([None]), or a pointer that may itself
    be nil. *)
Definition GetLeases {R} `{QueryBuilder R} (c : Client.t) (req : option (option R))
    : Net (outcome (option GetLeasesResponse.t * option error)) :=
  match url_Parse (Client.BaseURL c ++ "/leases") with
  | inl err =>
      ret (Returns (None, Some (APIRequestError "parse" (Client.BaseURL c ++ "/leases") err)))
  | inr u =>
      let u := match req with
               | Some r => setRawQuery (Values_Encode (BuildQuery r)) u
               | None => u
               end in
      bind (doGet c (URL_String u)) (fun '(resp, err) =>
        ret match err with
            | Some err => Returns (None, Some err)
            | None =>
                deref resp (fun resp =>
                  match Decode_GetLeasesResponse (Response.Body resp) with
                  | inl err => Returns (None, Some (JSONDecodingError err))
                  | inr data => Returns (Some data, None)
                  end)
            end)
  end.

Definition GetLeaseByID (c : Client.t) (req : option GetLeaseByIDRequest.t)
    : Net (outcome (option GetLeaseByIDResponse.t * option error)) :=
  match req with
  | None => ret (Returns (None, Some (paramError "LeaseID is required")))
  | Some req =>
      if (GetLeaseByIDRequest.LeaseID req =? "")%string
      then ret (Returns (None, Some (paramError "LeaseID is required")))
      else
        let leaseURL := Client.BaseURL c ++ "/leases/" ++ GetLeaseByIDRequest.LeaseID req in
        bind (doGet c leaseURL) (fun '(resp, err) =>
          ret match err with
              | Some err => Returns (None, Some err)
              | None =>
                  deref resp (fun resp =>
                    match Decode_Lease (Response.Body resp) with
                    | inl err => Returns (None, Some (JSONDecodingError err))
                    | inr data =>
                        Returns (Some {| GetLeaseByIDResponse.Lease := data |}, None)
                    end)
              end)
  end.

(** The request body of the two lease-creation operations. *)
Definition createLeaseBody (req : CreateLeaseRequest.t) : string :=
  let body : gmap string string :=
    {[ "leaseTemplateUuid" := CreateLeaseRequest.LeaseTemplateUUID req ]} in
  let body := if (CreateLeaseRequest.Comments req =? "")%string then body
              else <["comments" := CreateLeaseRequest.Comments req]> body in
  Marshal_map body.

(** What the two lease-creation operations do with a decoded lease. *)
Definition withLeaseId (data : Lease.t) : Lease.t :=
  let leaseIdComponents : gmap string string :=
    <["uuid" := Lease.UUID data]> {[ "userEmail" := Lease.UserEmail data ]} in
  let leaseId := Marshal_map leaseIdComponents in
  Lease.setLeaseId (EncodeToString leaseId) data.

Definition CreateLease (c : Client.t) (req : option CreateLeaseRequest.t)
    : Net (outcome (option CreateLeaseResponse.t * option error)) :=
  match req with
  | None => ret (Returns (None, Some (paramError "LeaseTemplateUUID is required")))
  | Some req =>
      if (CreateLeaseRequest.LeaseTemplateUUID req =? "")%string
      then ret (Returns (None, Some (paramError "LeaseTemplateUUID is required")))
      else
        let leaseURL := Client.BaseURL c ++ "/leases" in
        let b := createLeaseBody req in
        bind (doPost c leaseURL (Some b)) (fun '(resp, err) =>
          ret match err with
              | Some err => Returns (None, Some err)
              | None =>
                  deref resp (fun resp =>
                    match Decode_Lease (Response.Body resp) with
                    | inl err => Returns (None, Some (JSONDecodingError err))
                    | inr data =>
                        Returns (Some {| CreateLeaseResponse.Lease := withLeaseId data |},
                                 None)
                    end)
              end)
  end.

Definition CreateLeaseAsUser (c : Client.t) (req : option CreateLeaseRequest.t)
    (userEmail jwtSecret : string)
    : Net (outcome (option CreateLeaseResponse.t * option error)) :=
  match req with
  | None => ret (Returns (None, Some (paramError "LeaseTemplateUUID is required")))
  | Some req =>
      if (CreateLeaseRequest.LeaseTemplateUUID req =? "")%string
      then ret (Returns (None, Some (paramError "LeaseTemplateUUID is required")))
      else
        let leaseURL := Client.BaseURL c ++ "/leases" in
        let b := createLeaseBody req in
        let userClaims := NewUserUserClaims userEmail in
        match GenerateJWT userClaims jwtSecret (15 * minute) with
        | inl err => ret (Returns (None, Some (APIRequestError "jwt_gen" leaseURL err)))
        | inr jwt =>
            match NewRequestWithContext "POST" leaseURL (Some b) with
            | inl err =>
                ret (Returns (None, Some (APIRequestError "new_request" leaseURL err)))
            | inr httpReq =>
                let httpReq := setHeaders "application/json" ("Bearer " ++ jwt) httpReq in
                let customClient :=
                  {| HTTPClient.Timeout := HTTPClient.Timeout (Client.HTTPClient c);
                     HTTPClient.Transport := None |} in
                bind (Do customClient httpReq) (fun r =>
                  ret match r with
                      | inl err => Returns (None, Some (APIRequestError "do" leaseURL err))
                      | inr resp =>
                          if negb (Response.StatusCode resp =? 200)
                             && negb (Response.StatusCode resp =? 201)
                          then Returns (None, Some (DecodeAPIError (Some b) resp))
                          else
                            match Decode_Lease (Response.Body resp) with
                            | inl err => Returns (None, Some (JSONDecodingError err))
                            | inr data =>
                                Returns
                                  (Some {| CreateLeaseResponse.Lease := withLeaseId data |},
                                   None)
                            end
                      end)
            end
        end
  end.

Definition GetConfigurations (c : Client.t)
    : Net (outcome (option GlobalConfiguration.t * option error)) :=
  let configURL := Client.BaseURL c ++ "/configurations" in
  bind (doGet c configURL) (fun '(resp, err) =>
    let err : option error := None in          (* err = nil *)
    ret match err with
        | Some err => Returns (None, Some err)
        | None =>
            deref resp (fun resp =>
              match Decode_GlobalConfiguration (Response.Body resp) with
              | inl err => Returns (None, Some (JSONDecodingError err))
              | inr data => Returns (Some data, None)
              end)
        end).

Definition UpdateLease (c : Client.t) (req : option UpdateLeaseRequest.t)
    : Net (outcome (option UpdateLeaseResponse.t * option error)) :=
  match req with
  | None => ret (Returns (None, Some (paramError "LeaseID is required")))
  | Some req =>
      if (UpdateLeaseRequest.LeaseID req =? "")%string
      then ret (Returns (None, Some (paramError "LeaseID is required")))
      else
        let urlStr := Client.BaseURL c ++ "/leases/" ++ UpdateLeaseRequest.LeaseID req in
        match Marshal_UpdateLeaseRequest req with
        | inl err => ret (Returns (None, Some (APIRequestError "marshal" urlStr err)))
        | inr body =>
            bind (doPatch c urlStr (Some body)) (fun '(resp, err) =>
              ret match err with
                  | Some err => Returns (None, Some err)
                  | None =>
                      deref resp (fun resp =>
                        match Decode_Lease (Response.Body resp) with
                        | inl err => Returns (None, Some (JSONDecodingError err))
                        | inr data =>
                            Returns (Some {| UpdateLeaseResponse.Lease := data |}, None)
                        end)
                  end)
        end
  end.

Definition ReviewLease (c : Client.t) (req : option ReviewLeaseRequest.t)
    : Net (outcome (option error)) :=
  match req with
  | None => ret (Returns (Some (paramError "LeaseID and Action are required")))
  | Some req =>
      if (ReviewLeaseRequest.LeaseID req =? "")%string
         || (negb (ReviewLeaseRequest.Action req =? ReviewApprove)%string
             && negb (ReviewLeaseRequest.Action req =? ReviewDeny)%string)
      then ret (Returns (Some (paramError "LeaseID and Action are required")))
      else
        let urlStr := Client.BaseURL c ++ "/leases/" ++ ReviewLeaseRequest.LeaseID req
                        ++ "/review" in
        let body := Marshal_map {[ "action" := ReviewLeaseRequest.Action req ]} in
        bind (doPost c urlStr (Some body)) (fun '(resp, err) =>
          ret match err with
              | Some err => Returns (Some err)
              | None => deref resp (fun _ => Returns None)
              end)
  end.
End Operations.

(** The derived lease identifier in the words of the specification: the
    base64 encoding of the JSON object [{"userEmail":..., "uuid":...}]. *)
Definition canonicalLeaseId `{EncodingJSON} (userEmail uuid : string) : string :=
  EncodeToString
    ("{" ++ Marshal_string "userEmail" ++ ":" ++ Marshal_string userEmail
         ++ "," ++ Marshal_string "uuid" ++ ":" ++ Marshal_string uuid ++ "}").

(** ** client.go: the pagination drainer *)

Section Pagination.
Context {T R W : Type} `{PageIdentifiable R}.

(** The injected fetch function.  It is a closure with effects of its own,
    so it transforms a state [W]; it returns [(items, nextPage, err)]. *)
Variable fetchPage : R -> W -> (list T * string * option error) * W.

(** The [for] loop, at most [fuel] turns of it ([None] when they do not
    suffice).  [req] is a pointer: the loop writes the cursor into the
    caller's request, so the request as it is left is part of the result,
    next to the two return values and the state of the fetch function. *)
Fixpoint paginateAll_loop (fuel : nat) (allItems : list T) (req : R) (w : W)
    : option ((list T * option error) * R * W) :=
  match fuel with
  | O => None
  | S fuel =>
      let '((items, nextPage, err), w) := fetchPage req w in
      match err with
      | Some err => Some (([], Some err), req, w)
      | None =>
          let allItems := (allItems ++ items)%list in
          if (nextPage =? "")%string then Some ((allItems, None), req, w)
          else paginateAll_loop fuel allItems (SetPageIdentifier nextPage req) w
      end
  end.

Definition paginateAll (fuel : nat) (req : R) (w : W)
    : option ((list T * option error) * R * W) :=
  paginateAll_loop fuel [] req w.
End Pagination.

(** A fetch function that plays back a list of pages and records the request
    of every call. *)
Module Script.
Record t (T R : Type) := {
  pages : list (list T * string * option error);
  calls : list R
}.
Arguments pages {T R} _.
Arguments calls {T R} _.

Definition fetch {T R} (req : R) (w : t T R)
    : (list T * string * option error) * t T R :=
  match pages w with
  | page :: rest => (page, {| pages := rest; calls := (calls w ++ [req])%list |})
  | [] => (([], "", Some (errorString "no page left")),
           {| pages := []; calls := (calls w ++ [req])%list |})
  end.

(** A page delivered without error. *)
Definition ok {T} (p : list T * string) : list T * string * option error :=
  (p.1, p.2, None).

(** The requests the drainer makes when it is handed these cursors, one
    after the other, starting from [req]. *)
Fixpoint requests {R} `{PageIdentifiable R} (req : R) (cursors : list string)
    : list R :=
  match cursors with
  | [] => [req]
  | c :: cs => req :: requests (SetPageIdentifier c req) cs
  end.
End Script.

(** ** types.go: the remaining records and request parameters *)

Module LeaseTemplate.
Record t := {
  UUID : string;
  Name : string;
  Description : string;
  RequiresApproval : bool;
  CreatedBy : string;
  MaxSpend : float64;
  BudgetThresholds : list BudgetThreshold.t;
  LeaseDurationInHours : Z;
  DurationThresholds : list DurationThreshold.t;
  Meta : MetaData.t
}.
End LeaseTemplate.

Module Account.
Record t := {
  AwsAccountId : string;
  Status : string;
  DriftAtLastScan : bool;
  Meta : MetaData.t
}.
End Account.

Module GetLeaseTemplatesResponse.
Record t := { LeaseTemplates : list LeaseTemplate.t; NextPageIdentifier : string }.
End GetLeaseTemplatesResponse.

Module GetAccountsResponse.
Record t := { Accounts : list Account.t; NextPageIdentifier : string }.
End GetAccountsResponse.

Module UpdateLeaseTemplateResponse.
Record t := { LeaseTemplate : LeaseTemplate.t }.
End UpdateLeaseTemplateResponse.

Module RegisterAccountResponse.
Record t := { Account : Account.t }.
End RegisterAccountResponse.

Module FreezeLeaseRequest.
Record t := { LeaseID : string }.
End FreezeLeaseRequest.

Module TerminateLeaseRequest.
Record t := { LeaseID : string }.
End TerminateLeaseRequest.

Module UpdateLeaseTemplateRequest.
Record t := {
  LeaseTemplateID : string;
  Name : string;
  Description : string;
  RequiresApproval : bool;
  MaxSpend : float64;
  LeaseDurationInHours : Z;
  BudgetThresholds : list BudgetThreshold.t;
  DurationThresholds : list DurationThreshold.t;
  CreatedBy : string
}.
End UpdateLeaseTemplateRequest.

Module DeleteLeaseTemplateRequest.
Record t := { LeaseTemplateID : string }.
End DeleteLeaseTemplateRequest.

Module RegisterAccountRequest.
Record t := { AwsAccountId : string }.
End RegisterAccountRequest.

Module RetryCleanupRequest.
Record t := { AwsAccountId : string }.
End RetryCleanupRequest.

Module EjectAccountRequest.
Record t := { AwsAccountId : string }.
End EjectAccountRequest.

#[export] Instance GetLeaseByIDRequest_BuildQuery : QueryBuilder GetLeaseByIDRequest.t :=
  fun r =>
    match r with
    | None => ∅
    | Some r =>
        let q : Values := ∅ in
        let q := setIfNonEmpty "leaseId" (GetLeaseByIDRequest.LeaseID r) q in
        q
    end.

#[export] Instance CreateLeaseRequest_BuildQuery : QueryBuilder CreateLeaseRequest.t :=
  fun r =>
    match r with
    | None => ∅
    | Some r =>
        let q : Values := ∅ in
        let q := setIfNonEmpty "leaseTemplateUuid"
                   (CreateLeaseRequest.LeaseTemplateUUID r) q in
        let q := setIfNonEmpty "comments" (CreateLeaseRequest.Comments r) q in
        q
    end.

(** [FilterByLeaseTemplateName]: the loop appends to [filtered], which starts
    as the nil slice. *)
Definition FilterByLeaseTemplateName (r : GetLeasesResponse.t) (name : string)
    : list Lease.t :=
  fold_left
    (fun filtered l =>
       if (Lease.OriginalLeaseTemplateName l =? name)%string
       then (filtered ++ [l])%list else filtered)
    (GetLeasesResponse.Leases r) [].

(** [FilterByLeaseTemplateUUID] *)
Definition FilterByLeaseTemplateUUID (r : GetLeasesResponse.t) (uuid : string)
    : list Lease.t :=
  fold_left
    (fun filtered l =>
       if (Lease.OriginalLeaseTemplateUuid l =? uuid)%string
       then (filtered ++ [l])%list else filtered)
    (GetLeasesResponse.Leases r) [].

(** ** errors.go: the texts of the errors *)

Fixpoint string_of_uint (d : Decimal.uint) : string :=
  match d with
  | Decimal.Nil => EmptyString
  | Decimal.D0 d => String "0" (string_of_uint d)
  | Decimal.D1 d => String "1" (string_of_uint d)
  | Decimal.D2 d => String "2" (string_of_uint d)
  | Decimal.D3 d => String "3" (string_of_uint d)
  | Decimal.D4 d => String "4" (string_of_uint d)
  | Decimal.D5 d => String "5" (string_of_uint d)
  | Decimal.D6 d => String "6" (string_of_uint d)
  | Decimal.D7 d => String "7" (string_of_uint d)
  | Decimal.D8 d => String "8" (string_of_uint d)
  | Decimal.D9 d => String "9" (string_of_uint d)
  end.

(** The verb [%d] on an [int]. *)
Definition fmt_d (n : Z) : string :=
  match Z.to_int n with
  | Decimal.Pos d => string_of_uint d
  | Decimal.Neg d => String "-" (string_of_uint d)
  end.

(** The verb [%v] on a [[]FailErrorDetail]: the structs in braces, separated
    by spaces, in brackets. *)
Definition fmt_v_errors (errors : list FailErrorDetail) : string :=
  "[" ++ String.concat " " (map (fun d => "{" ++ Message d ++ "}") errors) ++ "]".

(** The [Error] methods; [%v] on an error is its [Error()]. *)
Fixpoint Error (e : error) : string :=
  let withErrors (kind : string) (r : APIResponseError.t) (errors : list FailErrorDetail) :=
    if (0 <? length errors)%nat then
      kind ++ ": " ++ APIResponseError.Message r ++ " (status "
        ++ fmt_d (APIResponseError.StatusCode r) ++ ") errors: " ++ fmt_v_errors errors
    else
      kind ++ ": " ++ APIResponseError.Message r ++ " (status "
        ++ fmt_d (APIResponseError.StatusCode r) ++ ")" in
  match e with
  | errorString text => text
  | APIRequestError Op URL Err =>
      "api request error [" ++ Op ++ " " ++ URL ++ "]: " ++ Error Err
  | ResponseError r =>
      if negb (APIResponseError.Message r =? "")%string then
        "api response error: " ++ APIResponseError.Message r ++ " (status "
          ++ fmt_d (APIResponseError.StatusCode r) ++ ")"
      else
        "api response error: status " ++ fmt_d (APIResponseError.StatusCode r)
          ++ ", body: " ++ APIResponseError.Body r
  | FailResponseError Status Errors StatusCode =>
      "fail response: " ++ Status ++ " (status " ++ fmt_d StatusCode ++ ") errors: "
        ++ fmt_v_errors Errors
  | ServerError r Code _ =>
      "server error: " ++ APIResponseError.Message r ++ " (status "
        ++ fmt_d (APIResponseError.StatusCode r) ++ ", code " ++ fmt_d Code ++ ")"
  | JSONDecodingError Err => "json decoding error: " ++ Error Err
  | BadRequestError r Errors RequestBody =>
      if (0 <? length Errors)%nat then
        "bad request: " ++ APIResponseError.Message r ++ " (status "
          ++ fmt_d (APIResponseError.StatusCode r) ++ ") errors: "
          ++ fmt_v_errors Errors ++ " body: " ++ RequestBody
      else
        "bad request: " ++ APIResponseError.Message r ++ " (status "
          ++ fmt_d (APIResponseError.StatusCode r) ++ ") body: " ++ RequestBody
  | UnauthorizedError r =>
      "unauthorized: " ++ APIResponseError.Message r ++ " (status "
        ++ fmt_d (APIResponseError.StatusCode r) ++ ")"
  | NotFoundError r Errors => withErrors "not found" r Errors
  | ConflictError r Errors => withErrors "conflict" r Errors
  | LeaseNotFoundError r Errors => withErrors "lease not found" r Errors
  | LeaseTemplateNotFoundError r Errors => withErrors "lease template not found" r Errors
  | AccountNotFoundError r Errors => withErrors "account not found" r Errors
  | LeaseConflictError r Errors => withErrors "lease conflict" r Errors
  | LeaseTemplateConflictError r Errors => withErrors "lease template conflict" r Errors
  | AccountConflictError r Errors => withErrors "account conflict" r Errors
  end.

(** The [Unwrap] methods: the two wrapping errors give their cause, the
    other types have no such method. *)
Definition Unwrap (e : error) : option error :=
  match e with
  | APIRequestError _ _ Err => Some Err
  | JSONDecodingError Err => Some Err
  | _ => None
  end.

(** ** client.go: the remaining operations *)

(** encoding/json at the types of the remaining operations: decoders of a
    fresh wrapper [{status, data}] and [json.Marshal] of the two request
    structs, the second called on a pointer that may be nil. *)
Class EncodingJSONMore := {
  Decode_LeaseTemplate : string -> error + LeaseTemplate.t;
  Decode_Account : string -> error + Account.t;
  Decode_GetLeaseTemplatesResponse : string -> error + GetLeaseTemplatesResponse.t;
  Decode_GetAccountsResponse : string -> error + GetAccountsResponse.t;
  Marshal_UpdateLeaseTemplateRequest : UpdateLeaseTemplateRequest.t -> error + string;
  Marshal_RegisterAccountRequest : option RegisterAccountRequest.t -> error + string
}.

Section MoreOperations.
Context `{EncodingJSON} `{EncodingJSONMore} `{Platform}.
Variable srv : Server.

Definition GetLeaseTemplates {R} `{QueryBuilder R} (c : Client.t) (req : option (option R))
    : Net (outcome (option GetLeaseTemplatesResponse.t * option error)) :=
  match url_Parse (Client.BaseURL c ++ "/leaseTemplates") with
  | inl err =>
      ret (Returns (None, Some (APIRequestError "parse"
                                  (Client.BaseURL c ++ "/leaseTemplates") err)))
  | inr u =>
      let u := match req with
               | Some r => setRawQuery (Values_Encode (BuildQuery r)) u
               | None => u
               end in
      bind (doGet srv c (URL_String u)) (fun '(resp, err) =>
        ret match err with
            | Some err => Returns (None, Some err)
            | None =>
                deref resp (fun resp =>
                  match Decode_GetLeaseTemplatesResponse (Response.Body resp) with
                  | inl err => Returns (None, Some (JSONDecodingError err))
                  | inr data => Returns (Some data, None)
                  end)
            end)
  end.

Definition GetAccounts {R} `{QueryBuilder R} (c : Client.t) (req : option (option R))
    : Net (outcome (option GetAccountsResponse.t * option error)) :=
  match url_Parse (Client.BaseURL c ++ "/accounts") with
  | inl err =>
      ret (Returns (None, Some (APIRequestError "parse"
                                  (Client.BaseURL c ++ "/accounts") err)))
  | inr u =>
      let u := match req with
               | Some r => setRawQuery (Values_Encode (BuildQuery r)) u
               | None => u
               end in
      bind (doGet srv c (URL_String u)) (fun '(resp, err) =>
        ret match err with
            | Some err => Returns (None, Some err)
            | None =>
                deref resp (fun resp =>
                  match Decode_GetAccountsResponse (Response.Body resp) with
                  | inl err => Returns (None, Some (JSONDecodingError err))
                  | inr data => Returns (Some data, None)
                  end)
            end)
  end.

(** The end of the operations that return only an error. *)
Definition closeAndReturn (r : option Response.t * option error)
    : outcome (option error) :=
  let '(resp, err) := r in
  match err with
  | Some err => Returns (Some err)
  | None => deref resp (fun _ => Returns None)
  end.

Definition FreezeLease (c : Client.t) (req : option FreezeLeaseRequest.t)
    : Net (outcome (option error)) :=
  match req with
  | None => ret (Returns (Some (paramError "LeaseID is required")))
  | Some req =>
      if (FreezeLeaseRequest.LeaseID req =? "")%string
      then ret (Returns (Some (paramError "LeaseID is required")))
      else
        let urlStr := Client.BaseURL c ++ "/leases/" ++ FreezeLeaseRequest.LeaseID req
                        ++ "/freeze" in
        bind (doPost srv c urlStr None) (fun r => ret (closeAndReturn r))
  end.

Definition TerminateLease (c : Client.t) (req : option TerminateLeaseRequest.t)
    : Net (outcome (option error)) :=
  match req with
  | None => ret (Returns (Some (paramError "LeaseID is required")))
  | Some req =>
      if (TerminateLeaseRequest.LeaseID req =? "")%string
      then ret (Returns (Some (paramError "LeaseID is required")))
      else
        let urlStr := Client.BaseURL c ++ "/leases/" ++ TerminateLeaseRequest.LeaseID req
                        ++ "/terminate" in
        bind (doPost srv c urlStr None) (fun r => ret (closeAndReturn r))
  end.

Definition UpdateLeaseTemplate (c : Client.t) (req : option UpdateLeaseTemplateRequest.t)
    : Net (outcome (option UpdateLeaseTemplateResponse.t * option error)) :=
  match req with
  | None => ret (Returns (None, Some (paramError "LeaseTemplateID is required")))
  | Some req =>
      if (UpdateLeaseTemplateRequest.LeaseTemplateID req =? "")%string
      then ret (Returns (None, Some (paramError "LeaseTemplateID is required")))
      else
        let urlStr := Client.BaseURL c ++ "/leaseTemplates/"
                        ++ UpdateLeaseTemplateRequest.LeaseTemplateID req in
        match Marshal_UpdateLeaseTemplateRequest req with
        | inl err => ret (Returns (None, Some (APIRequestError "marshal" urlStr err)))
        | inr body =>
            bind (doPut srv c urlStr (Some body)) (fun '(resp, err) =>
              ret match err with
                  | Some err => Returns (None, Some err)
                  | None =>
                      deref resp (fun resp =>
                        match Decode_LeaseTemplate (Response.Body resp) with
                        | inl err => Returns (None, Some (JSONDecodingError err))
                        | inr data =>
                            Returns (Some {| UpdateLeaseTemplateResponse.LeaseTemplate := data |},
                                     None)
                        end)
                  end)
        end
  end.

Definition DeleteLeaseTemplate (c : Client.t) (req : option DeleteLeaseTemplateRequest.t)
    : Net (outcome (option error)) :=
  match req with
  | None => ret (Returns (Some (paramError "LeaseTemplateID is required")))
  | Some req =>
      if (DeleteLeaseTemplateRequest.LeaseTemplateID req =? "")%string
      then ret (Returns (Some (paramError "LeaseTemplateID is required")))
      else
        let urlStr := Client.BaseURL c ++ "/leaseTemplates/"
                        ++ DeleteLeaseTemplateRequest.LeaseTemplateID req in
        bind (doDelete srv c urlStr) (fun r => ret (closeAndReturn r))
  end.

(** [RegisterAccount] does not look at its request before it marshals it. *)
Definition RegisterAccount (c : Client.t) (req : option RegisterAccountRequest.t)
    : Net (outcome (option RegisterAccountResponse.t * option error)) :=
  let urlStr := Client.BaseURL c ++ "/accounts" in
  match Marshal_RegisterAccountRequest req with
  | inl err => ret (Returns (None, Some (APIRequestError "marshal" urlStr err)))
  | inr body =>
      bind (doPost srv c urlStr (Some body)) (fun '(resp, err) =>
        ret match err with
            | Some err => Returns (None, Some err)
            | None =>
                deref resp (fun resp =>
                  match Decode_Account (Response.Body resp) with
                  | inl err => Returns (None, Some (JSONDecodingError err))
                  | inr data =>
                      Returns (Some {| RegisterAccountResponse.Account := data |}, None)
                  end)
            end)
  end.

Definition RetryCleanup (c : Client.t) (req : option RetryCleanupRequest.t)
    : Net (outcome (option error)) :=
  match req with
  | None => ret (Returns (Some (paramError "AwsAccountId is required")))
  | Some req =>
      if (RetryCleanupRequest.AwsAccountId req =? "")%string
      then ret (Returns (Some (paramError "AwsAccountId is required")))
      else
        let urlStr := Client.BaseURL c ++ "/accounts/" ++ RetryCleanupRequest.AwsAccountId req
                        ++ "/retryCleanup" in
        bind (doPost srv c urlStr None) (fun r => ret (closeAndReturn r))
  end.

Definition EjectAccount (c : Client.t) (req : option EjectAccountRequest.t)
    : Net (outcome (option error)) :=
  match req with
  | None => ret (Returns (Some (paramError "AwsAccountId is required")))
  | Some req =>
      if (EjectAccountRequest.AwsAccountId req =? "")%string
      then ret (Returns (Some (paramError "AwsAccountId is required")))
      else
        let urlStr := Client.BaseURL c ++ "/accounts/" ++ EjectAccountRequest.AwsAccountId req
                        ++ "/eject" in
        bind (doPost srv c urlStr None) (fun r => ret (closeAndReturn r))
  end.
End MoreOperations.

(** ** A reference implementation of the interfaces

    It covers the JSON texts and URLs of the examples below: objects, arrays,
    strings with the two-character escapes, number literals, [true], [false]
    and [null]; member names are matched exactly.  The decoders read the
    string and boolean members of a record and leave its numbers and lists at
    their zero values. *)
Module Ref.

Definition isSpace (c : ascii) : bool :=
  match c with
  | " " | "009" | "010" | "013" => true
  | _ => false
  end%char.

Fixpoint skipSpace (s : string) : string :=
  match s with
  | String c r => if isSpace c then skipSpace r else s
  | EmptyString => EmptyString
  end.

(** The rest of a string literal, after its opening quote. *)
Fixpoint stringLiteral (s : string) : option (string * string) :=
  match s with
  | EmptyString => None
  | String c r =>
      if Ascii.eqb c dquote then Some (EmptyString, r)
      else if Ascii.eqb c "\" then
        match r with
        | String e r' =>
            let unescaped :=
              if Ascii.eqb e dquote then Some e
              else match e with
                   | "\" | "/" => Some e
                   | "n" => Some "010"
                   | "t" => Some "009"
                   | "r" => Some "013"
                   | _ => None
                   end%char in
            match unescaped, stringLiteral r' with
            | Some e, Some (x, rest) => Some (String e x, rest)
            | _, _ => None
            end
        | EmptyString => None
        end
      else
        match stringLiteral r with
        | Some (x, rest) => Some (String c x, rest)
        | None => None
        end
  end.

Definition isNumberChar (c : ascii) : bool :=
  let n := N_of_ascii c in
  ((48 <=? n) && (n <=? 57))%N
  || match c with "-" | "+" | "." | "e" | "E" => true | _ => false end%char.

Fixpoint numberLiteral (s : string) : string * string :=
  match s with
  | String c r =>
      if isNumberChar c then let '(x, rest) := numberLiteral r in (String c x, rest)
      else (EmptyString, s)
  | EmptyString => (EmptyString, EmptyString)
  end.

Definition drop (n : nat) (s : string) : string :=
  String.substring n (String.length s - n) s.

Fixpoint value (fuel : nat) (s : string) : option (JSON * string) :=
  match fuel with
  | O => None
  | S fuel =>
      let items :=
        fix items (n : nat) (s : string) (acc : list JSON) : option (JSON * string) :=
          match n with
          | O => None
          | S n =>
              match value fuel s with
              | None => None
              | Some (v, rest) =>
                  match skipSpace rest with
                  | String "," rest => items n rest (acc ++ [v])%list
                  | String "]" rest => Some (JArray (acc ++ [v])%list, rest)
                  | _ => None
                  end
              end
          end in
      let members :=
        fix members (n : nat) (s : string) (acc : list (string * JSON))
            : option (JSON * string) :=
          match n with
          | O => None
          | S n =>
              match skipSpace s with
              | String "034" r =>
                  match stringLiteral r with
                  | None => None
                  | Some (name, rest) =>
                      match skipSpace rest with
                      | String ":" rest =>
                          match value fuel rest with
                          | None => None
                          | Some (v, rest) =>
                              match skipSpace rest with
                              | String "," rest => members n rest (acc ++ [(name, v)])%list
                              | String "}" rest =>
                                  Some (JObject (acc ++ [(name, v)])%list, rest)
                              | _ => None
                              end
                          end
                      | _ => None
                      end
                  end
              | _ => None
              end
          end in
      match skipSpace s with
      | String "{" r =>
          match skipSpace r with
          | String "}" rest => Some (JObject [], rest)
          | r => members (String.length r) r []
          end
      | String "[" r =>
          match skipSpace r with
          | String "]" rest => Some (JArray [], rest)
          | r => items (String.length r) r []
          end
      | String "034" r =>
          match stringLiteral r with
          | Some (x, rest) => Some (JString x, rest)
          | None => None
          end
      | String c r as s =>
          if String.prefix "true" s then Some (JBool true, drop 4 s)
          else if String.prefix "false" s then Some (JBool false, drop 5 s)
          else if String.prefix "null" s then Some (JNull, drop 4 s)
          else if isNumberChar c then
            let '(x, rest) := numberLiteral s in Some (JNumber x, rest)
          else None
      | EmptyString => None
      end
  end.

(** The first JSON value of the text, as [Decoder.Decode] reads it. *)
Definition parse (s : string) : option JSON :=
  option_map fst (value (S (String.length s)) s).

(** The member a decoder ends up with when a name occurs more than once. *)
Definition member (name : string) (ms : list (string * JSON)) : option JSON :=
  last (omap (fun '(n, v) => if (n =? name)%string then Some v else None) ms).

Definition typeError : error := errorString "json: cannot unmarshal".
Definition syntaxError : error := errorString "invalid character".

(** A string member decoded into a field that holds [old]. *)
Definition stringField (name : string) (ms : list (string * JSON)) (old : string)
    : string * option error :=
  match member name ms with
  | None | Some JNull => (old, None)
  | Some (JString s) => (s, None)
  | Some _ => (old, Some typeError)
  end.

Definition first (a b : option error) : option error :=
  match a with Some _ => a | None => b end.

Definition detail (v : JSON) : FailErrorDetail * option error :=
  match v with
  | JObject ms =>
      let '(m, err) := stringField "message" ms "" in ({| Message := m |}, err)
  | JNull => ({| Message := "" |}, None)
  | _ => ({| Message := "" |}, Some typeError)
  end.

Definition detailList (ms : list (string * JSON)) (old : list FailErrorDetail)
    : list FailErrorDetail * option error :=
  match member "errors" ms with
  | None => (old, None)
  | Some JNull => ([], None)
  | Some (JArray xs) =>
      (map (fun v => (detail v).1) xs,
       foldr (fun v err => first (detail v).2 err) None xs)
  | Some _ => (old, Some typeError)
  end.

Definition decode_failBody (body : string) (fb : failBody.t)
    : failBody.t * option error :=
  match parse body with
  | None => (fb, Some syntaxError)
  | Some JNull => (fb, None)
  | Some (JObject ms) =>
      let '(status, e1) := stringField "status" ms (failBody.Status fb) in
      let '(errors, e2) :=
        match member "data" ms with
        | None | Some JNull => (failBody.Errors fb, None)
        | Some (JObject ds) => detailList ds (failBody.Errors fb)
        | Some _ => (failBody.Errors fb, Some typeError)
        end in
      ({| failBody.Status := status; failBody.Errors := errors |}, first e1 e2)
  | Some _ => (fb, Some typeError)
  end.

Fixpoint digits (s : string) (acc : Z) : option Z :=
  match s with
  | EmptyString => Some acc
  | String c r =>
      let n := N_of_ascii c in
      if ((48 <=? n) && (n <=? 57))%N then digits r (10 * acc + Z.of_N (n - 48))
      else None
  end.

Definition intLiteral (s : string) : option Z :=
  match s with
  | EmptyString => None
  | String "-" (String c r) => option_map Z.opp (digits (String c r) 0)
  | s => digits s 0
  end.

Definition intField (name : string) (ms : list (string * JSON)) (old : Z)
    : Z * option error :=
  match member name ms with
  | None | Some JNull => (old, None)
  | Some (JNumber x) =>
      match intLiteral x with
      | Some n => (n, None)
      | None => (old, Some typeError)
      end
  | Some _ => (old, Some typeError)
  end.

Definition boolField (name : string) (ms : list (string * JSON)) (old : bool)
    : bool * option error :=
  match member name ms with
  | None | Some JNull => (old, None)
  | Some (JBool b) => (b, None)
  | Some _ => (old, Some typeError)
  end.

Definition decode_errorBody (body : string) (eb : errorBody.t)
    : errorBody.t * option error :=
  match parse body with
  | None => (eb, Some syntaxError)
  | Some JNull => (eb, None)
  | Some (JObject ms) =>
      let '(status, e1) := stringField "status" ms (errorBody.Status eb) in
      let '(message, e2) := stringField "message" ms (errorBody.Message eb) in
      let '(code, e3) := intField "code" ms (errorBody.Code eb) in
      let '(data, e4) :=
        match member "data" ms with
        | None => (errorBody.Data eb, None)
        | Some JNull => (None, None)
        | Some (JObject ds) => (Some ds, None)
        | Some _ => (errorBody.Data eb, Some typeError)
        end in
      ({| errorBody.Status := status; errorBody.Message := message;
          errorBody.Code := code; errorBody.Data := data |},
       first e1 (first e2 (first e3 e4)))
  | Some _ => (eb, Some typeError)
  end.

(** The [data] member of the wrapper [{status, data}]. *)
Definition wrapperData (body : string) : error + list (string * JSON) :=
  match parse body with
  | None => inl syntaxError
  | Some (JObject ms) =>
      match member "data" ms with
      | None | Some JNull => inr []
      | Some (JObject ds) => inr ds
      | Some _ => inl typeError
      end
  | Some JNull => inr []
  | Some _ => inl typeError
  end.

Definition leaseOf (ms : list (string * JSON)) : error + Lease.t :=
  let str name := stringField name ms "" in
  let meta := match member "meta" ms with Some (JObject m) => m | _ => [] end in
  let names := ["userEmail"; "uuid"; "status"; "originalLeaseTemplateUuid";
                "originalLeaseTemplateName"; "comments"; "awsAccountId"; "leaseId";
                "startDate"; "expirationDate"; "endDate"] in
  match foldr (fun n err => first (str n).2 err) None names with
  | Some err => inl err
  | None =>
      inr {| Lease.UserEmail := (str "userEmail").1;
             Lease.UUID := (str "uuid").1;
             Lease.Status := (str "status").1;
             Lease.OriginalLeaseTemplateUuid := (str "originalLeaseTemplateUuid").1;
             Lease.OriginalLeaseTemplateName := (str "originalLeaseTemplateName").1;
             Lease.LeaseDurationInHours := (intField "leaseDurationInHours" ms 0).1;
             Lease.MaxSpend := 0;
             Lease.BudgetThresholds := [];
             Lease.DurationThresholds := [];
             Lease.Comments := (str "comments").1;
             Lease.AwsAccountId := (str "awsAccountId").1;
             Lease.LeaseId := (str "leaseId").1;
             Lease.StartDate := (str "startDate").1;
             Lease.ExpirationDate := (str "expirationDate").1;
             Lease.EndDate := (str "endDate").1;
             Lease.TotalCostAccrued := 0;
             Lease.Meta :=
               {| MetaData.CreatedTime := (stringField "createdTime" meta "").1;
                  MetaData.LastEditTime := (stringField "lastEditTime" meta "").1;
                  MetaData.SchemaVersion := "" |} |}
  end.

Definition decode_Lease (body : string) : error + Lease.t :=
  match wrapperData body with
  | inl err => inl err
  | inr ds => leaseOf ds
  end.

Definition decode_GetLeasesResponse (body : string) : error + GetLeasesResponse.t :=
  match wrapperData body with
  | inl err => inl err
  | inr ds =>
      let leases :=
        match member "result" ds with
        | Some (JArray xs) =>
            omap (fun v => match v with
                           | JObject ms =>
                               match leaseOf ms with inr l => Some l | inl _ => None end
                           | _ => None
                           end) xs
        | _ => []
        end in
      inr {| GetLeasesResponse.Leases := leases;
             GetLeasesResponse.NextPageIdentifier :=
               (stringField "nextPageIdentifier" ds "").1 |}
  end.

Definition decode_GlobalConfiguration (body : string)
    : error + GlobalConfiguration.t :=
  match wrapperData body with
  | inl err => inl err
  | inr ds =>
      inr {| GlobalConfiguration.TermsOfService := (stringField "termsOfService" ds "").1;
             GlobalConfiguration.MaintenanceMode :=
               (boolField "maintenanceMode" ds false).1;
             GlobalConfiguration.Leases :=
               {| GlobalLeasesConfig.MaxBudget := 0;
                  GlobalLeasesConfig.DefaultBudgetThresholds := [];
                  GlobalLeasesConfig.DefaultDurationThresholds := [];
                  GlobalLeasesConfig.MaxBudgetReclamationThreshold := 0;
                  GlobalLeasesConfig.MaxDurationHours := 0;
                  GlobalLeasesConfig.MaxLeasesPerUser := 0 |};
             GlobalConfiguration.Cleanup :=
               {| GlobalCleanupConfig.NumberOfFailedAttemptsToCancelCleanup := 0;
                  GlobalCleanupConfig.WaitBeforeRetryFailedAttemptSeconds := 0;
                  GlobalCleanupConfig.NumberOfSuccessfulAttemptsToFinishCleanup := 0;
                  GlobalCleanupConfig.WaitBeforeRerunSuccessfulAttemptSeconds := 0 |};
             GlobalConfiguration.Auth :=
               match member "auth" ds with Some (JObject a) => Some a | _ => None end;
             GlobalConfiguration.Notification :=
               {| GlobalNotificationConfig.EmailFrom := "" |} |}
  end.

(** A string as a JSON string literal; of the characters that need an
    escape it knows the quote and the backslash. *)
Fixpoint escaped (s : string) : string :=
  match s with
  | EmptyString => EmptyString
  | String c r =>
      if Ascii.eqb c "034" || Ascii.eqb c "\" then String "\" (String c (escaped r))
      else String c (escaped r)
  end.

Definition marshal_string (s : string) : string :=
  String "034" (escaped s) ++ String "034" EmptyString.

(** The members of an update request that are strings. *)
Definition marshal_UpdateLeaseRequest (req : UpdateLeaseRequest.t) : error + string :=
  inr ("{" ++ marshal_string "LeaseID" ++ ":"
           ++ marshal_string (UpdateLeaseRequest.LeaseID req)
           ++ match UpdateLeaseRequest.ExpirationDate req with
              | Some d => "," ++ marshal_string "expirationDate" ++ ":" ++ marshal_string d
              | None => ""
              end
           ++ "}").

Definition json : EncodingJSON :=
  {| Decode_failBody := decode_failBody;
     Decode_errorBody := decode_errorBody;
     Decode_Lease := decode_Lease;
     Decode_GetLeasesResponse := decode_GetLeasesResponse;
     Decode_GlobalConfiguration := decode_GlobalConfiguration;
     Marshal_string := marshal_string;
     Marshal_UpdateLeaseRequest := marshal_UpdateLeaseRequest |}.

(** Text up to the first character that satisfies [stop], and the rest. *)
Fixpoint upTo (stop : ascii -> bool) (s : string) : string * string :=
  match s with
  | EmptyString => (EmptyString, EmptyString)
  | String c r =>
      if stop c then (EmptyString, s)
      else let '(x, rest) := upTo stop r in (String c x, rest)
  end.

Fixpoint hasControl (s : string) : bool :=
  match s with
  | EmptyString => false
  | String c r => (N_of_ascii c <? 32)%N || (N_of_ascii c =? 127)%N || hasControl r
  end.

(** [scheme://host/path?query], without escapes, user information or
    fragment. *)
Definition parseURL (rawURL : string) : error + URL.t :=
  if hasControl rawURL
  then inl (errorString "net/url: invalid control character in URL")
  else
    let '(scheme, rest) :=
      match String.index 0 "://" rawURL with
      | Some i => (String.substring 0 i rawURL, drop (i + 3) rawURL)
      | None => (EmptyString, rawURL)
      end in
    let '(host, rest) :=
      if (scheme =? "")%string then (EmptyString, rest)
      else upTo (fun c => Ascii.eqb c "/" || Ascii.eqb c "?") rest in
    let '(path, rest) := upTo (fun c => Ascii.eqb c "?") rest in
    inr {| URL.Scheme := scheme; URL.Host := host; URL.Path := path;
           URL.RawQuery := drop 1 rest |}.

Definition urlString (u : URL.t) : string :=
  (if (URL.Scheme u =? "")%string then "" else URL.Scheme u ++ "://" ++ URL.Host u)
    ++ URL.Path u
    ++ (if (URL.RawQuery u =? "")%string then "" else "?" ++ URL.RawQuery u).

(** The clock stands still and the signer is a placeholder: it names the
    subject of the claims and signs nothing. *)
Definition platform : Platform :=
  {| url_Parse := parseURL;
     URL_String := urlString;
     time_Now := 1700000000 * second;
     SignedString_HS256 :=
       fun claims secret =>
         inr ("header." ++ UserClaims.Email (Claims.User claims) ++ ".signature") |}.

(** A server that gives every request the same answer. *)
Definition always (status : Z) (contentType body : string) : Server :=
  fun _ _ => inr {| Reply.StatusCode := status; Reply.ContentType := contentType;
                    Reply.Body := body |}.

(** A network that cannot be reached. *)
Definition unreachable : Server :=
  fun _ _ => inl (errorString "dial tcp: connection refused").

Definition client : Client.t := NewClient "https://sandbox.example.com/api" "token".

(** The operations on the reference implementation. *)
Definition DecodeAPIError := @DecodeAPIError json.
Definition GetLeases := @GetLeases json platform.
Definition GetLeaseByID := @GetLeaseByID json platform.
Definition CreateLease := @CreateLease json platform.
Definition CreateLeaseAsUser := @CreateLeaseAsUser json platform.
Definition UpdateLease := @UpdateLease json platform.
Definition GetConfigurations := @GetConfigurations json platform.
Definition ReviewLease := @ReviewLease json platform.

(** The response to a GET of [path] on the reference host. *)
Definition response (status : Z) (contentType body path : string) : Response.t :=
  {| Response.StatusCode := status;
     Response.ContentType := contentType;
     Response.Body := body;
     Response.Request :=
       {| Request.Method := "GET";
          Request.URL := {| URL.Scheme := "https"; URL.Host := "sandbox.example.com";
                            URL.Path := path; URL.RawQuery := "" |};
          Request.ContentType := "";
          Request.Authorization := "Bearer token";
          Request.Body := None |} |}.

(** JSON texts are written with ' where they have the double quote. *)
Fixpoint text (s : string) : string :=
  match s with
  | EmptyString => EmptyString
  | String c r => String (if Ascii.eqb c "'" then dquote else c) (text r)
  end.

Definition failJSON : string :=
  text "{'status':'fail','data':{'errors':[{'message':'no such thing'}]}}".

Definition errorJSON : string :=
  text "{'status':'error','message':'server error','code':500}".

(** A lease as the remote service sends it: without a lease identifier. *)
Definition leaseJSON : string :=
  text "{'status':'success','data':{'userEmail':'user@example.com','uuid':'lease123'}}".

Definition createRequest : CreateLeaseRequest.t :=
  {| CreateLeaseRequest.LeaseTemplateUUID := "tpl";
     CreateLeaseRequest.Comments := "" |}.

Definition updateRequest : UpdateLeaseRequest.t :=
  {| UpdateLeaseRequest.LeaseID := "lease123";
     UpdateLeaseRequest.MaxSpend := None;
     UpdateLeaseRequest.BudgetThresholds := None;
     UpdateLeaseRequest.ExpirationDate := Some "2030-01-01T00:00:00Z";
     UpdateLeaseRequest.DurationThresholds := None |}.

(** The remaining decoders, on the same terms. *)
Definition metaOf (ms : list (string * JSON)) : MetaData.t :=
  let meta := match member "meta" ms with Some (JObject m) => m | _ => [] end in
  {| MetaData.CreatedTime := (stringField "createdTime" meta "").1;
     MetaData.LastEditTime := (stringField "lastEditTime" meta "").1;
     MetaData.SchemaVersion := "" |}.

Definition templateOf (ms : list (string * JSON)) : error + LeaseTemplate.t :=
  let str name := stringField name ms "" in
  match foldr (fun n err => first (str n).2 err) None
          ["uuid"; "name"; "description"; "createdBy"] with
  | Some err => inl err
  | None =>
      inr {| LeaseTemplate.UUID := (str "uuid").1;
             LeaseTemplate.Name := (str "name").1;
             LeaseTemplate.Description := (str "description").1;
             LeaseTemplate.RequiresApproval := (boolField "requiresApproval" ms false).1;
             LeaseTemplate.CreatedBy := (str "createdBy").1;
             LeaseTemplate.MaxSpend := 0;
             LeaseTemplate.BudgetThresholds := [];
             LeaseTemplate.LeaseDurationInHours :=
               (intField "leaseDurationInHours" ms 0).1;
             LeaseTemplate.DurationThresholds := [];
             LeaseTemplate.Meta := metaOf ms |}
  end.

Definition accountOf (ms : list (string * JSON)) : error + Account.t :=
  let str name := stringField name ms "" in
  match first (str "awsAccountId").2 (str "status").2 with
  | Some err => inl err
  | None =>
      inr {| Account.AwsAccountId := (str "awsAccountId").1;
             Account.Status := (str "status").1;
             Account.DriftAtLastScan := (boolField "driftAtLastScan" ms false).1;
             Account.Meta := metaOf ms |}
  end.

Definition objects {A} (conv : list (string * JSON) -> error + A) (v : option JSON)
    : list A :=
  match v with
  | Some (JArray xs) =>
      omap (fun v => match v with
                     | JObject ms => match conv ms with inr a => Some a | inl _ => None end
                     | _ => None
                     end) xs
  | _ => []
  end.

Definition jsonMore : EncodingJSONMore :=
  {| Decode_LeaseTemplate :=
       fun body => match wrapperData body with inl err => inl err | inr ds => templateOf ds end;
     Decode_Account :=
       fun body => match wrapperData body with inl err => inl err | inr ds => accountOf ds end;
     Decode_GetLeaseTemplatesResponse :=
       fun body =>
         match wrapperData body with
         | inl err => inl err
         | inr ds =>
             inr {| GetLeaseTemplatesResponse.LeaseTemplates :=
                      objects templateOf (member "leaseTemplates" ds);
                    GetLeaseTemplatesResponse.NextPageIdentifier :=
                      (stringField "nextPageIdentifier" ds "").1 |}
         end;
     Decode_GetAccountsResponse :=
       fun body =>
         match wrapperData body with
         | inl err => inl err
         | inr ds =>
             inr {| GetAccountsResponse.Accounts := objects accountOf (member "accounts" ds);
                    GetAccountsResponse.NextPageIdentifier :=
                      (stringField "nextPageIdentifier" ds "").1 |}
         end;
     Marshal_UpdateLeaseTemplateRequest :=
       fun req =>
         inr ("{" ++ marshal_string "LeaseTemplateID" ++ ":"
                  ++ marshal_string (UpdateLeaseTemplateRequest.LeaseTemplateID req)
                  ++ "," ++ marshal_string "name" ++ ":"
                  ++ marshal_string (UpdateLeaseTemplateRequest.Name req) ++ "}");
     Marshal_RegisterAccountRequest :=
       fun req =>
         inr match req with
             | None => "null"
             | Some req =>
                 "{" ++ marshal_string "awsAccountId" ++ ":"
                     ++ marshal_string (RegisterAccountRequest.AwsAccountId req) ++ "}"
             end |}.

Definition doGet := @doGet json platform.
Definition doPost := @doPost json platform.
Definition doPatch := @doPatch json platform.
Definition doPut := @doPut json platform.
Definition doDelete := @doDelete json platform.
Definition GetLeaseTemplates := @GetLeaseTemplates json jsonMore platform.
Definition GetAccounts := @GetAccounts json jsonMore platform.
Definition FreezeLease := @FreezeLease json platform.
Definition TerminateLease := @TerminateLease json platform.
Definition UpdateLeaseTemplate := @UpdateLeaseTemplate json jsonMore platform.
Definition DeleteLeaseTemplate := @DeleteLeaseTemplate json platform.
Definition RegisterAccount := @RegisterAccount json jsonMore platform.
Definition RetryCleanup := @RetryCleanup json platform.
Definition EjectAccount := @EjectAccount json platform.
End Ref.

(** ** Notions used to state the properties *)

(** [resp.Request.URL.Path] *)
Definition requestPath (resp : Response.t) : string :=
  URL.Path (Request.URL (Response.Request resp)).

(** The body of a response decoded into a fresh [failBody]. *)
Definition decodedFail `{EncodingJSON} (resp : Response.t) : failBody.t * option error :=
  Decode_failBody (Response.Body resp) failBody.zero.

(** The body of a response decoded into a fresh [errorBody]. *)
Definition decodedError `{EncodingJSON} (resp : Response.t)
    : errorBody.t * option error :=
  Decode_errorBody (Response.Body resp) errorBody.zero.

(** A decoding that is a Fail Envelope: the body decoded without an error
    and the status field of what it gave is the text fail. *)
Definition isFailEnvelope (r : failBody.t * option error) : Prop :=
  r.2 = None /\ failBody.Status r.1 = "fail".

(** A decoding that is an Error Envelope: the body decoded without an error
    and the status field of what it gave is the text error. *)
Definition isErrorEnvelope (r : errorBody.t * option error) : Prop :=
  r.2 = None /\ errorBody.Status r.1 = "error".

(** The status-specific decode did not succeed: on a 400, 401, 403, 404 or
    409 the body is no Fail Envelope, on a 500 it is no Error Envelope; for
    any other status code there is no status-specific decode. *)
Definition specificDecodeFailed `{EncodingJSON} (resp : Response.t) : Prop :=
  let status := Response.StatusCode resp in
  (status = 400 \/ status = 401 \/ status = 403 \/ status = 404 \/ status = 409 ->
   ~ isFailEnvelope (decodedFail resp))
  /\ (status = 500 -> ~ isErrorEnvelope (decodedError resp)).

(** What the server answered and what the decoder made of it. *)
Definition answered `{EncodingJSON} (srv : Server) (sent : list Request.t)
    (data : Lease.t) : Prop :=
  exists wire reply,
    srv sent wire = inr reply /\ Decode_Lease (Reply.Body reply) = inr data.

(** A review request that [ReviewLease] does not send: nil, without a lease
    identifier, or with an action other than "Approve" and "Deny". *)
Definition invalidReview (req : option ReviewLeaseRequest.t) : Prop :=
  match req with
  | None => True
  | Some req =>
      ReviewLeaseRequest.LeaseID req = ""
      \/ (ReviewLeaseRequest.Action req <> "Approve"
          /\ ReviewLeaseRequest.Action req <> "Deny")
  end.

(** The request as the drainer leaves it after these cursors. *)
Definition lastRequest {R} `{PageIdentifiable R} (req : R) (cursors : list string) : R :=
  fold_left (fun r c => SetPageIdentifier c r) cursors req.

Definition mentions (c : ascii) (s : string) : bool :=
  existsb (Ascii.eqb c) (list_ascii_of_string s).

(** A parameter name that needs no escape and holds no separator. *)
Definition cleanKey (k : string) : bool :=
  negb (k =? "")%string
  && negb (mentions "&" k) && negb (mentions ";" k) && negb (mentions "=" k)
  && (QueryEscape k =? k)%string
  && match QueryUnescape k with Some k' => (k' =? k)%string | None => false end.

Definition encodePair (kv : string * string) : string :=
  QueryEscape kv.1 ++ "=" ++ QueryEscape kv.2.

(** What [Values.Encode] writes for single-valued parameters, in order. *)
Definition encodePairs (kvs : list (string * string)) : string :=
  fold_left
    (fun buf kv =>
       (if (String.length buf =? 0)%nat then buf else buf ++ "&")
         ++ QueryEscape kv.1 ++ "=" ++ QueryEscape kv.2)
    kvs "".

Fixpoint joinPairs (kvs : list (string * string)) : string :=
  match kvs with
  | [] => ""
  | [kv] => encodePair kv
  | kv :: rest => encodePair kv ++ "&" ++ joinPairs rest
  end.

(** What [QueryEscape] writes for one byte. *)
Definition escapeByte (c : ascii) : string :=
  if Ascii.eqb c " " then "+"
  else if shouldEscape c then
    String "%" (String (upperhex (N.shiftr (N_of_ascii c) 4))
               (String (upperhex (N.land (N_of_ascii c) 15)) EmptyString))
  else String c EmptyString.

Definition addPairs (kvs : list (string * string)) (m : Values) : Values :=
  fold_left (fun m kv => Values_Add kv.1 kv.2 m) kvs m.

(** The HTTP status code an error carries, for the types that have one. *)
Definition statusCodeOf (e : error) : option Z :=
  match e with
  | errorString _ | APIRequestError _ _ _ | JSONDecodingError _ => None
  | FailResponseError _ _ StatusCode => Some StatusCode
  | ResponseError r | ServerError r _ _ | BadRequestError r _ _ | UnauthorizedError r
  | NotFoundError r _ | ConflictError r _ | LeaseNotFoundError r _
  | LeaseTemplateNotFoundError r _ | AccountNotFoundError r _ | LeaseConflictError r _
  | LeaseTemplateConflictError r _ | AccountConflictError r _ =>
      Some (APIResponseError.StatusCode r)
  end.

(** The request a helper hands over, as the client's transport sends it:
    [contentType] is the header the helper sets, [body] what it reads from. *)
Definition wireRequest (c : Client.t) (method : string) (u : URL.t)
    (contentType : string) (body : option string) : Request.t :=
  let req := {| Request.Method := method; Request.URL := u;
                Request.ContentType := contentType; Request.Authorization := "";
                Request.Body := body |} in
  match HTTPClient.Transport (Client.HTTPClient c) with
  | Some token => RoundTrip token req
  | None => req
  end.

(** The response [http.Client.Do] makes of a reply. *)
Definition responseTo (wire : Request.t) (reply : Reply.t) : Response.t :=
  {| Response.StatusCode := Reply.StatusCode reply;
     Response.ContentType := Reply.ContentType reply;
     Response.Body := Reply.Body reply;
     Response.Request := wire |}.

(** A response that passes as JSON: no body, or a content type that names
    application/json. *)
Definition passesAsJSON (resp : Response.t) : bool :=
  (Response.Body resp =? "")%string
  || Contains (Response.ContentType resp) "application/json".

(** A request pointer that is nil or whose identifying field is empty. *)
Definition lacks {A} (field : A -> string) (req : option A) : Prop :=
  match req with
  | None => True
  | Some r => field r = ""
  end.

(** A run whose first request, after those handed over before, is this
    one. *)
Definition sendsFirst {A} (sent : list Request.t) (run : A * list Request.t)
    (wire : Request.t) : Prop :=
  exists rest, run.2 = (sent ++ wire :: rest)%list.

(** A helper's result that is no response and an [APIRequestError] of this
    operation and URL, whatever its cause. *)
Definition failsWith (op url : string) (r : option Response.t * option error) : Prop :=
  exists cause, r = (None, Some (APIRequestError op url cause)).

(** A computation that returns, whatever the network does. *)
Definition neverPanics {A} (m : Net (outcome A)) : Prop :=
  forall sent, exists a, (m sent).1 = Returns a.

(** What [http.Client.Do] returns for a request on the wire. *)
Definition exchange (srv : Server) (sent : list Request.t) (wire : Request.t)
    : error + Response.t :=
  match srv sent wire with
  | inl err => inl err
  | inr reply => inr (responseTo wire reply)
  end.

(** What a helper may return: a response that passes as JSON and has one of
    the helper's success statuses, and no error; or no response and an
    error. *)
Definition wellFormedResult (ok : Z -> bool) (r : option Response.t * option error)
    : Prop :=
  match r with
  | (Some resp, None) => passesAsJSON resp = true /\ ok (Response.StatusCode resp) = true
  | (None, Some _) => True
  | _ => False
  end.


(** The query parameters of a request as the API names them: each parameter
    name with the field it is read from. *)
Class Parameters (R : Type) := parameters : R -> list (string * string).

#[export] Instance GetLeasesRequest_parameters : Parameters GetLeasesRequest.t :=
  fun r => [("pageIdentifier", GetLeasesRequest.PageIdentifier r);
            ("pageSize", GetLeasesRequest.PageSize r);
            ("userEmail", GetLeasesRequest.UserEmail r)].

#[export] Instance GetLeaseByIDRequest_parameters : Parameters GetLeaseByIDRequest.t :=
  fun r => [("leaseId", GetLeaseByIDRequest.LeaseID r)].

#[export] Instance CreateLeaseRequest_parameters : Parameters CreateLeaseRequest.t :=
  fun r => [("leaseTemplateUuid", CreateLeaseRequest.LeaseTemplateUUID r);
            ("comments", CreateLeaseRequest.Comments r)].

#[export] Instance GetLeaseTemplatesRequest_parameters
    : Parameters GetLeaseTemplatesRequest.t :=
  fun r => [("pageIdentifier", GetLeaseTemplatesRequest.PageIdentifier r);
            ("pageSize", GetLeaseTemplatesRequest.PageSize r)].

#[export] Instance GetAccountsRequest_parameters : Parameters GetAccountsRequest.t :=
  fun r => [("pageIdentifier", GetAccountsRequest.PageIdentifier r);
            ("pageSize", GetAccountsRequest.PageSize r)].

(** The parameters a query holds for a request: exactly the non-empty
    fields, each as the single value of its name. *)
Definition holdsNonEmptyFields {R} `{Parameters R} (q : Values) (r : R) : Prop :=
  forall (k : string) (vs : list string),
    q !! k = Some vs <-> exists v, vs = [v] /\ v <> "" /\ (k, v) ∈ parameters r.

(** A run of [setIfNonEmpty] over a list of named fields. *)
Definition setAll (fields : list (string * string)) (q : Values) : Values :=
  fold_left (fun q kv => setIfNonEmpty kv.1 kv.2 q) fields q.

(** A fetch function that never fails and always returns a cursor. *)
Definition alwaysMore {T R W} (fetchPage : R -> W -> (list T * string * option error) * W)
    : Prop :=
  forall req w, (fetchPage req w).1.2 = None /\ (fetchPage req w).1.1.2 <> "".

(** A run that hands this one request to the network, given that its URL
    parses: the method, the URL as a string, the content type and the body,
    sent as the client's transport sends it. *)
Definition handsOver `{Platform} {A} (c : Client.t) (sent : list Request.t)
    (run : A * list Request.t) (method url contentType : string)
    (body : option string) : Prop :=
  forall u, url_Parse url = inr u ->
            run.2 = (sent ++ [wireRequest c method u contentType body])%list.
(** * Properties *)

(** ** The classifier *)

Lemma prefix_app (a s : string) :
  String.prefix a s = true -> exists r, s = a ++ r.
Proof.
  revert s. induction a as [|c a IH]; intros s Hs.
  - exists s. reflexivity.
  - destruct s as [|d s]; simpl in Hs; [discriminate|].
    destruct (ascii_dec c d) as [->|Hne]; [|discriminate].
    destruct (IH s Hs) as [r ->]. exists r. reflexivity.
Qed.

Lemma leases_not_leaseTemplates (p : string) :
  HasPrefix p "/leases/" = true -> HasPrefix p "/leaseTemplates/" = false.
Proof. intros Hp. apply prefix_app in Hp as [r ->]. reflexivity. Qed.

Lemma leases_not_accounts (p : string) :
  HasPrefix p "/leases/" = true -> HasPrefix p "/accounts/" = false.
Proof. intros Hp. apply prefix_app in Hp as [r ->]. reflexivity. Qed.

Lemma leaseTemplates_not_leases (p : string) :
  HasPrefix p "/leaseTemplates/" = true -> HasPrefix p "/leases/" = false.
Proof. intros Hp. apply prefix_app in Hp as [r ->]. reflexivity. Qed.

Lemma accounts_not_leases (p : string) :
  HasPrefix p "/accounts/" = true -> HasPrefix p "/leases/" = false.
Proof. intros Hp. apply prefix_app in Hp as [r ->]. reflexivity. Qed.

Lemma accounts_not_leaseTemplates (p : string) :
  HasPrefix p "/accounts/" = true -> HasPrefix p "/leaseTemplates/" = false.
Proof. intros Hp. apply prefix_app in Hp as [r ->]. reflexivity. Qed.

Section ClassifierFacts.
Context `{EncodingJSON}.

(** Whatever the status code and the body, the classifier returns one of
    its own error values. *)
Lemma DecodeAPIError_classified (reqBody : option string) (resp : Response.t) :
  isClassified (DecodeAPIError reqBody resp) = true.
Proof.
  unfold DecodeAPIError, fallback.
  repeat match goal with
         | |- context [if ?b then _ else _] => destruct b
         end; reflexivity.
Qed.

(** For a status code the [switch] has no case for, the fallback chain runs
    on fresh structs. *)
Lemma DecodeAPIError_unmapped (reqBody : option string) (resp : Response.t) :
  let status := Response.StatusCode resp in
  status <> 400 -> status <> 401 -> status <> 403 -> status <> 404 ->
  status <> 409 -> status <> 500 ->
  DecodeAPIError reqBody resp
  = fallback status (Response.Body resp) failBody.zero errorBody.zero.
Proof.
  intros status H400 H401 H403 H404 H409 H500. unfold DecodeAPIError.
  fold status.
  apply Z.eqb_neq in H400, H401, H403, H404, H409, H500.
  rewrite H400, H401, H403, H404, H409, H500. reflexivity.
Qed.

(** The two tests of the classifier say what the two notions say. *)
Lemma isFail_isFailEnvelope (r : failBody.t * option error) :
  isFail r = true <-> isFailEnvelope r.
Proof.
  unfold isFail, isFailEnvelope. destruct r as [fb [err|]]; cbn [fst snd].
  - split; [discriminate | intros [Herr _]; discriminate Herr].
  - rewrite String.eqb_eq. split; [intros Hs; split; [reflexivity | exact Hs] | tauto].
Qed.

Lemma isError_isErrorEnvelope (r : errorBody.t * option error) :
  isError r = true <-> isErrorEnvelope r.
Proof.
  unfold isError, isErrorEnvelope. destruct r as [eb [err|]]; cbn [fst snd].
  - split; [discriminate | intros [Herr _]; discriminate Herr].
  - rewrite String.eqb_eq. split; [intros Hs; split; [reflexivity | exact Hs] | tauto].
Qed.

Lemma specificDecodeFailed_false (resp : Response.t) :
  specificDecodeFailed resp -> specificDecodeSucceeded resp = false.
Proof.
  unfold specificDecodeFailed, specificDecodeSucceeded, decodedFail, decodedError.
  intros [Hfail Herror].
  destruct (Z.eqb_spec (Response.StatusCode resp) 400) as [E400|_]; cbn [orb];
    [apply not_true_is_false; rewrite isFail_isFailEnvelope; apply Hfail; tauto|].
  destruct (Z.eqb_spec (Response.StatusCode resp) 401) as [E401|_]; cbn [orb];
    [apply not_true_is_false; rewrite isFail_isFailEnvelope; apply Hfail; tauto|].
  destruct (Z.eqb_spec (Response.StatusCode resp) 403) as [E403|_]; cbn [orb];
    [apply not_true_is_false; rewrite isFail_isFailEnvelope; apply Hfail; tauto|].
  destruct (Z.eqb_spec (Response.StatusCode resp) 404) as [E404|_]; cbn [orb];
    [apply not_true_is_false; rewrite isFail_isFailEnvelope; apply Hfail; tauto|].
  destruct (Z.eqb_spec (Response.StatusCode resp) 409) as [E409|_]; cbn [orb];
    [apply not_true_is_false; rewrite isFail_isFailEnvelope; apply Hfail; tauto|].
  destruct (Z.eqb_spec (Response.StatusCode resp) 500) as [E500|_]; [|reflexivity].
  apply not_true_is_false. rewrite isError_isErrorEnvelope. apply Herror, E500.
Qed.

(** When the case of the [switch] did not return, the statements after it
    decide on the decodings of the body into fresh structs, given that a
    second decoding into a struct that holds the first changes nothing. *)
Lemma DecodeAPIError_after_switch (reqBody : option string) (resp : Response.t) :
  let body := Response.Body resp in
  let status := Response.StatusCode resp in
  let rf := Decode_failBody body failBody.zero in
  let re := Decode_errorBody body errorBody.zero in
  Decode_failBody body rf.1 = rf ->
  Decode_errorBody body re.1 = re ->
  specificDecodeSucceeded resp = false ->
  DecodeAPIError reqBody resp
  = fallback status body failBody.zero errorBody.zero.
Proof.
  intros body status rf re Hf He Hspec.
  unfold DecodeAPIError, specificDecodeSucceeded in *.
  fold body status rf re in Hspec |- *.
  destruct (status =? 400) eqn:E400; simpl in Hspec.
  { rewrite Hspec. unfold fallback. fold rf. rewrite Hf. reflexivity. }
  destruct (status =? 401) eqn:E401; simpl in Hspec |- *.
  { rewrite Hspec. unfold fallback. fold rf. rewrite Hf. reflexivity. }
  destruct (status =? 403) eqn:E403; simpl in Hspec |- *.
  { rewrite Hspec. unfold fallback. fold rf. rewrite Hf. reflexivity. }
  destruct (status =? 404) eqn:E404; simpl in Hspec |- *.
  { rewrite Hspec. unfold fallback. fold rf. rewrite Hf. reflexivity. }
  destruct (status =? 409) eqn:E409; simpl in Hspec |- *.
  { rewrite Hspec. unfold fallback. fold rf. rewrite Hf. reflexivity. }
  destruct (status =? 500) eqn:E500.
  { rewrite Hspec. unfold fallback. fold rf re. rewrite He. reflexivity. }
  reflexivity.
Qed.

(** C1: when the status-specific decode did not succeed, the classifier
    answers by the fallback chain, in this order.  A body that decodes
    without error and whose status field is "fail" gives a
    [FailResponseError] with the status string "fail", the detail errors of
    the envelope and the status code of the response.  Otherwise a body
    that decodes without error as an Error Envelope whose status field is
    "error" gives a [ServerError] with the status code of the response, the
    message, code and data of the envelope and no body.  Otherwise the
    result is an [APIResponseError] with the status code, the body as it is
    and no message.  In every case the result is one classified error.  The
    two premises on the decoder say that decoding these bytes a second
    time, into the struct that already holds their decoding, changes
    nothing: the classifier reuses its two structs. *)
Theorem DecodeAPIError_fallback_chain (reqBody : option string) (resp : Response.t) :
  let body := Response.Body resp in
  let status := Response.StatusCode resp in
  let rf := decodedFail resp in
  let re := decodedError resp in
  Decode_failBody body rf.1 = rf ->
  Decode_errorBody body re.1 = re ->
  specificDecodeFailed resp ->
  (isFailEnvelope rf ->
     DecodeAPIError reqBody resp
     = FailResponseError "fail" (failBody.Errors rf.1) status)
  /\ (~ isFailEnvelope rf -> isErrorEnvelope re ->
     DecodeAPIError reqBody resp
     = ServerError {| APIResponseError.StatusCode := status;
                      APIResponseError.Body := "";
                      APIResponseError.Message := errorBody.Message re.1 |}
         (errorBody.Code re.1) (errorBody.Data re.1))
  /\ (~ isFailEnvelope rf -> ~ isErrorEnvelope re ->
     DecodeAPIError reqBody resp
     = ResponseError {| APIResponseError.StatusCode := status;
                        APIResponseError.Body := body;
                        APIResponseError.Message := "" |})
  /\ isClassified (DecodeAPIError reqBody resp) = true.
Proof.
  intros body status rf re Hf He Hspec.
  apply specificDecodeFailed_false in Hspec.
  rewrite (DecodeAPIError_after_switch reqBody resp Hf He Hspec).
  fold body status. unfold fallback.
  change (Decode_failBody body failBody.zero) with rf.
  change (Decode_errorBody body errorBody.zero) with re.
  split; [|split; [|split]].
  - intros Hfail. pose proof Hfail as [_ Hstatus].
    apply isFail_isFailEnvelope in Hfail. rewrite Hfail, Hstatus. reflexivity.
  - intros Hfail Herror.
    apply isError_isErrorEnvelope in Herror. rewrite Herror.
    destruct (isFail rf) eqn:E; [|reflexivity].
    destruct Hfail. apply isFail_isFailEnvelope, E.
  - intros Hfail Herror.
    destruct (isFail rf) eqn:E; [destruct Hfail; apply isFail_isFailEnvelope, E|].
    destruct (isError re) eqn:E'; [|reflexivity].
    destruct Herror. apply isError_isErrorEnvelope, E'.
  - destruct (isFail rf), (isError re); reflexivity.
Qed.
End ClassifierFacts.

Lemma DecodeAPIError_fallback_chain_witness :
  Ref.DecodeAPIError None (Ref.response 500 "application/json" Ref.failJSON "/leases/abc")
  = FailResponseError "fail" [{| Message := "no such thing" |}] 500.
Proof.
  pose (resp := Ref.response 500 "application/json" Ref.failJSON "/leases/abc").
  destruct (@DecodeAPIError_fallback_chain Ref.json None resp) as (Hfail & _).
  - vm_compute. reflexivity.
  - vm_compute. reflexivity.
  - split.
    + intros [E | [E | [E | [E | E]]]]; discriminate E.
    + intros _ [_ Hstatus]. vm_compute in Hstatus. discriminate Hstatus.
  - unfold Ref.DecodeAPIError. fold resp. rewrite Hfail.
    + vm_compute. reflexivity.
    + split; vm_compute; reflexivity.
Defined.

Section NotFoundConflict.
Context `{EncodingJSON}.
Variable reqBody : option string.
Variable resp : Response.t.

#[local] Abbreviation urlPath := (requestPath resp).
#[local] Abbreviation rf := (decodedFail resp).

(** C2: a 404 whose body decodes as a Fail Envelope with status "fail" is
    a Lease-Not-Found on a path with prefix /leases/, a
    Lease-Template-Not-Found on prefix /leaseTemplates/, an
    Account-Not-Found on prefix /accounts/ and the generic Not-Found on any
    other path, each with the envelope's detail errors; a 409 gives the
    four Conflict errors in the same way. *)
Theorem DecodeAPIError_404_409 :
  isFail rf = true ->
  (Response.StatusCode resp = 404 ->
     (HasPrefix urlPath "/leases/" = true ->
        DecodeAPIError reqBody resp
        = LeaseNotFoundError (withMessage 404 "lease not found") (failBody.Errors rf.1))
     /\ (HasPrefix urlPath "/leaseTemplates/" = true ->
        DecodeAPIError reqBody resp
        = LeaseTemplateNotFoundError (withMessage 404 "lease template not found")
            (failBody.Errors rf.1))
     /\ (HasPrefix urlPath "/accounts/" = true ->
        DecodeAPIError reqBody resp
        = AccountNotFoundError (withMessage 404 "account not found")
            (failBody.Errors rf.1))
     /\ (HasPrefix urlPath "/leases/" = false ->
         HasPrefix urlPath "/leaseTemplates/" = false ->
         HasPrefix urlPath "/accounts/" = false ->
        DecodeAPIError reqBody resp
        = NotFoundError (withMessage 404 "not found") (failBody.Errors rf.1)))
  /\ (Response.StatusCode resp = 409 ->
     (HasPrefix urlPath "/leases/" = true ->
        DecodeAPIError reqBody resp
        = LeaseConflictError (withMessage 409 "lease conflict") (failBody.Errors rf.1))
     /\ (HasPrefix urlPath "/leaseTemplates/" = true ->
        DecodeAPIError reqBody resp
        = LeaseTemplateConflictError (withMessage 409 "lease template conflict")
            (failBody.Errors rf.1))
     /\ (HasPrefix urlPath "/accounts/" = true ->
        DecodeAPIError reqBody resp
        = AccountConflictError (withMessage 409 "account conflict")
            (failBody.Errors rf.1))
     /\ (HasPrefix urlPath "/leases/" = false ->
         HasPrefix urlPath "/leaseTemplates/" = false ->
         HasPrefix urlPath "/accounts/" = false ->
        DecodeAPIError reqBody resp
        = ConflictError (withMessage 409 "conflict") (failBody.Errors rf.1))).
Proof.
  intros Hfail. unfold DecodeAPIError. fold urlPath rf.
  split; intros ->; simpl; rewrite Hfail; repeat split.
  all: try (intros Hp; rewrite Hp; reflexivity).
  all: try (intros Hp; first
         [ rewrite (leaseTemplates_not_leases _ Hp), Hp
         | rewrite (accounts_not_leases _ Hp), (accounts_not_leaseTemplates _ Hp), Hp ];
         reflexivity).
  all: intros H1 H2 H3; rewrite H1, H2, H3; reflexivity.
Qed.

(** C9, as the code has it: on a 404 or 409 whose body decodes as a Fail
    Envelope with status "fail", the classifier picks a resource-specific
    error exactly when the request path begins with /leases/,
    /leaseTemplates/ or /accounts/; on every other path, and so on every
    path under a base URL with the path prefix /api, it gives the generic
    Not-Found or Conflict. *)
Theorem DecodeAPIError_resource_specific :
  isFail rf = true ->
  Response.StatusCode resp = 404 \/ Response.StatusCode resp = 409 ->
  let generic :=
    if Response.StatusCode resp =? 404
    then NotFoundError (withMessage 404 "not found") (failBody.Errors rf.1)
    else ConflictError (withMessage 409 "conflict") (failBody.Errors rf.1) in
  isResourceSpecific (DecodeAPIError reqBody resp)
  = HasPrefix urlPath "/leases/" || HasPrefix urlPath "/leaseTemplates/"
    || HasPrefix urlPath "/accounts/"
  /\ (HasPrefix urlPath "/leases/" || HasPrefix urlPath "/leaseTemplates/"
      || HasPrefix urlPath "/accounts/" = false ->
      DecodeAPIError reqBody resp = generic)
  /\ ((exists rest, urlPath = "/api" ++ rest) ->
      DecodeAPIError reqBody resp = generic).
Proof.
  intros Hfail Hstatus generic. subst generic.
  unfold DecodeAPIError. fold urlPath rf.
  repeat split.
  - destruct Hstatus as [-> | ->]; simpl; rewrite Hfail;
      destruct (HasPrefix urlPath "/leases/");
      destruct (HasPrefix urlPath "/leaseTemplates/");
      destruct (HasPrefix urlPath "/accounts/"); reflexivity.
  - intros [[H1 H2]%orb_false_elim H3]%orb_false_elim.
    destruct Hstatus as [-> | ->]; simpl; rewrite Hfail, H1, H2, H3; reflexivity.
  - intros [rest ->].
    destruct Hstatus as [-> | ->]; simpl; rewrite Hfail; reflexivity.
Qed.
End NotFoundConflict.

Lemma DecodeAPIError_404_409_witness :
  let resp := Ref.response 404 "application/json" Ref.failJSON "/leaseTemplates/abc" in
  isFail (Ref.decode_failBody (Response.Body resp) failBody.zero) = true
  /\ Ref.DecodeAPIError None resp
     = LeaseTemplateNotFoundError (withMessage 404 "lease template not found")
         [{| Message := "no such thing" |}].
Proof.
  intro resp. split; [vm_compute; reflexivity|].
  destruct (@DecodeAPIError_404_409 Ref.json None resp) as [H404 _];
    [vm_compute; reflexivity|].
  destruct (H404 eq_refl) as (_ & Htemplate & _).
  unfold Ref.DecodeAPIError. rewrite Htemplate; [|reflexivity].
  vm_compute. reflexivity.
Defined.

Lemma DecodeAPIError_resource_specific_witness :
  let resp := Ref.response 409 "application/json" Ref.failJSON "/api/leases/abc" in
  isFail (Ref.decode_failBody (Response.Body resp) failBody.zero) = true
  /\ Ref.DecodeAPIError None resp
     = ConflictError (withMessage 409 "conflict") [{| Message := "no such thing" |}].
Proof.
  intro resp. split; [vm_compute; reflexivity|].
  destruct (@DecodeAPIError_resource_specific Ref.json None resp) as (_ & _ & Hapi);
    [vm_compute; reflexivity | right; reflexivity |].
  unfold Ref.DecodeAPIError. rewrite Hapi; [|exists "/leases/abc"; reflexivity].
  vm_compute. reflexivity.
Defined.

(** A base URL with the path prefix /accounts: the lease that is not found
    is reported as an account that is not found. *)
Lemma prefixed_base_url_resource_specific :
  let c := NewClient "https://sandbox.example.com/accounts" "token" in
  let srv := Ref.always 404 "application/json" Ref.failJSON in
  option_map URL.Path
    (match Ref.parseURL (Client.BaseURL c) with inr u => Some u | inl _ => None end)
  = Some "/accounts"
  /\ (Ref.GetLeaseByID srv c (Some {| GetLeaseByIDRequest.LeaseID := "abc" |}) []).1
     = Returns (None, Some (AccountNotFoundError (withMessage 404 "account not found")
                              [{| Message := "no such thing" |}])).
Proof. split; vm_compute; reflexivity. Qed.

(** ** The transport helpers *)

Section TransportFacts.
Context `{EncodingJSON} `{Platform}.
Variable srv : Server.

(** A response that is not JSON is reported by all five helpers before the
    status code is looked at; the text of the error names the content type
    and, [isJSONResponse] returning the empty string for the body, nothing
    of the body. *)
Lemma checkResponse_nonJSON (op url : string) (ok : Z -> bool)
    (reqBody : option string) (resp : Response.t) :
  Response.Body resp <> "" ->
  Contains (Response.ContentType resp) "application/json" = false ->
  checkResponse op url ok reqBody (inr resp)
  = (None, Some (APIRequestError op url
                   (errorString ("non-JSON response ("
                                 ++ Response.ContentType resp ++ "): ")))).
Proof.
  intros Hbody Hct. unfold checkResponse, isJSONResponse, nonJSON.
  destruct (Response.Body resp) as [|b body]; [congruence|]. simpl.
  rewrite Hct, orb_true_r. reflexivity.
Qed.

Lemma checkResponse_Some (op url : string) (ok : Z -> bool)
    (reqBody : option string) (r : error + Response.t)
    (resp : Response.t) (err : option error) :
  checkResponse op url ok reqBody r = (Some resp, err) ->
  r = inr resp /\ err = None /\ ok (Response.StatusCode resp) = true.
Proof.
  unfold checkResponse. intros Hr.
  repeat case_match; simplify_eq.
  repeat split. apply negb_false_iff. assumption.
Qed.

Lemma Do_inr (hc : HTTPClient.t) (req : Request.t) (sent sent' : list Request.t)
    (resp : Response.t) :
  Do srv hc req sent = (inr resp, sent') ->
  exists reply, srv sent (Response.Request resp) = inr reply
                /\ Response.Body resp = Reply.Body reply
                /\ Response.StatusCode resp = Reply.StatusCode reply
                /\ sent' = (sent ++ [Response.Request resp])%list.
Proof.
  unfold Do. intros Hdo.
  repeat case_match; simplify_eq; simpl; eauto.
Qed.

(** What a helper hands back without an error is a response of the
    server. *)
Lemma doGet_Some (c : Client.t) (url : string) (sent sent' : list Request.t)
    (resp : Response.t) (err : option error) :
  doGet srv c url sent = ((Some resp, err), sent') ->
  err = None
  /\ exists reply, srv sent (Response.Request resp) = inr reply
                   /\ Response.Body resp = Reply.Body reply.
Proof.
  unfold doGet, bind, ret. intros Hget.
  repeat case_match; simplify_eq.
  match goal with
  | Hc : checkResponse _ _ _ _ _ = _ |- _ =>
      apply checkResponse_Some in Hc as (-> & -> & _)
  end.
  match goal with
  | Hd : Do _ _ _ _ = _ |- _ => apply Do_inr in Hd as (reply & ? & ? & _)
  end.
  eauto.
Qed.

Lemma doPost_Some (c : Client.t) (url : string) (body : option string)
    (sent sent' : list Request.t) (resp : Response.t) (err : option error) :
  doPost srv c url body sent = ((Some resp, err), sent') ->
  err = None
  /\ exists reply, srv sent (Response.Request resp) = inr reply
                   /\ Response.Body resp = Reply.Body reply.
Proof.
  unfold doPost, bind, ret. intros Hpost.
  repeat case_match; simplify_eq.
  match goal with
  | Hc : checkResponse _ _ _ _ _ = _ |- _ =>
      apply checkResponse_Some in Hc as (-> & -> & _)
  end.
  match goal with
  | Hd : Do _ _ _ _ = _ |- _ => apply Do_inr in Hd as (reply & ? & ? & _)
  end.
  eauto.
Qed.

Lemma doPatch_Some (c : Client.t) (url : string) (body : option string)
    (sent sent' : list Request.t) (resp : Response.t) (err : option error) :
  doPatch srv c url body sent = ((Some resp, err), sent') ->
  err = None
  /\ exists reply, srv sent (Response.Request resp) = inr reply
                   /\ Response.Body resp = Reply.Body reply.
Proof.
  unfold doPatch, bind, ret. intros Hpatch.
  repeat case_match; simplify_eq.
  match goal with
  | Hc : checkResponse _ _ _ _ _ = _ |- _ =>
      apply checkResponse_Some in Hc as (-> & -> & _)
  end.
  match goal with
  | Hd : Do _ _ _ _ = _ |- _ => apply Do_inr in Hd as (reply & ? & ? & _)
  end.
  eauto.
Qed.
End TransportFacts.

(** ** The derived lease identifier *)

Lemma string_app_assoc (a b c : string) : (a ++ b) ++ c = a ++ b ++ c.
Proof.
  induction a as [|x a IH]; [reflexivity|].
  change (String x ((a ++ b) ++ c) = String x (a ++ b ++ c)).
  rewrite IH. reflexivity.
Qed.

Lemma sortedKeys_leaseIdComponents (userEmail uuid : string) :
  sortedKeys (<["uuid" := uuid]> ({[ "userEmail" := userEmail ]} : gmap string string))
  = ["userEmail"; "uuid"].
Proof. vm_compute. reflexivity. Qed.

Section LeaseIdFacts.
Context `{EncodingJSON} `{Platform}.
Variable srv : Server.
Variable c : Client.t.
Variable sent : list Request.t.

Lemma withLeaseId_canonical (data : Lease.t) :
  withLeaseId data
  = Lease.setLeaseId (canonicalLeaseId (Lease.UserEmail data) (Lease.UUID data)) data.
Proof.
  unfold withLeaseId, canonicalLeaseId, Marshal_map.
  rewrite sortedKeys_leaseIdComponents. simpl.
  rewrite lookup_insert_ne by discriminate.
  rewrite lookup_singleton_eq, lookup_insert_eq. simpl.
  rewrite !string_app_assoc. reflexivity.
Qed.

(** C3, as the code has it: the two lease-creation operations return the
    decoded lease with its [LeaseId] replaced by the base64 encoding of the
    JSON object of the response's userEmail and uuid, computed by the
    client; [UpdateLease], [GetLeaseByID] and [GetLeases] return what was
    decoded, with the [LeaseId] the server sent. *)
Theorem LeaseId_derived_on_create_only :
  (forall req out sent',
      CreateLease srv c req sent = (Returns (Some out, None), sent') ->
      exists data, answered srv sent data
        /\ CreateLeaseResponse.Lease out
           = Lease.setLeaseId
               (canonicalLeaseId (Lease.UserEmail data) (Lease.UUID data)) data)
  /\ (forall req userEmail jwtSecret out sent',
      CreateLeaseAsUser srv c req userEmail jwtSecret sent
      = (Returns (Some out, None), sent') ->
      exists data, answered srv sent data
        /\ CreateLeaseResponse.Lease out
           = Lease.setLeaseId
               (canonicalLeaseId (Lease.UserEmail data) (Lease.UUID data)) data)
  /\ (forall req out sent',
      UpdateLease srv c req sent = (Returns (Some out, None), sent') ->
      exists data, answered srv sent data /\ UpdateLeaseResponse.Lease out = data)
  /\ (forall req out sent',
      GetLeaseByID srv c req sent = (Returns (Some out, None), sent') ->
      exists data, answered srv sent data /\ GetLeaseByIDResponse.Lease out = data)
  /\ (forall R (builder : QueryBuilder R) req out sent',
      GetLeases srv c req sent = (Returns (Some out, None), sent') ->
      exists wire reply,
        srv sent wire = inr reply
        /\ Decode_GetLeasesResponse (Reply.Body reply) = inr out).
Proof.
  unfold answered. repeat split.
  - intros req out sent'. unfold CreateLease, bind, ret, deref. intros Hop.
    repeat case_match; simplify_eq.
    match goal with
    | Hp : doPost _ _ _ _ _ = _ |- _ =>
        apply doPost_Some in Hp as (_ & reply & Hsrv & Hbody)
    end.
    rewrite withLeaseId_canonical. rewrite Hbody in *. eauto 6.
  - intros req userEmail jwtSecret out sent'.
    unfold CreateLeaseAsUser, bind, ret. intros Hop.
    repeat case_match; simplify_eq.
    match goal with
    | Hd : Do _ _ _ _ = _ |- _ => apply Do_inr in Hd as (reply & Hsrv & Hbody & _)
    end.
    rewrite withLeaseId_canonical. rewrite Hbody in *. eauto 6.
  - intros req out sent'. unfold UpdateLease, bind, ret, deref. intros Hop.
    repeat case_match; simplify_eq.
    match goal with
    | Hp : doPatch _ _ _ _ _ = _ |- _ =>
        apply doPatch_Some in Hp as (_ & reply & Hsrv & Hbody)
    end.
    rewrite Hbody in *. eauto 6.
  - intros req out sent'. unfold GetLeaseByID, bind, ret, deref. intros Hop.
    repeat case_match; simplify_eq.
    match goal with
    | Hp : doGet _ _ _ _ = _ |- _ =>
        apply doGet_Some in Hp as (_ & reply & Hsrv & Hbody)
    end.
    rewrite Hbody in *. eauto 6.
  - intros R builder req out sent'. unfold GetLeases, bind, ret, deref. intros Hop.
    repeat case_match; simplify_eq.
    all: match goal with
         | Hp : doGet _ _ _ _ = _ |- _ =>
             apply doGet_Some in Hp as (_ & reply & Hsrv & Hbody)
         end.
    all: rewrite Hbody in *; eauto 6.
Qed.
End LeaseIdFacts.

Lemma LeaseId_derived_on_create_only_witness :
  exists out sent',
    Ref.CreateLease (Ref.always 201 "application/json" Ref.leaseJSON) Ref.client
      (Some Ref.createRequest) []
    = (Returns (Some out, None), sent')
    /\ Lease.LeaseId (CreateLeaseResponse.Lease out)
       = "eyJ1c2VyRW1haWwiOiJ1c2VyQGV4YW1wbGUuY29tIiwidXVpZCI6ImxlYXNlMTIzIn0=".
Proof.
  eexists. eexists. split; [vm_compute; reflexivity|].
  destruct (@LeaseId_derived_on_create_only Ref.json Ref.platform
              (Ref.always 201 "application/json" Ref.leaseJSON) Ref.client [])
    as [Hcreate _].
  edestruct (Hcreate (Some Ref.createRequest))
    as (data & (wire & reply & Hsrv & Hdata) & Hout);
    [vm_compute; reflexivity|].
  vm_compute in Hsrv. injection Hsrv as <-.
  vm_compute in Hdata. injection Hdata as <-.
  rewrite Hout. vm_compute. reflexivity.
Defined.

(** [UpdateLease] on a response without a lease identifier: the lease comes
    back with the empty identifier, not with the derived one. *)
Lemma UpdateLease_does_not_derive_LeaseId :
  exists out sent',
    Ref.UpdateLease (Ref.always 200 "application/json" Ref.leaseJSON) Ref.client
      (Some Ref.updateRequest) []
    = (Returns (Some out, None), sent')
    /\ Lease.UserEmail (UpdateLeaseResponse.Lease out) = "user@example.com"
    /\ Lease.UUID (UpdateLeaseResponse.Lease out) = "lease123"
    /\ Lease.LeaseId (UpdateLeaseResponse.Lease out) = ""
    /\ Lease.LeaseId (UpdateLeaseResponse.Lease out)
       <> EncodeToString (Ref.text "{'userEmail':'user@example.com','uuid':'lease123'}").
Proof.
  eexists. eexists. split; [vm_compute; reflexivity|].
  repeat split. vm_compute. discriminate.
Qed.

(** ** Failures of the transport *)

Section ConfigurationFacts.
Context `{EncodingJSON} `{Platform}.
Variable srv : Server.
Variable c : Client.t.
Variable sent : list Request.t.

(** C4 at [GetConfigurations]: the error of the underlying GET is
    overwritten with nil before it is tested, so when the GET fails the
    operation goes on to read the body of a nil response and panics; it
    does not return the error. *)
Theorem GetConfigurations_panics_when_GET_fails (err : error) :
  (doGet srv c (Client.BaseURL c ++ "/configurations") sent).1 = (None, Some err) ->
  (GetConfigurations srv c sent).1
  = Panics "invalid memory address or nil pointer dereference".
Proof.
  unfold GetConfigurations, bind, ret. intros Hget.
  destruct (doGet srv c (Client.BaseURL c ++ "/configurations") sent)
    as [[resp err'] sent'].
  simpl in Hget. injection Hget as -> ->. reflexivity.
Qed.
End ConfigurationFacts.

Lemma GetConfigurations_panics_when_GET_fails_witness :
  (@doGet Ref.json Ref.platform Ref.unreachable Ref.client
     (Client.BaseURL Ref.client ++ "/configurations") []).1
  = (None, Some (APIRequestError "do" "https://sandbox.example.com/api/configurations"
                   (errorString "dial tcp: connection refused")))
  /\ (Ref.GetConfigurations Ref.unreachable Ref.client []).1
     = Panics "invalid memory address or nil pointer dereference".
Proof.
  split; [vm_compute; reflexivity|].
  apply (@GetConfigurations_panics_when_GET_fails Ref.json Ref.platform
           Ref.unreachable Ref.client []
           (APIRequestError "do" "https://sandbox.example.com/api/configurations"
              (errorString "dial tcp: connection refused"))).
  vm_compute. reflexivity.
Defined.

(** C7 at its failing input, a 500 with an HTML body: [CreateLeaseAsUser]
    does not look at the content type and classifies the response, giving the
    generic response error with the body; [CreateLease], through [doPost],
    reports the response as not JSON, and its error has the content type but
    nothing of the body. *)
Theorem CreateLeaseAsUser_classifies_non_JSON :
  let srv := Ref.always 500 "text/html" "<html><body>Error</body></html>" in
  (Ref.CreateLeaseAsUser srv Ref.client (Some Ref.createRequest)
     "user@example.com" "secret" []).1
  = Returns (None, Some (ResponseError
                           {| APIResponseError.StatusCode := 500;
                              APIResponseError.Body := "<html><body>Error</body></html>";
                              APIResponseError.Message := "" |}))
  /\ (Ref.CreateLease srv Ref.client (Some Ref.createRequest) []).1
     = Returns (None, Some (APIRequestError "doPost"
                              "https://sandbox.example.com/api/leases"
                              (errorString "non-JSON response (text/html): "))).
Proof. split; vm_compute; reflexivity. Qed.

(** ** Validation of the parameters *)

Section ReviewFacts.
Context `{EncodingJSON} `{Platform}.
Variable srv : Server.
Variable c : Client.t.
Variable sent : list Request.t.

(** C10: for a nil request, an empty [LeaseID] or an [Action] that is
    neither "Approve" nor "Deny", [ReviewLease] returns the
    parameter-validation [APIRequestError] and hands no request to the
    network. *)
Theorem ReviewLease_validates_action (req : option ReviewLeaseRequest.t) :
  invalidReview req ->
  ReviewLease srv c req sent
  = (Returns (Some (APIRequestError "param" ""
                      (errorString "LeaseID and Action are required"))), sent).
Proof.
  unfold invalidReview, ReviewLease, ret, paramError, ReviewApprove, ReviewDeny.
  destruct req as [req|]; [|reflexivity].
  intros [Hid | [Happrove Hdeny]].
  - rewrite Hid. reflexivity.
  - apply String.eqb_neq in Happrove, Hdeny. rewrite Happrove, Hdeny.
    rewrite orb_true_r. reflexivity.
Qed.
End ReviewFacts.

Lemma ReviewLease_validates_action_witness :
  let req := Some {| ReviewLeaseRequest.LeaseID := "lease123";
                     ReviewLeaseRequest.Action := "approve" |} in
  invalidReview req
  /\ Ref.ReviewLease (Ref.always 200 "application/json" "") Ref.client req []
     = (Returns (Some (APIRequestError "param" ""
                         (errorString "LeaseID and Action are required"))), []).
Proof.
  intro req.
  assert (Hreq : invalidReview req) by (right; split; discriminate).
  split; [exact Hreq|].
  exact (@ReviewLease_validates_action Ref.json Ref.platform
           (Ref.always 200 "application/json" "") Ref.client [] req Hreq).
Defined.

(** ** The pagination drainer *)

Section PaginationFacts.
Context {T R : Type} `{PageIdentifiable R}.

Implicit Types (init : list (list T * string)) (req : R) (log : list R).
Implicit Types (rest : list (list T * string * option error)).

Lemma requests_length req (cursors : list string) :
  length (Script.requests req cursors) = S (length cursors).
Proof.
  revert req. induction cursors as [|c cs IH]; intros req; simpl; [reflexivity|].
  rewrite IH. reflexivity.
Qed.

(** Every request after the first is the one before it with the cursor that
    the fetch before it returned. *)
Lemma requests_step req (cursors : list string) (k : nat) (cursor : string) :
  cursors !! k = Some cursor ->
  exists r, Script.requests req cursors !! k = Some r
            /\ Script.requests req cursors !! S k = Some (SetPageIdentifier cursor r).
Proof.
  revert req k. induction cursors as [|c cs IH]; intros req k Hk; [discriminate|].
  destruct k as [|k]; simpl in *.
  - injection Hk as ->. exists req. split; [reflexivity|].
    destruct cs; reflexivity.
  - apply IH. assumption.
Qed.

(** The loop on pages with cursors: it goes through all of them. *)
Lemma paginateAll_loop_init init (final : list T * string * option error) rest
    (fuel : nat) (acc : list T) req log :
  Forall (fun p => p.2 <> "") init ->
  paginateAll_loop Script.fetch (length init + fuel) acc req
    {| Script.pages := (map Script.ok init ++ final :: rest)%list;
       Script.calls := log |}
  = paginateAll_loop Script.fetch fuel (acc ++ concat (map fst init))%list
      (lastRequest req (map snd init))
      {| Script.pages := final :: rest;
         Script.calls := (log ++ removelast (Script.requests req (map snd init)))%list |}.
Proof.
  intros Hinit. revert acc req log.
  induction Hinit as [|[items next] init Hnext Hinit IH]; intros acc req log.
  - simpl. rewrite !app_nil_r. reflexivity.
  - simpl in Hnext. apply String.eqb_neq in Hnext.
    cbn [length Nat.add paginateAll_loop map app Script.fetch Script.pages
           Script.calls Script.ok fst snd].
    rewrite Hnext, IH. cbn [concat map fst snd lastRequest fold_left Script.requests].
    rewrite <- !app_assoc.
    destruct (Script.requests (SetPageIdentifier next req) (map snd init)) eqn:Hreqs.
    + pose proof (requests_length (SetPageIdentifier next req) (map snd init)) as Hlen.
      rewrite Hreqs in Hlen. discriminate.
    + reflexivity.
Qed.

Lemma requests_last req (cursors : list string) :
  Script.requests req cursors
  = (removelast (Script.requests req cursors) ++ [lastRequest req cursors])%list.
Proof.
  revert req. induction cursors as [|c cs IH]; intros req; [reflexivity|].
  cbn [Script.requests lastRequest fold_left].
  destruct (Script.requests (SetPageIdentifier c req) cs) eqn:Hreqs.
  - pose proof (requests_length (SetPageIdentifier c req) cs) as Hlen.
    rewrite Hreqs in Hlen. discriminate.
  - change (removelast (req :: r :: l)) with (req :: removelast (r :: l)).
    rewrite <- Hreqs. cbn [app]. f_equal. apply IH.
Qed.
End PaginationFacts.

Section Drainer.
Context {T R : Type} `{PageIdentifiable R}.
Variable init : list (list T * string).
Variable rest : list (list T * string * option error).
Variable req : R.
Variable log : list R.
Variable fuel : nat.

Hypothesis cursors_nonempty : Forall (fun p => p.2 <> "") init.
Hypothesis enough_fuel : (length init < fuel)%nat.

(** C5: when the fetch function returns N pages, the first N-1 with a
    cursor ([init]) and the last without ([last]), the drainer returns the
    items of all N pages in order and no error; it has called the fetch
    function N times and no more (the script after these pages is
    untouched); and each call after the first was made with the request of
    the call before it, its page cursor set to the identifier that call
    returned.  For the three request types, setting the cursor writes the
    [PageIdentifier] field. *)
Theorem paginateAll_drains_all_pages (last : list T) :
  paginateAll Script.fetch fuel req
    {| Script.pages := (map Script.ok init ++ (last, "", None) :: rest)%list;
       Script.calls := log |}
  = Some ((concat (map fst init) ++ last, None)%list,
          lastRequest req (map snd init),
          {| Script.pages := rest;
             Script.calls := (log ++ Script.requests req (map snd init))%list |})
  /\ length (Script.requests req (map snd init)) = S (length init)
  /\ (forall (k : nat) (cursor : string),
        map snd init !! k = Some cursor ->
        exists r, Script.requests req (map snd init) !! k = Some r
                  /\ Script.requests req (map snd init) !! S k
                     = Some (SetPageIdentifier cursor r))
  /\ (forall next r, GetLeasesRequest.PageIdentifier (SetPageIdentifier next r) = next)
  /\ (forall next r,
        GetLeaseTemplatesRequest.PageIdentifier (SetPageIdentifier next r) = next)
  /\ (forall next r, GetAccountsRequest.PageIdentifier (SetPageIdentifier next r) = next).
Proof.
  repeat split.
  - unfold paginateAll.
    replace fuel with (length init + S (fuel - S (length init)))%nat by lia.
    rewrite paginateAll_loop_init by assumption.
    cbn [paginateAll_loop Script.fetch Script.pages Script.calls app].
    rewrite <- app_assoc, <- requests_last. reflexivity.
  - rewrite requests_length, length_map. reflexivity.
  - intros k cursor. apply requests_step.
Qed.

(** C6: when the fetch of some page fails, after pages that came with a
    cursor, the drainer returns that error and no items; the failing call
    was its last call of the fetch function (the script after it is
    untouched). *)
Theorem paginateAll_returns_fetch_error (items : list T) (next : string) (err : error) :
  paginateAll Script.fetch fuel req
    {| Script.pages := (map Script.ok init ++ (items, next, Some err) :: rest)%list;
       Script.calls := log |}
  = Some (([], Some err),
          lastRequest req (map snd init),
          {| Script.pages := rest;
             Script.calls := (log ++ Script.requests req (map snd init))%list |})
  /\ length (Script.requests req (map snd init)) = S (length init).
Proof.
  split.
  - unfold paginateAll.
    replace fuel with (length init + S (fuel - S (length init)))%nat by lia.
    rewrite paginateAll_loop_init by assumption.
    cbn [paginateAll_loop Script.fetch Script.pages Script.calls app].
    rewrite <- app_assoc, <- requests_last. reflexivity.
  - rewrite requests_length, length_map. reflexivity.
Qed.
End Drainer.

Lemma paginateAll_drains_all_pages_witness :
  let req := {| GetLeasesRequest.PageIdentifier := ""; GetLeasesRequest.PageSize := "1";
                GetLeasesRequest.UserEmail := "" |} in
  let init := [(["lease1"], "page2"); (["lease2"], "page3")] in
  Forall (fun p : list string * string => p.2 <> "") init
  /\ paginateAll Script.fetch 3 req
       {| Script.pages := (map Script.ok init ++ [(["lease3"], "", None)])%list;
          Script.calls := [] |}
     = Some ((["lease1"; "lease2"; "lease3"], None),
             SetPageIdentifier "page3" req,
             {| Script.pages := [];
                Script.calls := [req; SetPageIdentifier "page2" req;
                                 SetPageIdentifier "page3" req] |}).
Proof.
  intros req init.
  assert (Hinit : Forall (fun p : list string * string => p.2 <> "") init)
    by (repeat constructor; discriminate).
  split; [exact Hinit|].
  exact (proj1 (paginateAll_drains_all_pages init [] req [] 3 Hinit
                  ltac:(simpl; lia) ["lease3"])).
Defined.

Lemma paginateAll_returns_fetch_error_witness :
  let req := {| GetAccountsRequest.PageIdentifier := "";
                GetAccountsRequest.PageSize := "" |} in
  let init := [(["account1"], "page2")] in
  let err := APIRequestError "do" "https://sandbox.example.com/api/accounts"
               (errorString "dial tcp: connection refused") in
  Forall (fun p : list string * string => p.2 <> "") init
  /\ paginateAll Script.fetch 5 req
       {| Script.pages := (map Script.ok init
                             ++ [([], "", Some err); (["account2"], "", None)])%list;
          Script.calls := [] |}
     = Some (([], Some err),
             SetPageIdentifier "page2" req,
             {| Script.pages := [(["account2"], "", None)];
                Script.calls := [req; SetPageIdentifier "page2" req] |}).
Proof.
  intros req init err.
  assert (Hinit : Forall (fun p : list string * string => p.2 <> "") init)
    by (repeat constructor; discriminate).
  split; [exact Hinit|].
  exact (proj1 (paginateAll_returns_fetch_error init [(["account2"], "", None)] req [] 5
                  Hinit ltac:(simpl; lia) [] "" err)).
Defined.

(** ** Query strings *)

Lemma QueryEscape_cons (c : ascii) (r : string) :
  QueryEscape (String c r) = escapeByte c ++ QueryEscape r.
Proof.
  unfold escapeByte. cbn [QueryEscape].
  destruct (Ascii.eqb c " "); [reflexivity|].
  destruct (shouldEscape c); reflexivity.
Qed.

Lemma escapeByte_facts (c : ascii) :
  escapeByte c <> ""
  /\ mentions "&" (escapeByte c) = false
  /\ mentions ";" (escapeByte c) = false
  /\ mentions "=" (escapeByte c) = false
  /\ forall t, QueryUnescape (escapeByte c ++ t) = option_map (String c) (QueryUnescape t).
Proof.
  destruct c as [[] [] [] [] [] [] [] []];
    (split; [discriminate|]); repeat split.
Qed.

Lemma mentions_app (c : ascii) (a b : string) :
  mentions c (a ++ b) = mentions c a || mentions c b.
Proof.
  induction a as [|d a IH]; [reflexivity|].
  change (mentions c (String d a ++ b)) with (Ascii.eqb c d || mentions c (a ++ b)).
  change (mentions c (String d a)) with (Ascii.eqb c d || mentions c a).
  rewrite IH, orb_assoc. reflexivity.
Qed.

Lemma QueryEscape_no_separator (s : string) :
  mentions "&" (QueryEscape s) = false
  /\ mentions ";" (QueryEscape s) = false
  /\ mentions "=" (QueryEscape s) = false.
Proof.
  induction s as [|c s (IHamp & IHsemi & IHeq)]; [repeat split|].
  rewrite QueryEscape_cons, !mentions_app.
  destruct (escapeByte_facts c) as (_ & -> & -> & -> & _).
  rewrite IHamp, IHsemi, IHeq. repeat split.
Qed.

(** Unescaping undoes escaping, whatever the bytes. *)
Lemma QueryUnescape_QueryEscape (s : string) :
  QueryUnescape (QueryEscape s) = Some s.
Proof.
  induction s as [|c s IH]; [reflexivity|].
  rewrite QueryEscape_cons.
  destruct (escapeByte_facts c) as (_ & _ & _ & _ & ->).
  rewrite IH. reflexivity.
Qed.

Lemma prefix_empty (s : string) : String.prefix "" s = true.
Proof. destruct s; reflexivity. Qed.

Lemma Contains_char (s : string) (c : ascii) :
  Contains s (String c "") = mentions c s.
Proof.
  induction s as [|d s IH]; [reflexivity|].
  change (mentions c (String d s)) with (Ascii.eqb c d || mentions c s).
  cbn [Contains String.prefix]. rewrite IH, prefix_empty.
  destruct (ascii_dec c d) as [->|Hne].
  - rewrite Ascii.eqb_refl. reflexivity.
  - apply Ascii.eqb_neq in Hne. rewrite Hne. reflexivity.
Qed.

Lemma mentions_cons_false (c d : ascii) (s : string) :
  mentions c (String d s) = false -> Ascii.eqb d c = false /\ mentions c s = false.
Proof.
  change (mentions c (String d s)) with (Ascii.eqb c d || mentions c s).
  intros [Hd Hs]%orb_false_elim. rewrite Ascii.eqb_sym. auto.
Qed.

Lemma cutAll_amp (a b : string) :
  mentions "&" a = false -> cutAll (a ++ String "&" b) = a :: cutAll b.
Proof.
  induction a as [|d a IH]; intros Ha; [reflexivity|].
  apply mentions_cons_false in Ha as [Hd Ha].
  change (String d a ++ String "&" b) with (String d (a ++ String "&" b)).
  cbn [cutAll]. rewrite Hd, (IH Ha). reflexivity.
Qed.

Lemma cutAll_single (a : string) :
  mentions "&" a = false -> a <> "" -> cutAll a = [a].
Proof.
  induction a as [|d a IH]; intros Ha Hne; [congruence|].
  apply mentions_cons_false in Ha as [Hd Ha].
  cbn [cutAll]. rewrite Hd.
  destruct a as [|e a]; [reflexivity|].
  rewrite (IH Ha) by discriminate. reflexivity.
Qed.

Lemma cutEq_eq (k v : string) :
  mentions "=" k = false -> cutEq (k ++ String "=" v) = (k, v).
Proof.
  induction k as [|d k IH]; intros Hk; [reflexivity|].
  apply mentions_cons_false in Hk as [Hd Hk].
  change (String d k ++ String "=" v) with (String d (k ++ String "=" v)).
  cbn [cutEq]. rewrite Hd, (IH Hk). reflexivity.
Qed.

Lemma cleanKey_facts (k : string) :
  cleanKey k = true ->
  k <> "" /\ mentions "&" k = false /\ mentions ";" k = false
  /\ mentions "=" k = false /\ QueryEscape k = k /\ QueryUnescape k = Some k.
Proof.
  unfold cleanKey. intros Hk.
  repeat (apply andb_true_iff in Hk as [Hk ?]).
  repeat match goal with
         | Hn : negb _ = true |- _ => apply negb_true_iff in Hn
         end.
  destruct (QueryUnescape k) as [k'|]; [|discriminate].
  repeat match goal with
         | He : (_ =? _)%string = true |- _ => apply String.eqb_eq in He
         | He : (_ =? _)%string = false |- _ => apply String.eqb_neq in He
         end.
  subst k'. auto 10.
Qed.

Lemma length_eqb_nonempty (s : string) :
  s <> "" -> (String.length s =? 0)%nat = false.
Proof. destruct s; [congruence|reflexivity]. Qed.

Lemma app_nonempty (a b : string) : b <> "" -> a ++ b <> "".
Proof.
  intros Hb. destruct a as [|c a]; [exact Hb|].
  change (String c a ++ b) with (String c (a ++ b)). discriminate.
Qed.

Lemma encodePair_facts (kv : string * string) :
  cleanKey kv.1 = true ->
  encodePair kv = kv.1 ++ String "=" (QueryEscape kv.2)
  /\ encodePair kv <> ""
  /\ mentions "&" (encodePair kv) = false
  /\ mentions ";" (encodePair kv) = false.
Proof.
  intros (_ & Hamp & Hsemi & _ & Hesc & _)%cleanKey_facts.
  destruct (QueryEscape_no_separator kv.2) as (Vamp & Vsemi & _).
  unfold encodePair. rewrite Hesc.
  change ("=" ++ QueryEscape kv.2) with (String "=" (QueryEscape kv.2)).
  repeat split.
  - apply app_nonempty. discriminate.
  - rewrite mentions_app, Hamp.
    change (mentions "&" (String "=" (QueryEscape kv.2)))
      with (mentions "&" (QueryEscape kv.2)).
    rewrite Vamp. reflexivity.
  - rewrite mentions_app, Hsemi.
    change (mentions ";" (String "=" (QueryEscape kv.2)))
      with (mentions ";" (QueryEscape kv.2)).
    rewrite Vsemi. reflexivity.
Qed.

Lemma encodePairs_from (kvs : list (string * string)) (buf : string) :
  buf <> "" ->
  fold_left
    (fun buf kv =>
       (if (String.length buf =? 0)%nat then buf else buf ++ "&")
         ++ QueryEscape kv.1 ++ "=" ++ QueryEscape kv.2)
    kvs buf
  = match kvs with
    | [] => buf
    | _ => buf ++ "&" ++ joinPairs kvs
    end.
Proof.
  revert buf. induction kvs as [|kv rest IH]; intros buf Hbuf; [reflexivity|].
  cbn [fold_left]. rewrite (length_eqb_nonempty _ Hbuf).
  rewrite IH by (apply app_nonempty, app_nonempty; discriminate).
  fold (encodePair kv). cbn [joinPairs].
  destruct rest as [|kv' rest].
  - apply string_app_assoc.
  - rewrite !string_app_assoc. reflexivity.
Qed.

Lemma encodePairs_joinPairs (kvs : list (string * string)) :
  encodePairs kvs = joinPairs kvs.
Proof.
  unfold encodePairs. destruct kvs as [|kv rest]; [reflexivity|].
  cbn [fold_left]. change (String.length "" =? 0)%nat with true. cbv iota.
  change ("" ++ QueryEscape kv.1 ++ "=" ++ QueryEscape kv.2) with (encodePair kv).
  rewrite encodePairs_from by (apply app_nonempty; discriminate).
  destruct rest; reflexivity.
Qed.

Lemma cutAll_joinPairs (kvs : list (string * string)) :
  forallb cleanKey (map fst kvs) = true ->
  cutAll (joinPairs kvs) = map encodePair kvs.
Proof.
  induction kvs as [|kv rest IH]; intros Hkeys; [reflexivity|].
  cbn [map forallb] in Hkeys. apply andb_true_iff in Hkeys as [Hk Hrest].
  destruct (encodePair_facts kv Hk) as (_ & Hne & Hamp & _).
  cbn [joinPairs map]. destruct rest as [|kv' rest].
  - apply cutAll_single; assumption.
  - change ("&" ++ joinPairs (kv' :: rest)) with (String "&" (joinPairs (kv' :: rest))).
    rewrite cutAll_amp by assumption. rewrite (IH Hrest). reflexivity.
Qed.

Lemma parseQuery_step_pair (m : Values) (err : option error) (kv : string * string) :
  cleanKey kv.1 = true ->
  parseQuery_step (m, err) (encodePair kv) = (Values_Add kv.1 kv.2 m, err).
Proof.
  intros Hk. destruct (encodePair_facts kv Hk) as (Hpair & Hne & _ & Hsemi).
  apply cleanKey_facts in Hk as (_ & _ & _ & Heq & _ & Hun).
  unfold parseQuery_step.
  rewrite Contains_char, Hsemi, (length_eqb_nonempty _ Hne).
  rewrite Hpair, (cutEq_eq _ _ Heq), Hun, QueryUnescape_QueryEscape. reflexivity.
Qed.

Lemma parseQuery_pairs (kvs : list (string * string)) (m : Values) (err : option error) :
  forallb cleanKey (map fst kvs) = true ->
  fold_left parseQuery_step (map encodePair kvs) (m, err) = (addPairs kvs m, err).
Proof.
  revert m. induction kvs as [|kv rest IH]; intros m Hkeys; [reflexivity|].
  cbn [map forallb] in Hkeys. apply andb_true_iff in Hkeys as [Hk Hrest].
  cbn [map fold_left]. rewrite (parseQuery_step_pair _ _ _ Hk).
  apply IH. assumption.
Qed.

Lemma Values_Encode_from (m : Values) (kvs : list (string * string)) (buf : string) :
  Forall (fun kv => m !!! kv.1 = [kv.2]) kvs ->
  fold_left
    (fun buf k =>
       let keyEscaped := QueryEscape k in
       fold_left
         (fun buf x =>
            (if (String.length buf =? 0)%nat then buf else buf ++ "&")
              ++ keyEscaped ++ "=" ++ QueryEscape x)
         (m !!! k) buf)
    (map fst kvs) buf
  = fold_left
      (fun buf kv =>
         (if (String.length buf =? 0)%nat then buf else buf ++ "&")
           ++ QueryEscape kv.1 ++ "=" ++ QueryEscape kv.2)
      kvs buf.
Proof.
  intros Hkvs. revert buf.
  induction Hkvs as [|kv rest Hkv Hrest IH]; intros buf; [reflexivity|].
  cbn [map fold_left]. rewrite Hkv. cbn [fold_left]. apply IH.
Qed.

(** Parsing what [Encode] wrote for single-valued parameters with clean
    names gives the parameters back. *)
Lemma ParseQuery_Encode (m : Values) (kvs : list (string * string)) :
  forallb cleanKey (map fst kvs) = true ->
  sortedKeys m = map fst kvs ->
  Forall (fun kv => m !!! kv.1 = [kv.2]) kvs ->
  addPairs kvs ∅ = m ->
  ParseQuery (Values_Encode m) = (m, None).
Proof.
  intros Hkeys Hsorted Hvalues Hadd. unfold ParseQuery.
  assert (Henc : Values_Encode m = encodePairs kvs).
  { unfold Values_Encode, encodePairs. rewrite Hsorted.
    apply Values_Encode_from. assumption. }
  rewrite Henc, encodePairs_joinPairs, cutAll_joinPairs by assumption.
  rewrite parseQuery_pairs by assumption. rewrite Hadd. reflexivity.
Qed.

Ltac round_trip kvs :=
  apply (ParseQuery_Encode _ kvs);
  [ vm_compute; reflexivity
  | vm_compute; reflexivity
  | repeat constructor
  | reflexivity ].

Lemma GetLeasesRequest_round_trip (r : GetLeasesRequest.t) :
  ParseQuery (Values_Encode (BuildQuery (Some r))) = (BuildQuery (Some r), None).
Proof.
  destruct r as [p s u].
  unfold BuildQuery, GetLeasesRequest_BuildQuery, setIfNonEmpty, Values_Set.
  cbn [GetLeasesRequest.PageIdentifier GetLeasesRequest.PageSize
       GetLeasesRequest.UserEmail].
  destruct (p =? "")%string, (s =? "")%string, (u =? "")%string;
    [ round_trip (@nil (string * string))
    | round_trip [("userEmail", u)]
    | round_trip [("pageSize", s)]
    | round_trip [("pageSize", s); ("userEmail", u)]
    | round_trip [("pageIdentifier", p)]
    | round_trip [("pageIdentifier", p); ("userEmail", u)]
    | round_trip [("pageIdentifier", p); ("pageSize", s)]
    | round_trip [("pageIdentifier", p); ("pageSize", s); ("userEmail", u)] ].
Qed.

Lemma GetLeaseTemplatesRequest_round_trip (r : GetLeaseTemplatesRequest.t) :
  ParseQuery (Values_Encode (BuildQuery (Some r))) = (BuildQuery (Some r), None).
Proof.
  destruct r as [p s].
  unfold BuildQuery, GetLeaseTemplatesRequest_BuildQuery, setIfNonEmpty, Values_Set.
  cbn [GetLeaseTemplatesRequest.PageIdentifier GetLeaseTemplatesRequest.PageSize].
  destruct (p =? "")%string, (s =? "")%string;
    [ round_trip (@nil (string * string))
    | round_trip [("pageSize", s)]
    | round_trip [("pageIdentifier", p)]
    | round_trip [("pageIdentifier", p); ("pageSize", s)] ].
Qed.

Lemma GetAccountsRequest_round_trip (r : GetAccountsRequest.t) :
  ParseQuery (Values_Encode (BuildQuery (Some r))) = (BuildQuery (Some r), None).
Proof.
  destruct r as [p s].
  unfold BuildQuery, GetAccountsRequest_BuildQuery, setIfNonEmpty, Values_Set.
  cbn [GetAccountsRequest.PageIdentifier GetAccountsRequest.PageSize].
  destruct (p =? "")%string, (s =? "")%string;
    [ round_trip (@nil (string * string))
    | round_trip [("pageSize", s)]
    | round_trip [("pageIdentifier", p)]
    | round_trip [("pageIdentifier", p); ("pageSize", s)] ].
Qed.

(** C8: for the three paginated request types, the query builder on a request
    with all fields set, encoded and parsed again, gives exactly the fields
    of the request, each once under its parameter name, and no parse error;
    on a request with all fields empty and on a nil request it gives the
    empty parameters, which encode as the empty query. *)
Theorem BuildQuery_round_trip (p s u : string) :
  p <> "" -> s <> "" -> u <> "" ->
  (ParseQuery (Values_Encode (BuildQuery (Some
     {| GetLeasesRequest.PageIdentifier := p; GetLeasesRequest.PageSize := s;
        GetLeasesRequest.UserEmail := u |})))
   = (<["userEmail" := [u]]> (<["pageSize" := [s]]> (<["pageIdentifier" := [p]]> ∅)), None)
   /\ ParseQuery (Values_Encode (BuildQuery (Some
        {| GetLeaseTemplatesRequest.PageIdentifier := p;
           GetLeaseTemplatesRequest.PageSize := s |})))
      = (<["pageSize" := [s]]> (<["pageIdentifier" := [p]]> ∅), None)
   /\ ParseQuery (Values_Encode (BuildQuery (Some
        {| GetAccountsRequest.PageIdentifier := p;
           GetAccountsRequest.PageSize := s |})))
      = (<["pageSize" := [s]]> (<["pageIdentifier" := [p]]> ∅), None))
  /\ (BuildQuery (Some
        {| GetLeasesRequest.PageIdentifier := ""; GetLeasesRequest.PageSize := "";
           GetLeasesRequest.UserEmail := "" |}) = ∅
      /\ BuildQuery (Some
           {| GetLeaseTemplatesRequest.PageIdentifier := "";
              GetLeaseTemplatesRequest.PageSize := "" |}) = ∅
      /\ BuildQuery (Some
           {| GetAccountsRequest.PageIdentifier := "";
              GetAccountsRequest.PageSize := "" |}) = ∅)
  /\ (BuildQuery (@None GetLeasesRequest.t) = ∅
      /\ BuildQuery (@None GetLeaseTemplatesRequest.t) = ∅
      /\ BuildQuery (@None GetAccountsRequest.t) = ∅
      /\ Values_Encode (∅ : Values) = "").
Proof.
  intros Hp Hs Hu. apply String.eqb_neq in Hp, Hs, Hu.
  split; [|split; repeat split; vm_compute; reflexivity].
  rewrite GetLeasesRequest_round_trip, GetLeaseTemplatesRequest_round_trip,
    GetAccountsRequest_round_trip.
  unfold BuildQuery, GetLeasesRequest_BuildQuery, GetLeaseTemplatesRequest_BuildQuery,
    GetAccountsRequest_BuildQuery, setIfNonEmpty, Values_Set.
  cbn [GetLeasesRequest.PageIdentifier GetLeasesRequest.PageSize
       GetLeasesRequest.UserEmail GetLeaseTemplatesRequest.PageIdentifier
       GetLeaseTemplatesRequest.PageSize GetAccountsRequest.PageIdentifier
       GetAccountsRequest.PageSize].
  rewrite Hp, Hs, Hu. repeat split.
Qed.

Lemma BuildQuery_round_trip_witness :
  "abc" <> "" /\ "10" <> "" /\ "user@example.com" <> ""
  /\ ParseQuery (Values_Encode (BuildQuery (Some
       {| GetLeasesRequest.PageIdentifier := "abc"; GetLeasesRequest.PageSize := "10";
          GetLeasesRequest.UserEmail := "user@example.com" |})))
     = (<["userEmail" := ["user@example.com"]]>
          (<["pageSize" := ["10"]]> (<["pageIdentifier" := ["abc"]]> ∅)), None).
Proof.
  split; [discriminate|]. split; [discriminate|]. split; [discriminate|].
  exact (proj1 (proj1 (BuildQuery_round_trip "abc" "10" "user@example.com"
                         ltac:(discriminate) ltac:(discriminate) ltac:(discriminate)))).
Defined.

(** * Further properties *)

(** ** The classifier, continued *)

Section ClassifierMore.
Context `{EncodingJSON}.

(** X1: the error the classifier returns carries the status code of the
    response, whichever branch made it. *)
Theorem DecodeAPIError_status_code (reqBody : option string) (resp : Response.t) :
  statusCodeOf (DecodeAPIError reqBody resp) = Some (Response.StatusCode resp).
Proof.
  unfold DecodeAPIError, fallback.
  destruct (Response.StatusCode resp =? 400) eqn:E400;
    [apply Z.eqb_eq in E400; rewrite E400;
     repeat match goal with |- context [if ?b then _ else _] => destruct b end;
     reflexivity|].
  destruct ((Response.StatusCode resp =? 401) || (Response.StatusCode resp =? 403));
    [repeat match goal with |- context [if ?b then _ else _] => destruct b end;
     reflexivity|].
  destruct (Response.StatusCode resp =? 404) eqn:E404;
    [apply Z.eqb_eq in E404; rewrite E404;
     repeat match goal with |- context [if ?b then _ else _] => destruct b end;
     reflexivity|].
  destruct (Response.StatusCode resp =? 409) eqn:E409;
    [apply Z.eqb_eq in E409; rewrite E409;
     repeat match goal with |- context [if ?b then _ else _] => destruct b end;
     reflexivity|].
  destruct (Response.StatusCode resp =? 500) eqn:E500;
    [apply Z.eqb_eq in E500; rewrite E500|];
    repeat match goal with |- context [if ?b then _ else _] => destruct b end;
    reflexivity.
Qed.

(** X2: the request body reaches the result only in the [RequestBody] of a
    [BadRequestError]: two calls that differ in the request body alone give
    the same error, or, on a 400, two Bad-Request errors that differ in that
    field alone. *)
Theorem DecodeAPIError_request_body (reqBody reqBody' : option string)
    (resp : Response.t) :
  DecodeAPIError reqBody resp = DecodeAPIError reqBody' resp
  \/ (Response.StatusCode resp = 400
      /\ exists errors,
           DecodeAPIError reqBody resp
           = BadRequestError (withMessage 400 "bad request") errors
               (string_of_bytes reqBody)
           /\ DecodeAPIError reqBody' resp
              = BadRequestError (withMessage 400 "bad request") errors
                  (string_of_bytes reqBody')).
Proof.
  unfold DecodeAPIError.
  destruct (Response.StatusCode resp =? 400) eqn:E400; [|left; reflexivity].
  apply Z.eqb_eq in E400.
  destruct (isFail (Decode_failBody (Response.Body resp) failBody.zero));
    [|left; reflexivity].
  right. split; [assumption|]. eexists. split; reflexivity.
Qed.

(** X3: the request of the response, and with it the URL path, matters on a
    404 and on a 409 only, and the content type never: responses with the
    same status code and body get the same error when the status code is
    neither 404 nor 409, or when their request paths agree. *)
Theorem DecodeAPIError_request_path (reqBody : option string) (resp resp' : Response.t) :
  Response.StatusCode resp = Response.StatusCode resp' ->
  Response.Body resp = Response.Body resp' ->
  (Response.StatusCode resp <> 404 /\ Response.StatusCode resp <> 409)
  \/ requestPath resp = requestPath resp' ->
  DecodeAPIError reqBody resp = DecodeAPIError reqBody resp'.
Proof.
  unfold DecodeAPIError, requestPath. intros <- <- Hsame.
  destruct Hsame as [[H404 H409] | ->]; [|reflexivity].
  apply Z.eqb_neq in H404, H409. rewrite H404, H409. reflexivity.
Qed.

(** X4: the cases of the [switch] for 400, 401, 403 and 500, when their
    decode succeeds: a 400 gives the Bad-Request error with the detail errors
    and the request body as text, a 401 or 403 the Unauthorized error with
    that status code and no details, a 500 the Server error with the
    envelope's message, code and data. *)
Theorem DecodeAPIError_switch_cases (reqBody : option string) (resp : Response.t) :
  let rf := decodedFail resp in
  let re := Decode_errorBody (Response.Body resp) errorBody.zero in
  specificDecodeSucceeded resp = true ->
  (Response.StatusCode resp = 400 ->
     DecodeAPIError reqBody resp
     = BadRequestError (withMessage 400 "bad request") (failBody.Errors rf.1)
         (string_of_bytes reqBody))
  /\ (Response.StatusCode resp = 401 \/ Response.StatusCode resp = 403 ->
     DecodeAPIError reqBody resp
     = UnauthorizedError (withMessage (Response.StatusCode resp) "unauthorized"))
  /\ (Response.StatusCode resp = 500 ->
     DecodeAPIError reqBody resp
     = ServerError (withMessage 500 (errorBody.Message re.1))
         (errorBody.Code re.1) (errorBody.Data re.1)).
Proof.
  intros rf re. unfold specificDecodeSucceeded, DecodeAPIError, decodedFail in *.
  intros Hok. repeat split.
  - intros E. rewrite E in *. simpl in *. rewrite Hok. reflexivity.
  - intros [E | E]; rewrite E in *; simpl in *; rewrite Hok; reflexivity.
  - intros E. rewrite E in *. simpl in *. rewrite Hok. reflexivity.
Qed.
End ClassifierMore.

Lemma DecodeAPIError_request_path_witness :
  let resp := Ref.response 500 "application/json" Ref.errorJSON "/leases/abc" in
  let resp' := Ref.response 500 "text/plain" Ref.errorJSON "/accounts/xyz" in
  Ref.DecodeAPIError None resp = Ref.DecodeAPIError None resp'.
Proof.
  intros resp resp'.
  apply (@DecodeAPIError_request_path Ref.json None resp resp');
    [reflexivity | reflexivity | left; split; discriminate].
Defined.

Lemma DecodeAPIError_switch_cases_witness :
  let resp := Ref.response 500 "application/json" Ref.errorJSON "/leases/abc" in
  @specificDecodeSucceeded Ref.json resp = true
  /\ Ref.DecodeAPIError None resp = ServerError (withMessage 500 "server error") 500 None.
Proof.
  intro resp. split; [vm_compute; reflexivity|].
  destruct (@DecodeAPIError_switch_cases Ref.json None resp) as (_ & _ & H500);
    [vm_compute; reflexivity|].
  unfold Ref.DecodeAPIError. rewrite H500 by reflexivity. vm_compute. reflexivity.
Defined.

(** ** The texts of the errors *)

Lemma prefix_app_self (b c : string) : String.prefix b (b ++ c) = true.
Proof.
  induction b as [|x b IH]; [apply prefix_empty|].
  change (String x b ++ c) with (String x (b ++ c)). cbn [String.prefix].
  destruct (ascii_dec x x); [exact IH|congruence].
Qed.

Lemma Contains_prefix (s sub : string) :
  String.prefix sub s = true -> Contains s sub = true.
Proof. intros Hp. destruct s; cbn [Contains]; rewrite Hp; reflexivity. Qed.

Lemma Contains_app_r (a t sub : string) :
  Contains t sub = true -> Contains (a ++ t) sub = true.
Proof.
  intros Ht. induction a as [|x a IH]; [exact Ht|].
  change (String x a ++ t) with (String x (a ++ t)). cbn [Contains].
  rewrite IH. apply orb_true_r.
Qed.

Lemma Contains_eq (a c s b : string) : s = a ++ b ++ c -> Contains s b = true.
Proof.
  intros ->. apply Contains_app_r, Contains_prefix, prefix_app_self.
Qed.

Ltac status_in_text :=
  match goal with
  | |- Contains (?k ++ ?s ++ ?m ++ " (status " ++ ?d ++ ?r) _ = true =>
      apply (Contains_eq (k ++ s ++ m ++ " (") r);
      rewrite !string_app_assoc; reflexivity
  | |- Contains (?k ++ ?m ++ " (status " ++ ?d ++ ?r) _ = true =>
      apply (Contains_eq (k ++ m ++ " (") r);
      rewrite !string_app_assoc; reflexivity
  | |- Contains (?k ++ ?d ++ ?r) _ = true =>
      apply (Contains_eq "api response error: " r); reflexivity
  end.

(** X5: the text of every error that has a status code shows it, as
    [status] followed by the code in decimal, whatever the message, the
    detail errors and the bodies it holds. *)
Theorem Error_shows_status_code (e : error) (code : Z) :
  statusCodeOf e = Some code ->
  Contains (Error e) ("status " ++ fmt_d code) = true.
Proof.
  intros He.
  destruct e; cbn [statusCodeOf] in He; try discriminate;
    injection He as <-; cbn [Error];
    repeat match goal with
           | |- context [if ?b then _ else _] => destruct b
           end;
    status_in_text.
Qed.

Lemma Error_shows_status_code_witness :
  Contains
    (Error (LeaseNotFoundError (withMessage 404 "lease not found")
              [{| Message := "no such thing" |}]))
    "status 404" = true.
Proof.
  exact (Error_shows_status_code
           (LeaseNotFoundError (withMessage 404 "lease not found")
              [{| Message := "no such thing" |}]) 404 eq_refl).
Defined.

(** ** The transport helpers, continued *)

Lemma prefix_length (a s : string) :
  String.prefix a s = true -> (String.length a <= String.length s)%nat.
Proof.
  revert s. induction a as [|x a IH]; intros s Hp; [simpl; lia|].
  destruct s as [|y s]; [discriminate|]. cbn [String.prefix] in Hp.
  destruct (ascii_dec x y); [|discriminate].
  specialize (IH s Hp). simpl. lia.
Qed.

Lemma Contains_length (s sub : string) :
  Contains s sub = true -> (String.length sub <= String.length s)%nat.
Proof.
  induction s as [|x s IH]; cbn [Contains]; intros Hc.
  - rewrite orb_false_r in Hc. apply prefix_length in Hc. exact Hc.
  - apply orb_true_iff in Hc as [Hp | Hc].
    + apply prefix_length. exact Hp.
    + specialize (IH Hc). simpl. lia.
Qed.

Lemma isJSONResponse_eq (resp : Response.t) :
  isJSONResponse resp = (passesAsJSON resp, "").
Proof.
  unfold isJSONResponse, passesAsJSON.
  destruct (Response.Body resp) as [|b body]; [reflexivity|].
  change (String.length (String b body) =? 0)%nat with false.
  change (String b body =? "")%string with false.
  cbv iota. cbn [orb].
  destruct (Contains (Response.ContentType resp) "application/json") eqn:Hc.
  - apply Contains_length, Nat.ltb_ge in Hc. rewrite Hc. reflexivity.
  - rewrite orb_true_r. reflexivity.
Qed.

(** X6: [isJSONResponse] accepts a response exactly when its body is empty or
    its content type contains application/json (the test on the length of the
    content type changes nothing), and the text it returns is always empty,
    also when the response has a body. *)
Theorem isJSONResponse_accepts (resp : Response.t) :
  ((isJSONResponse resp).1 = true
   <-> Response.Body resp = ""
       \/ Contains (Response.ContentType resp) "application/json" = true)
  /\ (isJSONResponse resp).2 = "".
Proof.
  rewrite isJSONResponse_eq. cbn [fst snd]. split; [|reflexivity].
  unfold passesAsJSON. rewrite orb_true_iff, String.eqb_eq. reflexivity.
Qed.

Section HelpersMore.
Context `{EncodingJSON} `{Platform}.
Variable srv : Server.
Variable c : Client.t.
Variable sent : list Request.t.

Lemma Do_exchange (method : string) (u : URL.t) (contentType : string)
    (body : option string) :
  Do srv (Client.HTTPClient c)
    {| Request.Method := method; Request.URL := u; Request.ContentType := contentType;
       Request.Authorization := ""; Request.Body := body |} sent
  = (exchange srv sent (wireRequest c method u contentType body),
     (sent ++ [wireRequest c method u contentType body])%list).
Proof.
  unfold Do, exchange, wireRequest, responseTo.
  destruct (HTTPClient.Transport (Client.HTTPClient c)); reflexivity.
Qed.

(** The helpers, once the URL is parsed. *)
Lemma helpers_unfold (url : string) (u : URL.t) (body : option string) :
  url_Parse url = inr u ->
  doGet srv c url sent
  = (checkResponse "doGet" url (fun s => s =? 200) None
       (exchange srv sent (wireRequest c "GET" u "" None)),
     (sent ++ [wireRequest c "GET" u "" None])%list)
  /\ doPost srv c url body sent
     = (checkResponse "doPost" url (fun s => (s =? 200) || (s =? 201)) body
          (exchange srv sent
             (wireRequest c "POST" u "application/json" (Some (string_of_bytes body)))),
        (sent ++ [wireRequest c "POST" u "application/json"
                    (Some (string_of_bytes body))])%list)
  /\ doPatch srv c url body sent
     = (checkResponse "doPatch" url (fun s => s =? 200) body
          (exchange srv sent
             (wireRequest c "PATCH" u "application/json" (Some (string_of_bytes body)))),
        (sent ++ [wireRequest c "PATCH" u "application/json"
                    (Some (string_of_bytes body))])%list)
  /\ doPut srv c url body sent
     = (checkResponse "doPut" url (fun s => s =? 200) body
          (exchange srv sent
             (wireRequest c "PUT" u "application/json" (Some (string_of_bytes body)))),
        (sent ++ [wireRequest c "PUT" u "application/json"
                    (Some (string_of_bytes body))])%list)
  /\ doDelete srv c url sent
     = (checkResponse "doDelete" url (fun s => (s =? 200) || (s =? 204)) None
          (exchange srv sent (wireRequest c "DELETE" u "" None)),
        (sent ++ [wireRequest c "DELETE" u "" None])%list).
Proof.
  intros Hu.
  unfold doGet, doPost, doPatch, doPut, doDelete, NewRequestWithContext, bind, ret,
    setHeaders.
  rewrite Hu. cbn [Request.Method Request.URL Request.Authorization Request.Body].
  rewrite !Do_exchange. repeat split.
Qed.

Lemma checkResponse_wellFormed (op url : string) (ok : Z -> bool)
    (reqBody : option string) (r : error + Response.t) :
  wellFormedResult ok (checkResponse op url ok reqBody r).
Proof.
  unfold checkResponse. destruct r as [err|resp]; [exact I|].
  rewrite isJSONResponse_eq.
  destruct (passesAsJSON resp) eqn:Hj; [|exact I]. cbn [negb].
  destruct (ok (Response.StatusCode resp)) eqn:Hok; cbn [negb]; [|exact I].
  split; assumption.
Qed.

(** X7: each of the five helpers returns either a response and no error, or
    no response and an error, never both and never neither; a response it
    returns has passed as JSON and has a success status of the verb: 200
    for GET, PATCH and PUT, 200 or 201 for POST, 200 or 204 for DELETE. *)
Theorem helpers_return_response_or_error (url : string) (body : option string) :
  wellFormedResult (fun s => s =? 200) (doGet srv c url sent).1
  /\ wellFormedResult (fun s => (s =? 200) || (s =? 201)) (doPost srv c url body sent).1
  /\ wellFormedResult (fun s => s =? 200) (doPatch srv c url body sent).1
  /\ wellFormedResult (fun s => s =? 200) (doPut srv c url body sent).1
  /\ wellFormedResult (fun s => (s =? 200) || (s =? 204)) (doDelete srv c url sent).1.
Proof.
  destruct (url_Parse url) as [err|u] eqn:Hu.
  - unfold doGet, doPost, doPatch, doPut, doDelete, NewRequestWithContext, ret.
    rewrite Hu. repeat split.
  - destruct (helpers_unfold url u body Hu) as (-> & -> & -> & -> & ->).
    repeat split; apply checkResponse_wellFormed.
Qed.

(** X8: a helper whose URL does not parse returns the parse error as an
    [APIRequestError] of the operation new_request and hands nothing to its
    client.  When the URL parses, the request it hands to its client, the
    first that goes out, has the helper's method; POST, PATCH and PUT send
    the body with the content type application/json, GET and DELETE send no
    body and no content type.  What a client sends after it, when it
    follows a redirect, is not the helper's and is left open. *)
Theorem helpers_first_request (url : string) (body : option string) :
  match url_Parse url with
  | inl err =>
      let failed := ((None, Some (APIRequestError "new_request" url err)), sent) in
      doGet srv c url sent = failed /\ doPost srv c url body sent = failed
      /\ doPatch srv c url body sent = failed /\ doPut srv c url body sent = failed
      /\ doDelete srv c url sent = failed
  | inr u =>
      let data := Some (string_of_bytes body) in
      sendsFirst sent (doGet srv c url sent) (wireRequest c "GET" u "" None)
      /\ sendsFirst sent (doPost srv c url body sent)
           (wireRequest c "POST" u "application/json" data)
      /\ sendsFirst sent (doPatch srv c url body sent)
           (wireRequest c "PATCH" u "application/json" data)
      /\ sendsFirst sent (doPut srv c url body sent)
           (wireRequest c "PUT" u "application/json" data)
      /\ sendsFirst sent (doDelete srv c url sent) (wireRequest c "DELETE" u "" None)
  end.
Proof.
  destruct (url_Parse url) as [err|u] eqn:Hu.
  - unfold doGet, doPost, doPatch, doPut, doDelete, NewRequestWithContext, ret.
    rewrite Hu. repeat split.
  - destruct (helpers_unfold url u body Hu) as (-> & -> & -> & -> & ->).
    repeat split; exists []; reflexivity.
Qed.
End HelpersMore.

Section HelpersOnReply.
Context `{EncodingJSON} `{Platform}.
Variable srv : Server.
Variable c : Client.t.
Variable sent : list Request.t.
Variable url : string.
Variable u : URL.t.
Variable body : option string.

Hypothesis url_parses : url_Parse url = inr u.

(** X9: a response with a body and a content type that does not contain
    application/json makes each helper return an [APIRequestError] under the
    helper's own name, whatever the status code; its text gives the content
    type and nothing of the body. *)
Theorem helpers_report_non_JSON (reply : Reply.t) :
  (forall wire, srv sent wire = inr reply) ->
  Reply.Body reply <> "" ->
  Contains (Reply.ContentType reply) "application/json" = false ->
  let text := errorString ("non-JSON response (" ++ Reply.ContentType reply ++ "): ") in
  (doGet srv c url sent).1 = (None, Some (APIRequestError "doGet" url text))
  /\ (doPost srv c url body sent).1 = (None, Some (APIRequestError "doPost" url text))
  /\ (doPatch srv c url body sent).1 = (None, Some (APIRequestError "doPatch" url text))
  /\ (doPut srv c url body sent).1 = (None, Some (APIRequestError "doPut" url text))
  /\ (doDelete srv c url sent).1 = (None, Some (APIRequestError "doDelete" url text)).
Proof.
  intros Hsrv Hbody Hct text. subst text.
  destruct (helpers_unfold srv c sent url u body url_parses) as (-> & -> & -> & -> & ->).
  unfold exchange. rewrite !Hsrv. cbn [fst].
  repeat split; apply (checkResponse_nonJSON _ _ _ _ (responseTo _ reply)); assumption.
Qed.

(** X10: when the exchange fails, each helper returns no response and an
    [APIRequestError] of the operation do with the helper's URL; the cause
    it holds is the error of the client, whose form is left open. *)
Theorem helpers_report_failed_exchange (err : error) :
  (forall wire, srv sent wire = inl err) ->
  failsWith "do" url (doGet srv c url sent).1
  /\ failsWith "do" url (doPost srv c url body sent).1
  /\ failsWith "do" url (doPatch srv c url body sent).1
  /\ failsWith "do" url (doPut srv c url body sent).1
  /\ failsWith "do" url (doDelete srv c url sent).1.
Proof.
  intros Hsrv.
  destruct (helpers_unfold srv c sent url u body url_parses) as (-> & -> & -> & -> & ->).
  unfold exchange, failsWith. rewrite !Hsrv. repeat split; exists err; reflexivity.
Qed.

(** X11: on a 400 with a Fail Envelope, the Bad-Request error of POST, PATCH
    and PUT carries the request body the helper was given, as text; that of
    GET and DELETE carries the empty text. *)
Theorem helpers_echo_request_body (reply : Reply.t) :
  (forall wire, srv sent wire = inr reply) ->
  Reply.StatusCode reply = 400 ->
  (Reply.Body reply =? "")%string
  || Contains (Reply.ContentType reply) "application/json" = true ->
  let rf := Decode_failBody (Reply.Body reply) failBody.zero in
  isFail rf = true ->
  let badRequest text :=
    (None, Some (BadRequestError (withMessage 400 "bad request")
                   (failBody.Errors rf.1) text)) in
  (doGet srv c url sent).1 = badRequest ""
  /\ (doPost srv c url body sent).1 = badRequest (string_of_bytes body)
  /\ (doPatch srv c url body sent).1 = badRequest (string_of_bytes body)
  /\ (doPut srv c url body sent).1 = badRequest (string_of_bytes body)
  /\ (doDelete srv c url sent).1 = badRequest "".
Proof.
  intros Hsrv Hstatus Hjson rf Hfail badRequest. subst badRequest.
  destruct (helpers_unfold srv c sent url u body url_parses) as (-> & -> & -> & -> & ->).
  unfold exchange. rewrite !Hsrv. cbn [fst]. unfold checkResponse.
  rewrite !isJSONResponse_eq. unfold passesAsJSON, responseTo.
  cbn [Response.Body Response.ContentType Response.StatusCode].
  rewrite Hjson, Hstatus. cbn [negb Z.eqb orb Pos.eqb].
  unfold DecodeAPIError. cbn [Response.Body Response.StatusCode Z.eqb Pos.eqb].
  fold rf. rewrite Hfail. repeat split.
Qed.
End HelpersOnReply.

Lemma helpers_report_non_JSON_witness :
  (Ref.doDelete (Ref.always 403 "application/xml" "<error>forbidden</error>") Ref.client
     "https://sandbox.example.com/api/leaseTemplates/abc" []).1
  = (None, Some (APIRequestError "doDelete"
                   "https://sandbox.example.com/api/leaseTemplates/abc"
                   (errorString "non-JSON response (application/xml): "))).
Proof.
  edestruct (@helpers_report_non_JSON Ref.json Ref.platform
               (Ref.always 403 "application/xml" "<error>forbidden</error>") Ref.client []
               "https://sandbox.example.com/api/leaseTemplates/abc")
    as (_ & _ & _ & _ & Hdelete);
    [vm_compute; reflexivity | intros wire; reflexivity | discriminate
    | vm_compute; reflexivity |].
  exact Hdelete.
  Unshelve. exact None.
Defined.

Lemma helpers_report_failed_exchange_witness :
  failsWith "do" "https://sandbox.example.com/api/leases"
    (Ref.doGet Ref.unreachable Ref.client "https://sandbox.example.com/api/leases" []).1.
Proof.
  edestruct (@helpers_report_failed_exchange Ref.json Ref.platform Ref.unreachable
               Ref.client [] "https://sandbox.example.com/api/leases")
    as (Hget & _);
    [vm_compute; reflexivity | intros wire; reflexivity |].
  exact Hget.
  Unshelve. exact None.
Defined.

Lemma helpers_echo_request_body_witness :
  (Ref.doPatch (Ref.always 400 "application/json" Ref.failJSON) Ref.client
     "https://sandbox.example.com/api/leases/abc" (Some "{}") []).1
  = (None, Some (BadRequestError (withMessage 400 "bad request")
                   [{| Message := "no such thing" |}] "{}")).
Proof.
  edestruct (@helpers_echo_request_body Ref.json Ref.platform
               (Ref.always 400 "application/json" Ref.failJSON) Ref.client []
               "https://sandbox.example.com/api/leases/abc"
               {| URL.Scheme := "https"; URL.Host := "sandbox.example.com";
                  URL.Path := "/api/leases/abc"; URL.RawQuery := "" |} (Some "{}"))
    as (_ & _ & Hpatch & _);
    [vm_compute; reflexivity | intros wire; reflexivity | reflexivity
    | vm_compute; reflexivity | vm_compute; reflexivity |].
  exact Hpatch.
Defined.

(** ** The operations *)

Section OperationsMore.
Context `{EncodingJSON} `{EncodingJSONMore} `{Platform}.
Variable srv : Server.
Variable c : Client.t.

Lemma helpers_not_neither (url : string) (body : option string)
    (sent sent' : list Request.t) :
  doGet srv c url sent <> ((None, None), sent')
  /\ doPost srv c url body sent <> ((None, None), sent')
  /\ doPatch srv c url body sent <> ((None, None), sent')
  /\ doPut srv c url body sent <> ((None, None), sent')
  /\ doDelete srv c url sent <> ((None, None), sent').
Proof.
  destruct (url_Parse url) as [err|u] eqn:Hu.
  - unfold doGet, doPost, doPatch, doPut, doDelete, NewRequestWithContext, ret.
    rewrite Hu. repeat split; intros Hrun; discriminate Hrun.
  - destruct (helpers_unfold srv c sent url u body Hu) as (-> & -> & -> & -> & ->).
    repeat split; intros Hrun; injection Hrun as Hres _;
      match type of Hres with
      | checkResponse ?op ?url ?ok ?b ?r = _ =>
          pose proof (checkResponse_wellFormed op url ok b r) as Hwf;
          rewrite Hres in Hwf; exact Hwf
      end.
Qed.

Ltac no_panic :=
  let sent := fresh "sent" in
  intros sent;
  unfold closeAndReturn; unfold bind, ret, deref;
  repeat case_match; simplify_eq; eauto;
  exfalso;
  match goal with
  | Hrun : _ = (None, None, _) |- _ =>
      first
        [ exact (proj1 (helpers_not_neither _ None _ _) Hrun)
        | exact (proj1 (proj2 (helpers_not_neither _ _ _ _)) Hrun)
        | exact (proj1 (proj2 (proj2 (helpers_not_neither _ _ _ _))) Hrun)
        | exact (proj1 (proj2 (proj2 (proj2 (helpers_not_neither _ _ _ _)))) Hrun)
        | exact (proj2 (proj2 (proj2 (proj2 (helpers_not_neither _ None _ _)))) Hrun) ]
  end.

(** X12: the fifteen operations that test the error of their helper before
    they touch the response return to their caller, whatever the request (a
    nil one included), the client and the answer of the server: [GetLeases],
    [GetLeaseByID], [CreateLease], [CreateLeaseAsUser], [GetLeaseTemplates],
    [GetAccounts], [UpdateLease], [ReviewLease], [FreezeLease],
    [TerminateLease], [UpdateLeaseTemplate], [DeleteLeaseTemplate],
    [RegisterAccount], [RetryCleanup] and [EjectAccount].  The other four
    are not among them: [GetConfigurations] overwrites that error, and the
    three [FetchAll] methods write the cursor through the request pointer
    of their caller, which may be nil. *)
Theorem checked_operations_never_panic :
  (forall R (builder : QueryBuilder R) req, neverPanics (GetLeases srv c req))
  /\ (forall req, neverPanics (GetLeaseByID srv c req))
  /\ (forall req, neverPanics (CreateLease srv c req))
  /\ (forall req userEmail jwtSecret,
        neverPanics (CreateLeaseAsUser srv c req userEmail jwtSecret))
  /\ (forall R (builder : QueryBuilder R) req, neverPanics (GetLeaseTemplates srv c req))
  /\ (forall R (builder : QueryBuilder R) req, neverPanics (GetAccounts srv c req))
  /\ (forall req, neverPanics (UpdateLease srv c req))
  /\ (forall req, neverPanics (ReviewLease srv c req))
  /\ (forall req, neverPanics (FreezeLease srv c req))
  /\ (forall req, neverPanics (TerminateLease srv c req))
  /\ (forall req, neverPanics (UpdateLeaseTemplate srv c req))
  /\ (forall req, neverPanics (DeleteLeaseTemplate srv c req))
  /\ (forall req, neverPanics (RegisterAccount srv c req))
  /\ (forall req, neverPanics (RetryCleanup srv c req))
  /\ (forall req, neverPanics (EjectAccount srv c req)).
Proof.
  repeat split; intros.
  - unfold GetLeases. no_panic.
  - unfold GetLeaseByID. no_panic.
  - unfold CreateLease. no_panic.
  - unfold CreateLeaseAsUser. intros sent. unfold bind, ret.
    repeat case_match; simplify_eq; eauto.
  - unfold GetLeaseTemplates. no_panic.
  - unfold GetAccounts. no_panic.
  - unfold UpdateLease. no_panic.
  - unfold ReviewLease. no_panic.
  - unfold FreezeLease. no_panic.
  - unfold TerminateLease. no_panic.
  - unfold UpdateLeaseTemplate. no_panic.
  - unfold DeleteLeaseTemplate. no_panic.
  - unfold RegisterAccount. no_panic.
  - unfold RetryCleanup. no_panic.
  - unfold EjectAccount. no_panic.
Qed.
End OperationsMore.

Section OperationsRequests.
Context `{EncodingJSON} `{EncodingJSONMore} `{Platform}.
Variable srv : Server.
Variable c : Client.t.

(** X14: the operations that take an identifier check it before anything
    else: for a nil request or an empty identifier each returns the
    [APIRequestError] of the operation param, with its own text, and hands
    nothing to the network.  [CreateLeaseAsUser] does so before it makes a
    token. *)
Theorem operations_validate_identifier (sent : list Request.t) :
  let rejected {A} (text : string) : outcome (option A * option error) * list Request.t :=
    (Returns (None, Some (APIRequestError "param" "" (errorString text))), sent) in
  let refused (text : string) : outcome (option error) * list Request.t :=
    (Returns (Some (APIRequestError "param" "" (errorString text))), sent) in
  (forall req, lacks GetLeaseByIDRequest.LeaseID req ->
     GetLeaseByID srv c req sent = rejected "LeaseID is required")
  /\ (forall req, lacks CreateLeaseRequest.LeaseTemplateUUID req ->
     CreateLease srv c req sent = rejected "LeaseTemplateUUID is required")
  /\ (forall req userEmail jwtSecret, lacks CreateLeaseRequest.LeaseTemplateUUID req ->
     CreateLeaseAsUser srv c req userEmail jwtSecret sent
     = rejected "LeaseTemplateUUID is required")
  /\ (forall req, lacks UpdateLeaseRequest.LeaseID req ->
     UpdateLease srv c req sent = rejected "LeaseID is required")
  /\ (forall req, lacks FreezeLeaseRequest.LeaseID req ->
     FreezeLease srv c req sent = refused "LeaseID is required")
  /\ (forall req, lacks TerminateLeaseRequest.LeaseID req ->
     TerminateLease srv c req sent = refused "LeaseID is required")
  /\ (forall req, lacks UpdateLeaseTemplateRequest.LeaseTemplateID req ->
     UpdateLeaseTemplate srv c req sent = rejected "LeaseTemplateID is required")
  /\ (forall req, lacks DeleteLeaseTemplateRequest.LeaseTemplateID req ->
     DeleteLeaseTemplate srv c req sent = refused "LeaseTemplateID is required")
  /\ (forall req, lacks RetryCleanupRequest.AwsAccountId req ->
     RetryCleanup srv c req sent = refused "AwsAccountId is required")
  /\ (forall req, lacks EjectAccountRequest.AwsAccountId req ->
     EjectAccount srv c req sent = refused "AwsAccountId is required").
Proof.
  intros rejected refused. subst rejected refused. unfold lacks.
  repeat split; intros [req|]; intros; try reflexivity.
  all: unfold GetLeaseByID, CreateLease, CreateLeaseAsUser, UpdateLease, FreezeLease,
         TerminateLease, UpdateLeaseTemplate, DeleteLeaseTemplate, RetryCleanup,
         EjectAccount.
  all: match goal with Hid : _ = "" |- _ => rewrite Hid; reflexivity end.
Qed.
End OperationsRequests.

Section OperationsOnReply.
Context `{EncodingJSON} `{EncodingJSONMore} `{Platform}.
Variable srv : Server.
Variable c : Client.t.
Variable sent : list Request.t.

(** X15: [GetConfigurations] returns to its caller exactly when its GET
    handed back a response, and then with the decoded configuration or a
    [JSONDecodingError]; in every other case it panics.  So the only error
    its caller can receive is a decoding error. *)
Theorem GetConfigurations_returns_iff_GET_succeeds :
  let get := (doGet srv c (Client.BaseURL c ++ "/configurations") sent).1 in
  (forall resp err, get = (Some resp, err) ->
     (GetConfigurations srv c sent).1
     = Returns match Decode_GlobalConfiguration (Response.Body resp) with
               | inl cause => (None, Some (JSONDecodingError cause))
               | inr data => (Some data, None)
               end)
  /\ (forall err, get = (None, err) ->
     exists reason, (GetConfigurations srv c sent).1 = Panics reason)
  /\ (forall data err, (GetConfigurations srv c sent).1 = Returns (data, Some err) ->
     data = None /\ exists cause, err = JSONDecodingError cause).
Proof.
  intros get. subst get. unfold GetConfigurations, bind, ret, deref.
  destruct (doGet srv c (Client.BaseURL c ++ "/configurations") sent)
    as [[resp err] sent'].
  cbn [fst]. split; [|split].
  - intros resp' err' [= -> ->].
    destruct (Decode_GlobalConfiguration (Response.Body resp')); reflexivity.
  - intros err' [= -> ->]. eexists. reflexivity.
  - intros data err' Hrun.
    destruct resp as [resp|]; [|discriminate].
    destruct (Decode_GlobalConfiguration (Response.Body resp));
      simplify_eq; split; eauto.
Qed.

(** X16: the operations that return only an error never read the body of a
    response they accept: once the request is valid and its URL parses, a
    reply that passes as JSON with a success status makes them return nil,
    whatever the body says, a Fail Envelope included. *)
Theorem error_only_operations_ignore_body (reply : Reply.t) :
  (forall wire, srv sent wire = inr reply) ->
  (forall wire, passesAsJSON (responseTo wire reply) = true) ->
  let base := Client.BaseURL c in
  let parses (url : string) := exists u, url_Parse url = inr u in
  let posted := Reply.StatusCode reply = 200 \/ Reply.StatusCode reply = 201 in
  let deleted := Reply.StatusCode reply = 200 \/ Reply.StatusCode reply = 204 in
  (forall req, posted -> ~ invalidReview (Some req) ->
     parses (base ++ "/leases/" ++ ReviewLeaseRequest.LeaseID req ++ "/review") ->
     (ReviewLease srv c (Some req) sent).1 = Returns None)
  /\ (forall req, posted -> FreezeLeaseRequest.LeaseID req <> "" ->
     parses (base ++ "/leases/" ++ FreezeLeaseRequest.LeaseID req ++ "/freeze") ->
     (FreezeLease srv c (Some req) sent).1 = Returns None)
  /\ (forall req, posted -> TerminateLeaseRequest.LeaseID req <> "" ->
     parses (base ++ "/leases/" ++ TerminateLeaseRequest.LeaseID req ++ "/terminate") ->
     (TerminateLease srv c (Some req) sent).1 = Returns None)
  /\ (forall req, posted -> RetryCleanupRequest.AwsAccountId req <> "" ->
     parses (base ++ "/accounts/" ++ RetryCleanupRequest.AwsAccountId req
               ++ "/retryCleanup") ->
     (RetryCleanup srv c (Some req) sent).1 = Returns None)
  /\ (forall req, posted -> EjectAccountRequest.AwsAccountId req <> "" ->
     parses (base ++ "/accounts/" ++ EjectAccountRequest.AwsAccountId req ++ "/eject") ->
     (EjectAccount srv c (Some req) sent).1 = Returns None)
  /\ (forall req, deleted -> DeleteLeaseTemplateRequest.LeaseTemplateID req <> "" ->
     parses (base ++ "/leaseTemplates/" ++ DeleteLeaseTemplateRequest.LeaseTemplateID req) ->
     (DeleteLeaseTemplate srv c (Some req) sent).1 = Returns None).
Proof.
  intros Hsrv Hjson base parses posted deleted. subst base parses posted deleted.
  assert (Hpost : forall url body,
             Reply.StatusCode reply = 200 \/ Reply.StatusCode reply = 201 ->
             (exists u, url_Parse url = inr u) ->
             exists resp sent', doPost srv c url body sent = ((Some resp, None), sent')).
  { intros url body Hstatus [u Hu].
    destruct (helpers_unfold srv c sent _ u body Hu) as (_ & -> & _).
    unfold exchange, checkResponse. rewrite Hsrv, isJSONResponse_eq, Hjson.
    cbn [negb responseTo Response.StatusCode].
    destruct Hstatus as [-> | ->]; cbn; eauto. }
  assert (Hdelete : forall url,
             Reply.StatusCode reply = 200 \/ Reply.StatusCode reply = 204 ->
             (exists u, url_Parse url = inr u) ->
             exists resp sent', doDelete srv c url sent = ((Some resp, None), sent')).
  { intros url Hstatus [u Hu].
    destruct (helpers_unfold srv c sent _ u None Hu) as (_ & _ & _ & _ & ->).
    unfold exchange, checkResponse. rewrite Hsrv, isJSONResponse_eq, Hjson.
    cbn [negb responseTo Response.StatusCode].
    destruct Hstatus as [-> | ->]; cbn; eauto. }
  split; [|split; [|split; [|split; [|split]]]]; intros req Hstatus Hvalid Hurl.
  - unfold ReviewLease, invalidReview in *.
    destruct (String.eqb_spec (ReviewLeaseRequest.LeaseID req) "") as [Hid|_];
      [exfalso; apply Hvalid; left; exact Hid|].
    destruct (String.eqb_spec (ReviewLeaseRequest.Action req) ReviewApprove) as [_|Ha];
      [|destruct (String.eqb_spec (ReviewLeaseRequest.Action req) ReviewDeny) as [_|Hd];
        [|exfalso; apply Hvalid; right; split; assumption]].
    all: cbn [negb andb orb]; unfold bind, ret;
      destruct (Hpost _
                  (Some (Marshal_map {[ "action" := ReviewLeaseRequest.Action req ]}))
                  Hstatus Hurl) as (resp & sent' & ->); reflexivity.
  - unfold FreezeLease. apply String.eqb_neq in Hvalid. rewrite Hvalid.
    unfold bind, ret.
    destruct (Hpost _ None Hstatus Hurl) as (resp & sent' & ->); reflexivity.
  - unfold TerminateLease. apply String.eqb_neq in Hvalid. rewrite Hvalid.
    unfold bind, ret.
    destruct (Hpost _ None Hstatus Hurl) as (resp & sent' & ->); reflexivity.
  - unfold RetryCleanup. apply String.eqb_neq in Hvalid. rewrite Hvalid.
    unfold bind, ret.
    destruct (Hpost _ None Hstatus Hurl) as (resp & sent' & ->); reflexivity.
  - unfold EjectAccount. apply String.eqb_neq in Hvalid. rewrite Hvalid.
    unfold bind, ret.
    destruct (Hpost _ None Hstatus Hurl) as (resp & sent' & ->); reflexivity.
  - unfold DeleteLeaseTemplate. apply String.eqb_neq in Hvalid. rewrite Hvalid.
    unfold bind, ret.
    destruct (Hdelete _ Hstatus Hurl) as (resp & sent' & ->); reflexivity.
Qed.
End OperationsOnReply.

Lemma error_only_operations_ignore_body_witness :
  (Ref.ReviewLease (Ref.always 200 "application/json" Ref.failJSON) Ref.client
     (Some {| ReviewLeaseRequest.LeaseID := "lease123";
              ReviewLeaseRequest.Action := "Approve" |}) []).1
  = Returns None.
Proof.
  edestruct (@error_only_operations_ignore_body Ref.json Ref.platform
               (Ref.always 200 "application/json" Ref.failJSON) Ref.client [])
    as (Hreview & _);
    [intros wire; reflexivity | intros wire; vm_compute; reflexivity |].
  apply Hreview.
  - left. reflexivity.
  - intros [Hid | [Happrove _]]; [discriminate Hid | apply Happrove; reflexivity].
  - eexists. vm_compute. reflexivity.
Defined.

Section Credentials.
Context `{EncodingJSON} `{EncodingJSONMore} `{Platform}.
Variable srv : Server.
Variable c : Client.t.
Variable sent : list Request.t.

(** X17: [CreateLeaseAsUser] signs claims of its own: the user claims of the
    given e-mail address (display name GitHub, role User), issued now and
    expiring fifteen minutes later.  When the signer fails it returns the
    error under the operation jwt_gen and sends nothing.  Otherwise the one
    request it sends is a POST with content type application/json whose
    Authorization header is the bearer of that token: the token and the
    transport of the client play no part in it. *)
Theorem CreateLeaseAsUser_sends_its_own_token (req : CreateLeaseRequest.t)
    (userEmail jwtSecret : string) :
  CreateLeaseRequest.LeaseTemplateUUID req <> "" ->
  let leaseURL := Client.BaseURL c ++ "/leases" in
  let claims :=
    {| Claims.User := {| UserClaims.DisplayName := "GitHub";
                         UserClaims.UserName := userEmail;
                         UserClaims.Email := userEmail;
                         UserClaims.Roles := ["User"] |};
       Claims.IssuedAt := time_Now;
       Claims.ExpiresAt := time_Now + 900000000000 |} in
  let run := CreateLeaseAsUser srv c (Some req) userEmail jwtSecret sent in
  match SignedString_HS256 claims jwtSecret with
  | inl err => run = (Returns (None, Some (APIRequestError "jwt_gen" leaseURL err)), sent)
  | inr jwt =>
      match url_Parse leaseURL with
      | inl err =>
          run = (Returns (None, Some (APIRequestError "new_request" leaseURL err)), sent)
      | inr u =>
          run.2 = (sent ++ [{| Request.Method := "POST"; Request.URL := u;
                               Request.ContentType := "application/json";
                               Request.Authorization := "Bearer " ++ jwt;
                               Request.Body := Some (createLeaseBody req) |}])%list
      end
  end.
Proof.
  intros Hid leaseURL claims run. subst leaseURL claims run.
  apply String.eqb_neq in Hid.
  unfold CreateLeaseAsUser, GenerateJWT, NewUserUserClaims, RoleUser,
    NewRequestWithContext, minute, second.
  rewrite Hid.
  change (15 * (60 * 1000000000)) with 900000000000.
  destruct (SignedString_HS256 _ jwtSecret) as [err|jwt]; [reflexivity|].
  destruct (url_Parse (Client.BaseURL c ++ "/leases")) as [err|u]; [reflexivity|].
  reflexivity.
Qed.

(** X18: [RegisterAccount] checks nothing: for every request, a nil one and
    one without an account identifier included, it marshals the request and
    posts the result to /accounts. *)
Theorem RegisterAccount_sends_any_request (req : option RegisterAccountRequest.t) :
  let urlStr := Client.BaseURL c ++ "/accounts" in
  let run := RegisterAccount srv c req sent in
  match Marshal_RegisterAccountRequest req with
  | inl err => run = (Returns (None, Some (APIRequestError "marshal" urlStr err)), sent)
  | inr body =>
      match url_Parse urlStr with
      | inl err =>
          run = (Returns (None, Some (APIRequestError "new_request" urlStr err)), sent)
      | inr u =>
          run.2 = (sent ++ [wireRequest c "POST" u "application/json" (Some body)])%list
      end
  end.
Proof.
  intros urlStr run. subst urlStr run. unfold RegisterAccount.
  destruct (Marshal_RegisterAccountRequest req) as [err|body]; [reflexivity|].
  destruct (url_Parse (Client.BaseURL c ++ "/accounts")) as [err|u] eqn:Hu.
  - unfold bind, ret, doPost, NewRequestWithContext. rewrite Hu. reflexivity.
  - destruct (helpers_unfold srv c sent _ u (Some body) Hu) as (_ & Hpost & _).
    unfold bind. rewrite Hpost.
    destruct (checkResponse _ _ _ _ _) as [resp err]. reflexivity.
Qed.
End Credentials.

Lemma CreateLeaseAsUser_sends_its_own_token_witness :
  (Ref.CreateLeaseAsUser (Ref.always 201 "application/json" Ref.leaseJSON) Ref.client
     (Some Ref.createRequest) "user@example.com" "secret" []).2
  = [{| Request.Method := "POST";
        Request.URL := {| URL.Scheme := "https"; URL.Host := "sandbox.example.com";
                          URL.Path := "/api/leases"; URL.RawQuery := "" |};
        Request.ContentType := "application/json";
        Request.Authorization := "Bearer header.user@example.com.signature";
        Request.Body := Some (createLeaseBody (H := Ref.json) Ref.createRequest) |}].
Proof.
  exact (@CreateLeaseAsUser_sends_its_own_token Ref.json Ref.platform
           (Ref.always 201 "application/json" Ref.leaseJSON) Ref.client []
           Ref.createRequest "user@example.com" "secret" ltac:(discriminate)).
Defined.

(** ** Query parameters *)

Lemma setAll_lookup (fields : list (string * string)) (q : Values)
    (k : string) (vs : list string) :
  NoDup (map fst fields) ->
  setAll fields q !! k = Some vs
  <-> (exists v, vs = [v] /\ v <> "" /\ (k, v) ∈ fields)
      \/ (q !! k = Some vs /\ forall v, (k, v) ∈ fields -> v = "").
Proof.
  revert q. induction fields as [|[k0 v0] fields IH]; intros q Hnodup.
  - cbn. split.
    + intros Hq. right. split; [exact Hq|]. intros v Hin. inversion Hin.
    + intros [(v & _ & _ & Hin)|[Hq _]]; [inversion Hin | exact Hq].
  - cbn [map fst] in Hnodup. apply NoDup_cons in Hnodup as [Hfresh Hnodup].
    change (setAll ((k0, v0) :: fields) q)
      with (setAll fields (setIfNonEmpty k0 v0 q)).
    rewrite (IH _ Hnodup). clear IH.
    assert (Hrest : forall v, (k0, v) ∈ fields -> False).
    { intros v Hin. apply Hfresh. apply list_elem_of_In.
      apply list_elem_of_In in Hin. exact (in_map fst _ _ Hin). }
    unfold setIfNonEmpty, Values_Set.
    destruct (String.eqb_spec v0 "") as [->|Hv0].
    + split.
      * intros [(v & -> & Hv & Hin)|[Hq Hempty]].
        -- left. exists v. repeat split; [exact Hv | right; exact Hin].
        -- right. split; [exact Hq|]. intros v Hin.
           apply elem_of_cons in Hin as [Heq|Hin]; [congruence | eauto].
      * intros [(v & -> & Hv & Hin)|[Hq Hempty]].
        -- left. exists v. repeat split; [exact Hv|].
           apply elem_of_cons in Hin as [Heq|Hin]; [congruence | exact Hin].
        -- right. split; [exact Hq|]. intros v Hin. apply Hempty. right. exact Hin.
    + destruct (decide (k = k0)) as [->|Hk].
      * rewrite lookup_insert_eq. split.
        -- intros [(v & _ & _ & Hin)|[Hq _]]; [destruct (Hrest v Hin)|].
           left. exists v0. repeat split; [congruence | exact Hv0 | left].
        -- intros [(v & -> & Hv & Hin)|[_ Hempty]].
           ++ apply elem_of_cons in Hin as [Heq|Hin]; [|destruct (Hrest v Hin)].
              right. split; [congruence|]. intros v' Hin'. destruct (Hrest v' Hin').
           ++ destruct Hv0. apply Hempty. left.
      * rewrite lookup_insert_ne by congruence. split.
        -- intros [(v & -> & Hv & Hin)|[Hq Hempty]].
           ++ left. exists v. repeat split; [exact Hv | right; exact Hin].
           ++ right. split; [exact Hq|]. intros v Hin.
              apply elem_of_cons in Hin as [Heq|Hin]; [congruence | eauto].
        -- intros [(v & -> & Hv & Hin)|[Hq Hempty]].
           ++ left. exists v. repeat split; [exact Hv|].
              apply elem_of_cons in Hin as [Heq|Hin]; [congruence | exact Hin].
           ++ right. split; [exact Hq|]. intros v Hin. apply Hempty. right. exact Hin.
Qed.

Lemma setAll_holds {R} `{Parameters R} (r : R) :
  NoDup (map fst (parameters r)) -> holdsNonEmptyFields (setAll (parameters r) ∅) r.
Proof.
  intros Hnodup k vs. rewrite (setAll_lookup _ _ _ _ Hnodup). split.
  - intros [Hfield|[Hempty _]]; [exact Hfield|].
    rewrite lookup_empty in Hempty. discriminate.
  - intros Hfield. left. exact Hfield.
Qed.

Ltac distinct_names :=
  cbn [map fst parameters]; repeat (apply NoDup_cons; split);
  [ rewrite ?elem_of_cons, elem_of_nil; intuition discriminate .. | apply NoDup_nil_2 ].

(** X19: what [BuildQuery] puts into a query, for each of the five request
    types: a parameter is present exactly when its field is not empty, it
    then holds that field as its only value, and no other name is present.
    For a nil request the query is empty. *)
Theorem BuildQuery_holds_non_empty_fields :
  (forall r : GetLeasesRequest.t, holdsNonEmptyFields (BuildQuery (Some r)) r)
  /\ (forall r : GetLeaseByIDRequest.t, holdsNonEmptyFields (BuildQuery (Some r)) r)
  /\ (forall r : CreateLeaseRequest.t, holdsNonEmptyFields (BuildQuery (Some r)) r)
  /\ (forall r : GetLeaseTemplatesRequest.t, holdsNonEmptyFields (BuildQuery (Some r)) r)
  /\ (forall r : GetAccountsRequest.t, holdsNonEmptyFields (BuildQuery (Some r)) r)
  /\ BuildQuery (@None GetLeaseByIDRequest.t) = ∅
  /\ BuildQuery (@None CreateLeaseRequest.t) = ∅.
Proof.
  repeat apply conj; try reflexivity; intros r;
    change (holdsNonEmptyFields (setAll (parameters r) ∅) r);
    apply setAll_holds; distinct_names.
Qed.

Lemma GetLeaseByIDRequest_round_trip (r : GetLeaseByIDRequest.t) :
  ParseQuery (Values_Encode (BuildQuery (Some r))) = (BuildQuery (Some r), None).
Proof.
  destruct r as [i].
  unfold BuildQuery, GetLeaseByIDRequest_BuildQuery, setIfNonEmpty, Values_Set.
  cbn [GetLeaseByIDRequest.LeaseID].
  destruct (i =? "")%string;
    [ round_trip (@nil (string * string)) | round_trip [("leaseId", i)] ].
Qed.

Lemma CreateLeaseRequest_round_trip (r : CreateLeaseRequest.t) :
  ParseQuery (Values_Encode (BuildQuery (Some r))) = (BuildQuery (Some r), None).
Proof.
  destruct r as [u c].
  unfold BuildQuery, CreateLeaseRequest_BuildQuery, setIfNonEmpty, Values_Set.
  cbn [CreateLeaseRequest.LeaseTemplateUUID CreateLeaseRequest.Comments].
  destruct (u =? "")%string, (c =? "")%string;
    [ round_trip (@nil (string * string))
    | round_trip [("comments", c)]
    | round_trip [("leaseTemplateUuid", u)]
    | round_trip [("comments", c); ("leaseTemplateUuid", u)] ].
Qed.

(** X20: for every request of the five types, whichever of its fields are
    empty and whatever bytes the others hold, the query [BuildQuery] makes
    of it survives [Encode] and [ParseQuery] unchanged, without a parse
    error. *)
Theorem every_request_round_trips :
  (forall r : GetLeasesRequest.t,
     ParseQuery (Values_Encode (BuildQuery (Some r))) = (BuildQuery (Some r), None))
  /\ (forall r : GetLeaseByIDRequest.t,
        ParseQuery (Values_Encode (BuildQuery (Some r))) = (BuildQuery (Some r), None))
  /\ (forall r : CreateLeaseRequest.t,
        ParseQuery (Values_Encode (BuildQuery (Some r))) = (BuildQuery (Some r), None))
  /\ (forall r : GetLeaseTemplatesRequest.t,
        ParseQuery (Values_Encode (BuildQuery (Some r))) = (BuildQuery (Some r), None))
  /\ (forall r : GetAccountsRequest.t,
        ParseQuery (Values_Encode (BuildQuery (Some r))) = (BuildQuery (Some r), None)).
Proof.
  split; [exact GetLeasesRequest_round_trip|].
  split; [exact GetLeaseByIDRequest_round_trip|].
  split; [exact CreateLeaseRequest_round_trip|].
  split; [exact GetLeaseTemplatesRequest_round_trip|].
  exact GetAccountsRequest_round_trip.
Qed.

(** ** Pagination, continued *)

(** X21: the drainer has no bound of its own.  Against a fetch function
    that never fails and returns a cursor with every page, no number of
    turns of the loop makes it return, whatever the pages hold and also when
    the same cursor comes back every time. *)
Theorem paginateAll_runs_while_cursors_come {T R W} `{PageIdentifiable R}
    (fetchPage : R -> W -> (list T * string * option error) * W) :
  alwaysMore fetchPage ->
  forall (fuel : nat) (req : R) (w : W), paginateAll fetchPage fuel req w = None.
Proof.
  intros Hmore fuel. unfold paginateAll. generalize (@nil T).
  induction fuel as [|fuel IH]; intros allItems req w; [reflexivity|].
  cbn [paginateAll_loop].
  destruct (Hmore req w) as [Herr Hnext].
  destruct (fetchPage req w) as [[[items nextPage] err] w'].
  cbn [fst snd] in Herr, Hnext. subst err.
  apply String.eqb_neq in Hnext. rewrite Hnext. apply IH.
Qed.

Lemma paginateAll_runs_while_cursors_come_witness :
  paginateAll
    (fun (req : GetLeasesRequest.t) (calls : nat) =>
       ((["lease"], "page2", None), S calls))
    1000
    {| GetLeasesRequest.PageIdentifier := ""; GetLeasesRequest.PageSize := "";
       GetLeasesRequest.UserEmail := "" |}
    0%nat
  = None.
Proof.
  apply (paginateAll_runs_while_cursors_come
           (fun (req : GetLeasesRequest.t) (calls : nat) =>
              ((["lease"], "page2", None), S calls))).
  intros req w. split; [reflexivity | discriminate].
Defined.

Lemma last_cons_head {A} (x : A) (l : list A) (d : A) :
  List.last (x :: l) d = List.last l x.
Proof.
  revert x d. induction l as [|y l IH]; intros x d; [reflexivity|].
  change (List.last (x :: y :: l) d) with (List.last (y :: l) d).
  rewrite (IH y d), (IH y x). reflexivity.
Qed.

(** X22: [SetPageIdentifier] writes the cursor field and nothing else.  So
    the request the drainer leaves to its caller holds the last cursor it
    was handed (its own when there was none), and its page size and user
    e-mail address are those the caller passed. *)
Theorem SetPageIdentifier_writes_cursor_only (cursors : list string) :
  (forall req : GetLeasesRequest.t,
     GetLeasesRequest.PageIdentifier (lastRequest req cursors)
     = List.last cursors (GetLeasesRequest.PageIdentifier req)
     /\ GetLeasesRequest.PageSize (lastRequest req cursors)
        = GetLeasesRequest.PageSize req
     /\ GetLeasesRequest.UserEmail (lastRequest req cursors)
        = GetLeasesRequest.UserEmail req)
  /\ (forall req : GetLeaseTemplatesRequest.t,
        GetLeaseTemplatesRequest.PageIdentifier (lastRequest req cursors)
        = List.last cursors (GetLeaseTemplatesRequest.PageIdentifier req)
        /\ GetLeaseTemplatesRequest.PageSize (lastRequest req cursors)
           = GetLeaseTemplatesRequest.PageSize req)
  /\ (forall req : GetAccountsRequest.t,
        GetAccountsRequest.PageIdentifier (lastRequest req cursors)
        = List.last cursors (GetAccountsRequest.PageIdentifier req)
        /\ GetAccountsRequest.PageSize (lastRequest req cursors)
           = GetAccountsRequest.PageSize req).
Proof.
  unfold lastRequest.
  split; [|split]; induction cursors as [|cursor rest IH]; intros req;
    try (repeat split; reflexivity);
    cbn [fold_left]; rewrite last_cons_head;
    [ destruct (IH (SetPageIdentifier cursor req)) as (-> & -> & ->)
    | destruct (IH (SetPageIdentifier cursor req)) as (-> & ->)
    | destruct (IH (SetPageIdentifier cursor req)) as (-> & ->) ];
    repeat split.
Qed.

(** ** The lease filters *)

Lemma fold_left_filter {A} (keep : A -> bool) (l filtered : list A) :
  fold_left (fun filtered x => if keep x then (filtered ++ [x])%list else filtered)
    l filtered
  = (filtered ++ List.filter keep l)%list.
Proof.
  revert filtered. induction l as [|x l IH]; intros filtered; cbn [fold_left List.filter].
  - rewrite app_nil_r. reflexivity.
  - rewrite IH. destruct (keep x); [|reflexivity].
    rewrite <- app_assoc. reflexivity.
Qed.

(** X23: the two filters return the leases of the response whose original
    template name, or UUID, is the given one, all of them and no others, in
    the order of the response; a lease that occurs twice is returned
    twice. *)
Theorem Filters_select_matching_leases (r : GetLeasesResponse.t) (wanted : string) :
  (FilterByLeaseTemplateName r wanted
   = List.filter (fun l => (Lease.OriginalLeaseTemplateName l =? wanted)%string)
       (GetLeasesResponse.Leases r)
   /\ forall l, In l (FilterByLeaseTemplateName r wanted)
                <-> In l (GetLeasesResponse.Leases r)
                    /\ Lease.OriginalLeaseTemplateName l = wanted)
  /\ (FilterByLeaseTemplateUUID r wanted
      = List.filter (fun l => (Lease.OriginalLeaseTemplateUuid l =? wanted)%string)
          (GetLeasesResponse.Leases r)
      /\ forall l, In l (FilterByLeaseTemplateUUID r wanted)
                   <-> In l (GetLeasesResponse.Leases r)
                       /\ Lease.OriginalLeaseTemplateUuid l = wanted).
Proof.
  unfold FilterByLeaseTemplateName, FilterByLeaseTemplateUUID.
  rewrite !fold_left_filter. cbn [app].
  split; (split; [reflexivity|]); intros l;
    rewrite filter_In, String.eqb_eq; reflexivity.
Qed.

(** ** The client's credentials *)

Section BearerToken.
Context `{EncodingJSON} `{Platform}.
Variable srv : Server.
Variable sent : list Request.t.

(** X24: a client made by [NewClient] keeps the base URL as given and sends
    every request of the five helpers with the Authorization header Bearer
    followed by its token; with an empty token it sends no Authorization
    header at all.  The method, the URL, the content type and the body are
    those of the helper. *)
Theorem NewClient_sends_bearer_token (baseURL token url : string) (u : URL.t)
    (body : option string) :
  url_Parse url = inr u ->
  let c := NewClient baseURL token in
  let wire method contentType data :=
    {| Request.Method := method; Request.URL := u;
       Request.ContentType := contentType;
       Request.Authorization := if (token =? "")%string then "" else "Bearer " ++ token;
       Request.Body := data |} in
  Client.BaseURL c = baseURL
  /\ (doGet srv c url sent).2 = (sent ++ [wire "GET" "" None])%list
  /\ (doPost srv c url body sent).2
     = (sent ++ [wire "POST" "application/json" (Some (string_of_bytes body))])%list
  /\ (doPatch srv c url body sent).2
     = (sent ++ [wire "PATCH" "application/json" (Some (string_of_bytes body))])%list
  /\ (doPut srv c url body sent).2
     = (sent ++ [wire "PUT" "application/json" (Some (string_of_bytes body))])%list
  /\ (doDelete srv c url sent).2 = (sent ++ [wire "DELETE" "" None])%list.
Proof.
  intros Hu c wire. subst c wire.
  destruct (helpers_unfold srv (NewClient baseURL token) sent url u body Hu)
    as (-> & -> & -> & -> & ->).
  unfold wireRequest, NewClient, RoundTrip, setHeaders.
  cbn [Client.HTTPClient HTTPClient.Transport Client.BaseURL snd Request.Method
       Request.URL Request.ContentType Request.Body].
  destruct (token =? "")%string; repeat split.
Qed.
End BearerToken.

Lemma NewClient_sends_bearer_token_witness :
  (Ref.doGet (Ref.always 200 "application/json" Ref.leaseJSON)
     (NewClient "https://sandbox.example.com/api" "token")
     "https://sandbox.example.com/api/leases" []).2
  = [{| Request.Method := "GET";
        Request.URL := {| URL.Scheme := "https"; URL.Host := "sandbox.example.com";
                          URL.Path := "/api/leases"; URL.RawQuery := "" |};
        Request.ContentType := "";
        Request.Authorization := "Bearer token";
        Request.Body := None |}].
Proof.
  edestruct (@NewClient_sends_bearer_token Ref.json Ref.platform
               (Ref.always 200 "application/json" Ref.leaseJSON) []
               "https://sandbox.example.com/api" "token"
               "https://sandbox.example.com/api/leases"
               {| URL.Scheme := "https"; URL.Host := "sandbox.example.com";
                  URL.Path := "/api/leases"; URL.RawQuery := "" |} None)
    as (_ & Hget & _); [vm_compute; reflexivity|].
  exact Hget.
Defined.

(** ** The requests of the operations *)

Section Endpoints.
Context `{EncodingJSON} `{EncodingJSONMore} `{Platform}.
Variable srv : Server.
Variable c : Client.t.
Variable sent : list Request.t.

Ltac hands_over :=
  let u := fresh "u" in
  let Hu := fresh "Hu" in
  intros u Hu; unfold bind;
  match goal with
  | |- context [doGet srv c ?url sent] =>
      destruct (helpers_unfold srv c sent url u None Hu) as (-> & _)
  | |- context [doPost srv c ?url ?body sent] =>
      destruct (helpers_unfold srv c sent url u body Hu) as (_ & -> & _)
  | |- context [doPatch srv c ?url ?body sent] =>
      destruct (helpers_unfold srv c sent url u body Hu) as (_ & _ & -> & _)
  | |- context [doPut srv c ?url ?body sent] =>
      destruct (helpers_unfold srv c sent url u body Hu) as (_ & _ & _ & -> & _)
  | |- context [doDelete srv c ?url sent] =>
      destruct (helpers_unfold srv c sent url u None Hu) as (_ & _ & _ & _ & ->)
  end;
  destruct (checkResponse _ _ _ _ _) as [? ?]; reflexivity.

(** X25: the request each operation makes, once its input is valid: the
    method, the path under the base URL, and the body.  The three list
    operations replace the query of the parsed base URL by the encoded
    parameters of the request, and leave it alone for a nil request; the
    five POSTs without a payload send an empty body with the content type
    application/json. *)
Theorem operations_requests :
  let base := Client.BaseURL c in
  let json := "application/json" in
  let listed {R} `{QueryBuilder R} (req : option (option R)) (u : URL.t) : string :=
    URL_String match req with
               | Some r => setRawQuery (Values_Encode (BuildQuery r)) u
               | None => u
               end in
  (forall R (builder : QueryBuilder R) req u,
     url_Parse (base ++ "/leases") = inr u ->
     handsOver c sent (GetLeases srv c req sent) "GET" (listed req u) "" None)
  /\ (forall R (builder : QueryBuilder R) req u,
     url_Parse (base ++ "/leaseTemplates") = inr u ->
     handsOver c sent (GetLeaseTemplates srv c req sent) "GET" (listed req u) "" None)
  /\ (forall R (builder : QueryBuilder R) req u,
     url_Parse (base ++ "/accounts") = inr u ->
     handsOver c sent (GetAccounts srv c req sent) "GET" (listed req u) "" None)
  /\ handsOver c sent (GetConfigurations srv c sent) "GET" (base ++ "/configurations")
       "" None
  /\ (forall req, GetLeaseByIDRequest.LeaseID req <> "" ->
     handsOver c sent (GetLeaseByID srv c (Some req) sent)
       "GET" (base ++ "/leases/" ++ GetLeaseByIDRequest.LeaseID req) "" None)
  /\ (forall req, CreateLeaseRequest.LeaseTemplateUUID req <> "" ->
     handsOver c sent (CreateLease srv c (Some req) sent)
       "POST" (base ++ "/leases") json (Some (createLeaseBody req)))
  /\ (forall req body, UpdateLeaseRequest.LeaseID req <> "" ->
     Marshal_UpdateLeaseRequest req = inr body ->
     handsOver c sent (UpdateLease srv c (Some req) sent)
       "PATCH" (base ++ "/leases/" ++ UpdateLeaseRequest.LeaseID req) json (Some body))
  /\ (forall req, ~ invalidReview (Some req) ->
     handsOver c sent (ReviewLease srv c (Some req) sent)
       "POST" (base ++ "/leases/" ++ ReviewLeaseRequest.LeaseID req ++ "/review") json
       (Some (Marshal_map {[ "action" := ReviewLeaseRequest.Action req ]})))
  /\ (forall req, FreezeLeaseRequest.LeaseID req <> "" ->
     handsOver c sent (FreezeLease srv c (Some req) sent)
       "POST" (base ++ "/leases/" ++ FreezeLeaseRequest.LeaseID req ++ "/freeze") json
       (Some ""))
  /\ (forall req, TerminateLeaseRequest.LeaseID req <> "" ->
     handsOver c sent (TerminateLease srv c (Some req) sent)
       "POST" (base ++ "/leases/" ++ TerminateLeaseRequest.LeaseID req ++ "/terminate")
       json (Some ""))
  /\ (forall req body, UpdateLeaseTemplateRequest.LeaseTemplateID req <> "" ->
     Marshal_UpdateLeaseTemplateRequest req = inr body ->
     handsOver c sent (UpdateLeaseTemplate srv c (Some req) sent)
       "PUT" (base ++ "/leaseTemplates/" ++ UpdateLeaseTemplateRequest.LeaseTemplateID req)
       json (Some body))
  /\ (forall req, DeleteLeaseTemplateRequest.LeaseTemplateID req <> "" ->
     handsOver c sent (DeleteLeaseTemplate srv c (Some req) sent)
       "DELETE" (base ++ "/leaseTemplates/"
                   ++ DeleteLeaseTemplateRequest.LeaseTemplateID req) "" None)
  /\ (forall req, RetryCleanupRequest.AwsAccountId req <> "" ->
     handsOver c sent (RetryCleanup srv c (Some req) sent)
       "POST" (base ++ "/accounts/" ++ RetryCleanupRequest.AwsAccountId req
                 ++ "/retryCleanup") json (Some ""))
  /\ (forall req, EjectAccountRequest.AwsAccountId req <> "" ->
     handsOver c sent (EjectAccount srv c (Some req) sent)
       "POST" (base ++ "/accounts/" ++ EjectAccountRequest.AwsAccountId req ++ "/eject")
       json (Some "")).
Proof.
  intros base json listed. subst base json listed. unfold handsOver.
  repeat apply conj.
  - intros R builder req u0 Hu0. unfold GetLeases. rewrite Hu0. hands_over.
  - intros R builder req u0 Hu0. unfold GetLeaseTemplates. rewrite Hu0. hands_over.
  - intros R builder req u0 Hu0. unfold GetAccounts. rewrite Hu0. hands_over.
  - unfold GetConfigurations. hands_over.
  - intros req Hid. apply String.eqb_neq in Hid.
    unfold GetLeaseByID. rewrite Hid. hands_over.
  - intros req Hid. apply String.eqb_neq in Hid.
    unfold CreateLease. rewrite Hid. hands_over.
  - intros req body Hid Hbody. apply String.eqb_neq in Hid.
    unfold UpdateLease. rewrite Hid, Hbody. hands_over.
  - intros req Hvalid. unfold ReviewLease, invalidReview in *.
    destruct (String.eqb_spec (ReviewLeaseRequest.LeaseID req) "") as [Hid|_];
      [exfalso; apply Hvalid; left; exact Hid|].
    destruct (String.eqb_spec (ReviewLeaseRequest.Action req) ReviewApprove) as [_|Ha];
      [|destruct (String.eqb_spec (ReviewLeaseRequest.Action req) ReviewDeny) as [_|Hd];
        [|exfalso; apply Hvalid; right; split; assumption]].
    all: cbn [negb andb orb]; hands_over.
  - intros req Hid. apply String.eqb_neq in Hid.
    unfold FreezeLease. rewrite Hid. hands_over.
  - intros req Hid. apply String.eqb_neq in Hid.
    unfold TerminateLease. rewrite Hid. hands_over.
  - intros req body Hid Hbody. apply String.eqb_neq in Hid.
    unfold UpdateLeaseTemplate. rewrite Hid, Hbody. hands_over.
  - intros req Hid. apply String.eqb_neq in Hid.
    unfold DeleteLeaseTemplate. rewrite Hid. hands_over.
  - intros req Hid. apply String.eqb_neq in Hid.
    unfold RetryCleanup. rewrite Hid. hands_over.
  - intros req Hid. apply String.eqb_neq in Hid.
    unfold EjectAccount. rewrite Hid. hands_over.
Qed.
End Endpoints.

Lemma operations_validate_identifier_witness :
  Ref.FreezeLease Ref.unreachable Ref.client None []
  = (Returns (Some (APIRequestError "param" "" (errorString "LeaseID is required"))), []).
Proof.
  destruct (@operations_validate_identifier Ref.json Ref.jsonMore Ref.platform
              Ref.unreachable Ref.client [])
    as (_ & _ & _ & _ & Hfreeze & _).
  exact (Hfreeze None I).
Defined.

Lemma GetConfigurations_returns_iff_GET_succeeds_witness :
  exists reason,
    (Ref.GetConfigurations Ref.unreachable Ref.client []).1 = Panics reason.
Proof.
  destruct (@GetConfigurations_returns_iff_GET_succeeds Ref.json Ref.platform
              Ref.unreachable Ref.client [])
    as (_ & Hpanics & _).
  eapply Hpanics. reflexivity.
Defined.

Lemma operations_requests_witness :
  (Ref.GetLeaseByID (Ref.always 200 "application/json" Ref.leaseJSON) Ref.client
     (Some {| GetLeaseByIDRequest.LeaseID := "abc" |}) []).2
  = [{| Request.Method := "GET";
        Request.URL := {| URL.Scheme := "https"; URL.Host := "sandbox.example.com";
                          URL.Path := "/api/leases/abc"; URL.RawQuery := "" |};
        Request.ContentType := "";
        Request.Authorization := "Bearer token";
        Request.Body := None |}].
Proof.
  destruct (@operations_requests Ref.json Ref.jsonMore Ref.platform
              (Ref.always 200 "application/json" Ref.leaseJSON) Ref.client [])
    as (_ & _ & _ & _ & Hget & _).
  apply (Hget {| GetLeaseByIDRequest.LeaseID := "abc" |} ltac:(discriminate)
           {| URL.Scheme := "https"; URL.Host := "sandbox.example.com";
              URL.Path := "/api/leases/abc"; URL.RawQuery := "" |}).
  vm_compute. reflexivity.
Defined.
